(** * WebRTC-SIP gateway: a shallow embedding of the signalling engine

    The development follows [src/server/plugins/sipGateway.js], the module
    that [src/server/signaling-server.js] loads with
    [require('./plugins/sipGateway')].  The repository holds a second
    revision of the same class in [src/unnamed/part_000]; where the two
    revisions differ, both are embedded, the first under the source's names
    and the second in a module named [Rev].

    JavaScript strings are modelled as [string] (sequences of 8-bit
    characters: SIP is an ASCII protocol), numbers that the code only uses
    as non-negative integers as [N], [Map] objects as [gmap].  An [async]
    function is cut at each [await] of a media-relay call: the part before
    the [await] is one atomic step, the part after it a continuation that is
    resumed by a later step, so that the interleavings Node.js allows are
    the interleavings of the model. *)

From Stdlib Require Import ZArith NArith String Ascii List Lia Bool DecimalString.
From Stdlib Require DecimalN DecimalPos.
From stdpp Require Import base option gmap strings.

Local Open Scope string_scope.
Local Open Scope N_scope.

(** ** JavaScript string primitives *)

Module JsString.

(** [s.substring(n)] for [n <= s.length]. *)
Fixpoint drop (n : nat) (s : string) : string :=
  match n, s with
  | O, _ => s
  | S _, EmptyString => EmptyString
  | S n', String _ t => drop n' t
  end.

(** [s.startsWith(p)] *)
Definition startsWith (s p : string) : bool := String.prefix p s.

(** [s.includes(sub)] *)
Fixpoint includes (s sub : string) : bool :=
  match s with
  | EmptyString => startsWith s sub
  | String _ t => startsWith s sub || includes t sub
  end.

(** [s.replace(pat, rep)] with a string (or metacharacter-free regular
    expression) pattern: only the first occurrence is replaced. *)
Fixpoint replace (s pat rep : string) : string :=
  match s with
  | EmptyString => if startsWith s pat then rep else EmptyString
  | String c t =>
      if startsWith s pat then rep ++ drop (String.length pat) s
      else String c (replace t pat rep)
  end.

(** The character class [\d]. *)
Definition is_digit (c : ascii) : bool :=
  let n := N_of_ascii c in (48 <=? n) && (n <=? 57).

(** The character class [\s], on 8-bit characters: TAB, LF, VT, FF, CR
    and the space. *)
Definition is_space (c : ascii) : bool :=
  let n := N_of_ascii c in ((9 <=? n) && (n <=? 13)) || (n =? 32).

(** Longest prefix of [s] whose characters satisfy [p], and the rest:
    what a greedy [p*] consumes. *)
Fixpoint span (p : ascii -> bool) (s : string) : string * string :=
  match s with
  | EmptyString => (EmptyString, EmptyString)
  | String c t =>
      if p c then let (a, b) := span p t in (String c a, b)
      else (EmptyString, s)
  end.

(** [s.replace(/<lit>\d*/, rep)]: the first occurrence of [lit] together
    with every decimal digit that follows it is replaced by [rep]. *)
Fixpoint replaceLitDigits (s lit rep : string) : string :=
  match s with
  | EmptyString => if startsWith s lit then rep else EmptyString
  | String c t =>
      if startsWith s lit
      then rep ++ snd (span is_digit (drop (String.length lit) s))
      else String c (replaceLitDigits t lit rep)
  end.

(** [String(n)] and [`${n}`] for a non-negative integer. *)
Definition ofN (n : N) : string := NilEmpty.string_of_uint (N.to_uint n).

(** [parseInt(d)] for a string [d] of decimal digits. *)
Definition parseInt (d : string) : N :=
  (fix go (acc : N) (s : string) : N :=
     match s with
     | EmptyString => acc
     | String c t => go (10 * acc + (N_of_ascii c - 48)) t
     end) 0 d.

Fixpoint last (s : string) (d : ascii) : ascii :=
  match s with
  | EmptyString => d
  | String c t => last t c
  end.

(** The double quote, as a one-character string. *)
Definition quote : string := String (ascii_of_nat 34) EmptyString.

Fixpoint all (p : ascii -> bool) (s : string) : bool :=
  match s with
  | EmptyString => true
  | String c t => p c && all p t
  end.

End JsString.

(** ** NAT fixup of the top Via ([handleNATForRequest]) *)

Module Nat_fixup.
Import JsString.

(** The [rinfo] of a datagram. *)
Record rinfo := { address : string; port : N }.

(** The optional group [(?::(\d+))?] at the start of [s]. *)
Definition port_group (s : string) : option string :=
  match s with
  | String ":" t =>
      match fst (span is_digit t) with
      | EmptyString => None
      | d => Some d
      end
  | _ => None
  end.

Definition not_colon_semi (c : ascii) : bool :=
  negb (Ascii.eqb c ":" || Ascii.eqb c ";").

(** [/SIP\/2\.0\/UDP\s+([^:;]+)(?::(\d+))?/] anchored at the start of
    [s].  The class [[^:;]] contains the white space, so when nothing but
    [:], [;] or the end follows the white space, the backtracking gives
    the last white-space character to group 1. *)
Definition via_match_here (s : string) : option (string * option string) :=
  if startsWith s "SIP/2.0/UDP" then
    let (ws, r1) := span is_space (drop 11 s) in
    let (h, r2) := span not_colon_semi r1 in
    match ws, h with
    | EmptyString, _ => None
    | String _ _, String _ _ => Some (h, port_group r2)
    | String _ EmptyString, EmptyString => None
    | String c ws', EmptyString =>
        Some (String (last ws' c) EmptyString, port_group r1)
    end
  else None.

(** [viaHeader.match(...)]: the leftmost match. *)
Fixpoint via_match (s : string) : option (string * option string) :=
  match via_match_here s with
  | Some m => Some m
  | None =>
      match s with
      | EmptyString => None
      | String _ t => via_match t
      end
  end.

(** The body of [handleNATForRequest] on the top Via value: the string
    that is the top Via afterwards. *)
Definition fixVia (viaHeader : string) (r : rinfo) : string :=
  match viaHeader with
  | EmptyString => viaHeader
  | _ =>
    match via_match viaHeader with
    | None => viaHeader
    | Some (viaHost, g2) =>
        let viaPort := match g2 with Some d => parseInt d | None => 5060 end in
        if negb (String.eqb viaHost (address r)) || negb (viaPort =? port r) then
          if includes viaHeader "rport" then
            let updatedVia :=
              if includes viaHeader "rport="
              then replaceLitDigits viaHeader "rport=" ("rport=" ++ ofN (port r))
              else replace viaHeader "rport" ("rport=" ++ ofN (port r)) in
            if negb (includes updatedVia "received=")
            then updatedVia ++ ";received=" ++ address r
            else updatedVia
          else viaHeader
        else viaHeader
    end
  end.

(** [request.headers['via']]: an array after [addHeader], a plain string
    when the compact form [v:] was expanded over it. *)
Inductive via_value :=
| ViaArray (l : list string)
| ViaString (s : string).

(** [Array.isArray(via) ? via[0] : via]; [None] stands for [undefined]. *)
Definition topVia (v : option via_value) : option string :=
  match v with
  | Some (ViaArray l) => List.head l
  | Some (ViaString s) => Some s
  | None => None
  end.

(** [handleNATForRequest] on the [via] header of the request. *)
Definition handleNATForRequest (v : option via_value) (r : rinfo)
  : option via_value :=
  match topVia v with
  | None => v
  | Some viaHeader =>
      let updatedVia := fixVia viaHeader r in
      match v with
      | Some (ViaArray (_ :: rest)) => Some (ViaArray (updatedVia :: rest))
      | Some (ViaString _) => Some (ViaString updatedVia)
      | _ => v
      end
  end.

(** A decimal digit is the first character of [s]. *)
Definition starts_with_digit (s : string) : bool :=
  match s with
  | String c _ => is_digit c
  | EmptyString => false
  end.

(** A decimal digit follows the first occurrence of [lit] in [s]. *)
Fixpoint digit_after_first (s lit : string) : bool :=
  match s with
  | EmptyString => false
  | String _ t =>
      if startsWith s lit then starts_with_digit (drop (String.length lit) s)
      else digit_after_first t lit
  end.

(** A Via of a host whose name contains [rport] and a digit, with the
    [rport] parameter, and the address its datagram comes from. *)
Definition via_airport : string :=
  "SIP/2.0/UDP airport1.example.com:5060;branch=z9hG4bK776;rport".

Definition nat_source : rinfo := {| address := "203.0.113.7"; port := 40000 |}.

End Nat_fixup.

(** ** Regular expressions of the engine, and SDP validation *)

Module SipText.
Import JsString.

(** The class [[^;\s>]] of [/branch=([^;\s>]+)/] and [/tag=([^;\s>]+)/]. *)
Definition param_char (c : ascii) : bool :=
  negb (Ascii.eqb c ";" || is_space c || Ascii.eqb c ">").

(** [s.match(/<lit>(<cls>+)/)]: group 1 of the leftmost match. *)
Fixpoint match_lit_class (lit : string) (cls : ascii -> bool) (s : string)
  : option string :=
  let here :=
    if startsWith s lit
    then match fst (span cls (drop (String.length lit) s)) with
         | EmptyString => None
         | g => Some g
         end
    else None in
  match here with
  | Some g => Some g
  | None =>
      match s with
      | EmptyString => None
      | String _ t => match_lit_class lit cls t
      end
  end.

(** [/branch=([^;\s>]+)/] *)
Definition match_branch : string -> option string :=
  match_lit_class "branch=" param_char.

(** [/tag=([^;\s>]+)/] *)
Definition match_tag : string -> option string :=
  match_lit_class "tag=" param_char.

(** [/<sip:([^@]+)/] *)
Definition match_sip_user : string -> option string :=
  match_lit_class "<sip:" (fun c => negb (Ascii.eqb c "@")).

(** [/sip:([^@]+@)?([^:;>]+)(?::(\d+))?/]: groups 2 and 3 of the leftmost
    match.  Group 1 can only end at the first [@]; when group 2 cannot
    start behind it, the match is retried without group 1. *)
Fixpoint match_sip_uri (s : string) : option (string * option string) :=
  let host_port (r : string) :=
    let (h, r2) :=
      span (fun c => negb (Ascii.eqb c ":" || Ascii.eqb c ";" || Ascii.eqb c ">")) r in
    match h with
    | EmptyString => None
    | _ => Some (h, match r2 with
                    | String ":" t =>
                        match fst (span is_digit t) with
                        | EmptyString => None
                        | d => Some d
                        end
                    | _ => None
                    end)
    end in
  let here :=
    if startsWith s "sip:" then
      let r := drop 4 s in
      match span (fun c => negb (Ascii.eqb c "@")) r with
      | (String _ _, String _ r') =>
          match host_port r' with
          | Some m => Some m
          | None => host_port r
          end
      | _ => host_port r
      end
    else None in
  match here with
  | Some m => Some m
  | None =>
      match s with
      | EmptyString => None
      | String _ t => match_sip_uri t
      end
  end.

(** [/<([^>]+)>/]: the closing [>] must follow the longest run. *)
Fixpoint match_angle (s : string) : option string :=
  match s with
  | EmptyString => None
  | String c t =>
      let here :=
        if Ascii.eqb c "<" then
          match span (fun c => negb (Ascii.eqb c ">")) t with
          | (String a g, String _ _) => Some (String a g)
          | _ => None
          end
        else None in
      match here with
      | Some g => Some g
      | None => match_angle t
      end
  end.

(** [s.trim()] *)
Fixpoint trimStart (s : string) : string :=
  match s with
  | String c t => if is_space c then trimStart t else s
  | EmptyString => s
  end.

Fixpoint trimEnd (s : string) : string :=
  match s with
  | EmptyString => EmptyString
  | String c t =>
      match trimEnd t with
      | EmptyString => if is_space c then EmptyString else String c EmptyString
      | t' => String c t'
      end
  end.

Definition trim (s : string) : string := trimEnd (trimStart s).

(** [s.split(';')[0]] *)
Definition before_semicolon (s : string) : string :=
  fst (span (fun c => negb (Ascii.eqb c ";")) s).

(** [s.split(/\r?\n/)] *)
Fixpoint split_lines (cur s : string) : list string :=
  match s with
  | EmptyString => [cur]
  | String c t =>
      if Ascii.eqb c "010" then cur :: split_lines EmptyString t
      else if Ascii.eqb c "013" then
        match t with
        | String "010" t' => cur :: split_lines EmptyString t'
        | _ => split_lines (cur ++ String c EmptyString) t
        end
      else split_lines (cur ++ String c EmptyString) t
  end.

(** An SDP as the engine receives it: a string, an object (with its
    [sdp] property, if any, and its [JSON.stringify] text), or anything
    else ([undefined], [null], a number), with its [typeof]. *)
Inductive sdp_value :=
| SdpStr (s : string)
| SdpObj (sdp : option string) (json : string)
| SdpOther (typeof : string).

Definition some_line (ls : list string) (ps : list string) : bool :=
  existsb (fun line => existsb (startsWith line) ps) ls.

(** The string [validateSDP] goes on to check, or the message of the
    error it throws on the type of its argument. *)
Definition sdpString (sdp : sdp_value) : string + string :=
  match sdp with
  | SdpStr s => inl s
  | SdpObj (Some s) json => if String.eqb s "" then inl json else inl s
  | SdpObj None json => inl json
  | SdpOther t => inr ("Invalid SDP type: " ++ t)
  end.

(** [validateSDP] of [sipGateway.js]: [None] when it returns [true],
    [Some msg] when it throws [new Error(msg)]. *)
Definition validateSDP (sdp : sdp_value) : option string :=
  match sdpString sdp with
  | inr msg => Some msg
  | inl s =>
      if String.eqb (trim s) "" then Some "SDP is empty"
      else
        let lines := split_lines EmptyString s in
        if negb (startsWith (List.hd EmptyString lines) "v=")
        then Some "SDP must start with version line (v=)"
        else if negb (some_line lines ["m=audio"; "m=video"])
        then Some "SDP must contain at least one media line (m=audio or m=video)"
        else if negb (some_line lines ["c=IN IP4"; "c=IN IP6"])
        then Some "SDP must contain connection information (c=)"
        else if negb (some_line lines ["o="])
        then Some "SDP must contain origin line (o=)"
        else if negb (some_line lines ["s="])
        then Some "SDP must contain session name (s=)"
        else None
  end.

End SipText.

(** ** Bounded retries around a media-relay call *)

Module Retry.

(** What one invocation of [operation()] settles to. *)
Inductive outcome (A E : Type) :=
| Resolved (a : A)
| Rejected (e : E).
Arguments Resolved {A E} a.
Arguments Rejected {A E} e.

(** How the wrapper ends: [return], [throw], or falling off the loop. *)
Inductive completion (A E : Type) :=
| Return (a : A)
| Throw (e : E)
| ReturnUndefined.
Arguments Return {A E} a.
Arguments Throw {A E} e.
Arguments ReturnUndefined {A E}.

(** What the wrapper does, in order: the (0-based) [i]-th invocation of
    the operation, a [setTimeout] wait of [ms] milliseconds. *)
Inductive retry_event :=
| Attempt (i : nat)
| Sleep (ms : N).

Section Loop.
Context {A E : Type}.
(** [unit] is the factor of the wait: [unit * (i + 1)] milliseconds. *)
Variable unit : N.
(** [operation i] is what the [i]-th invocation settles to. *)
Variable operation : nat -> outcome A E.
Variable retries : nat.

(** The [for] loop from index [i]; [fuel] bounds the iterations. *)
Fixpoint retry_loop (fuel i : nat) : list retry_event * completion A E :=
  match fuel with
  | O => ([], ReturnUndefined)
  | S fuel' =>
      if (i <? retries)%nat then
        match operation i with
        | Resolved a => ([Attempt i], Return a)
        | Rejected e =>
            if (i =? retries - 1)%nat then ([Attempt i], Throw e)
            else
              let (tr, c) := retry_loop fuel' (S i) in
              (Attempt i :: Sleep (unit * (N.of_nat i + 1)) :: tr, c)
        end
      else ([], ReturnUndefined)
  end.
End Loop.

(** [rtpengineOperationWithRetry(operation, retries = 3)] of
    [sipGateway.js]: the wait is [100 * (i + 1)] ms. *)
Definition rtpengineOperationWithRetry {A E} (operation : nat -> outcome A E)
    (retries : nat) : list retry_event * completion A E :=
  retry_loop 100 operation retries retries 0.

(** The relay call of [initialize]: [rtpengineClient.ping] is awaited
    directly, in both revisions; a rejection is rethrown. *)
Definition initialize_ping {A E} (ping : nat -> outcome A E)
  : list retry_event * completion A E :=
  match ping O with
  | Resolved a => ([Attempt O], Return a)
  | Rejected e => ([Attempt O], Throw e)
  end.

(** The number of invocations of the operation in a trace. *)
Definition attempts (tr : list retry_event) : nat :=
  List.length
    (List.filter (fun ev => match ev with Attempt _ => true | _ => false end) tr).

(** The trace of [k] failed attempts followed by attempt [k], counted from
    the loop index [i]. *)
Fixpoint backoff_trace (unit : N) (i k : nat) : list retry_event :=
  match k with
  | O => [Attempt i]
  | S k' =>
      Attempt i :: Sleep (unit * (N.of_nat i + 1)) :: backoff_trace unit (S i) k'
  end.

End Retry.

(** ** Identifier generators *)

Module Generate.
Import JsString.

(** A source of random bytes: [rnd i] is the [i]-th byte drawn. *)
Definition entropy := nat -> Byte.byte.

(** [crypto.randomBytes(n)], drawing from position [off]. *)
Definition randomBytes (rnd : entropy) (off n : nat) : list Byte.byte :=
  List.map rnd (List.seq off n).

Definition hex_digit (n : N) : ascii :=
  match String.get (N.to_nat n) "0123456789abcdef" with
  | Some c => c
  | None => "0"%char
  end.

(** [buf.toString('hex')] *)
Fixpoint toHex (bs : list Byte.byte) : string :=
  match bs with
  | [] => EmptyString
  | b :: t =>
      let n := Byte.to_N b in
      String (hex_digit (n / 16)) (String (hex_digit (n mod 16)) (toHex t))
  end.

(** The generators of [sipGateway.js].  [now] is [Date.now()] and [r]
    is [Math.floor(Math.random() * 1000000)]. *)
Definition generateCallId (now r : N) (advertiseIP : string) : string :=
  ofN now ++ ofN r ++ "@" ++ advertiseIP.

Definition generateTag (rnd : entropy) (off : nat) : string :=
  toHex (randomBytes rnd off 6).

Definition generateBranch (rnd : entropy) (off : nat) : string :=
  "z9hG4bK" ++ toHex (randomBytes rnd off 16).

(** Lower-case hexadecimal digit. *)
Definition is_hex (c : ascii) : bool :=
  let n := N_of_ascii c in
  ((48 <=? n) && (n <=? 57)) || ((97 <=? n) && (n <=? 102)).

End Generate.

(** ** The engine: data *)

Module SipGateway.
Import JsString SipText Nat_fixup Retry Generate.

(** [this.config], with [this.advertiseIP].  The two ports of the
    configuration are UDP ports, between 1 and 65535. *)
Record config := {
  sipServerHost : string;
  sipServerPort : N;
  sipDomain : string;
  displayName : string;
  localSipPort : N;
  maxConcurrentSessions : N;
  advertiseIP : string
}.

(** RFC 3261 timer values of the constructor, in milliseconds. *)
Definition T1 : N := 500.
Definition T2 : N := 4000.
Definition TIMER_B : N := 64 * T1.
Definition TIMER_F : N := 64 * T1.
Definition TIMER_H : N := 64 * T1.

(** A parsed request with the header fields the engine reads; the five
    fields every SIP request carries are present, [via] as
    [parseSipMessage] leaves it. *)
Record request := {
  method : string;
  uri : string;
  h_via : option via_value;
  h_from : string;
  h_to : string;
  h_call_id : string;
  h_cseq : string;
  h_content_type : option string;
  body : string
}.

(** A parsed response, or the synthetic one of a transaction timeout. *)
Record response := {
  status : N;
  reason : string;
  isTimeout : bool;
  rs_via : option via_value;
  rs_from : string;
  rs_to : option string;
  rs_call_id : string;
  rs_cseq : string;
  rs_contact : option string;
  rs_body : string
}.

Inductive message :=
| IsRequest (q : request)
| IsResponse (p : response).

(** A header value of a message the engine builds. *)
Inductive hvalue :=
| HStr (s : string)
| HOpt (s : option string)
| HVia (v : option via_value).

(** A message handed to [sendSipMessage]. *)
Inductive out_message :=
| OutResponse (status : N) (reason : string)
    (headers : list (string * hvalue)) (body : option string)
| OutRequest (method uri : string)
    (headers : list (string * hvalue)) (body : option string).

Inductive direction := outgoing | incoming.

Inductive dstate := calling | ringing | answered | established | terminating.

(** A session object.  [createdAt] is never read and is left out. *)
Record session := {
  dir : direction;
  webrtcClientId : option string;
  webrtcUserId : option string;
  fromTag : string;
  toTag : option string;
  state : dstate;
  targetUri : option string;
  cseq : N;
  viaBranch : option string;
  sipRequest : option request;
  s_rinfo : option rinfo;
  transactionKey : option string;
  from : option string;
  ackReceived : bool;
  retransmit200Count : N;
  retransmit200Interval : N;
  maxRetransmits : option N;
  retransmit200Timer : option nat;
  ackTimeoutTimer : option nat
}.

(** An entry of [inviteTransactions]. *)
Record invite_transaction := {
  it_callId : string;
  lastResponse : option (N * string * option string)
}.

(** An entry of [transactions]: the callback is always the closure of
    [makeCallToSip], which calls [handleInviteResponse] with these
    arguments. *)
Record transaction := {
  cb_callId : string;
  cb_fromTag : string;
  cb_targetUri : string;
  tx_timer : nat;
  tx_method : string
}.

(** What the media relay answers. *)
Record relay_response := {
  result : string;
  sdp : option string;
  error_reason : string
}.

Inductive relay_op := op_offer | op_answer | op_delete.

Definition relay_op_eqb (a b : relay_op) : bool :=
  match a, b with
  | op_offer, op_offer | op_answer, op_answer | op_delete, op_delete => true
  | _, _ => false
  end.

Record relay_payload := {
  p_call_id : string;
  p_from_tag : string;
  p_to_tag : option string;
  p_sdp : option sdp_value;
  p_profile : list (string * list string)
}.

Inductive event :=
| call_failed (id : option string) (why : string)
| sip_ringing (id : option string)
| call_answered (id : option string) (sdp : string)
| incoming_sip_call (callId from toUser : string) (sdp : option string)
| sip_call_ended (callId : string)
| call_ended (id : option string)
| media_renegotiation (id : option string) (callId : string) (sdp : string).

(** What the engine does to the outside. [Relay] is one call of
    [rtpengineOperationWithRetry]; [Threw] and [Returned] are how a call
    of the engine's API ends. *)
Inductive output :=
| Send (m : out_message) (host : string) (port : N)
| Relay (op : relay_op) (p : relay_payload)
| Emit (e : event)
| Threw (api msg : string)
| Returned (api value : string).

(** What runs after an awaited [cleanupSession]. *)
Inductive after_cleanup :=
| AfterNothing
| AfterEmit (e : event)
| AfterThrow (api msg : string).

(** The rest of an [async] function suspended on a media-relay call,
    with the variables it has captured. *)
Inductive kont :=
| KReInvite (q : request) (r : rinfo) (loc : nat)
| KMakeCall (callId fromTag branch : string) (cseq : N)
    (webrtcClientId targetSipUri : string)
| KInviteResponse (callId fromTag targetUri : string) (p : response)
    (loc : nat) (toTag : string)
| KIncomingInvite (q : request) (r : rinfo) (transactionKey callId fromTag
    callerUri targetUser : string)
| KAnswer (callId webrtcUserId : string) (loc : nat)
| KCleanup (callId : string) (after : after_cleanup).

(** The closure of an armed [setTimeout]. *)
Inductive closure :=
| TAckTimeout (loc : nat) (callId webrtcUserId : string)
| TRetransmit200 (loc : nat) (q : request) (sdp : string)
| TTransaction (transactionKey host : string) (port : N).

Record timer := { due : N; callback : closure }.

Record metrics := {
  activeSessions : Z;
  totalCalls : N;
  failedCalls : N;
  reInvites : N;
  retriedInvites : N
}.

(** The engine.  [sessions] maps a call identifier to the address of its
    session object in [heap], so that a closure or a suspended call that
    holds a session object keeps it after the map has dropped it.
    [clock] is the time in milliseconds, [out] the trace with its time
    stamps, latest last. *)
Record gw := {
  sessions : gmap string nat;
  heap : gmap nat session;
  inviteTransactions : gmap string invite_transaction;
  transactions : gmap string transaction;
  timers : gmap nat timer;
  pending : gmap nat kont;
  next : nat;
  clock : N;
  metric : metrics;
  out : list (N * output)
}.

Definition init : gw :=
  {| sessions := ∅; heap := ∅; inviteTransactions := ∅; transactions := ∅;
     timers := ∅; pending := ∅; next := 0; clock := 0;
     metric := {| activeSessions := 0; totalCalls := 0; failedCalls := 0;
                  reInvites := 0; retriedInvites := 0 |};
     out := [] |}.

(** *** Field updates *)

Definition set_webrtcUserId v (x : session) : session :=
  {| dir := dir x; webrtcClientId := webrtcClientId x; webrtcUserId := v; fromTag := fromTag x; toTag := toTag x; state := state x; targetUri := targetUri x; cseq := cseq x; viaBranch := viaBranch x; sipRequest := sipRequest x; s_rinfo := s_rinfo x; transactionKey := transactionKey x; from := from x; ackReceived := ackReceived x; retransmit200Count := retransmit200Count x; retransmit200Interval := retransmit200Interval x; maxRetransmits := maxRetransmits x; retransmit200Timer := retransmit200Timer x; ackTimeoutTimer := ackTimeoutTimer x |}.

Definition set_toTag v (x : session) : session :=
  {| dir := dir x; webrtcClientId := webrtcClientId x; webrtcUserId := webrtcUserId x; fromTag := fromTag x; toTag := v; state := state x; targetUri := targetUri x; cseq := cseq x; viaBranch := viaBranch x; sipRequest := sipRequest x; s_rinfo := s_rinfo x; transactionKey := transactionKey x; from := from x; ackReceived := ackReceived x; retransmit200Count := retransmit200Count x; retransmit200Interval := retransmit200Interval x; maxRetransmits := maxRetransmits x; retransmit200Timer := retransmit200Timer x; ackTimeoutTimer := ackTimeoutTimer x |}.

Definition set_state v (x : session) : session :=
  {| dir := dir x; webrtcClientId := webrtcClientId x; webrtcUserId := webrtcUserId x; fromTag := fromTag x; toTag := toTag x; state := v; targetUri := targetUri x; cseq := cseq x; viaBranch := viaBranch x; sipRequest := sipRequest x; s_rinfo := s_rinfo x; transactionKey := transactionKey x; from := from x; ackReceived := ackReceived x; retransmit200Count := retransmit200Count x; retransmit200Interval := retransmit200Interval x; maxRetransmits := maxRetransmits x; retransmit200Timer := retransmit200Timer x; ackTimeoutTimer := ackTimeoutTimer x |}.

Definition set_cseq v (x : session) : session :=
  {| dir := dir x; webrtcClientId := webrtcClientId x; webrtcUserId := webrtcUserId x; fromTag := fromTag x; toTag := toTag x; state := state x; targetUri := targetUri x; cseq := v; viaBranch := viaBranch x; sipRequest := sipRequest x; s_rinfo := s_rinfo x; transactionKey := transactionKey x; from := from x; ackReceived := ackReceived x; retransmit200Count := retransmit200Count x; retransmit200Interval := retransmit200Interval x; maxRetransmits := maxRetransmits x; retransmit200Timer := retransmit200Timer x; ackTimeoutTimer := ackTimeoutTimer x |}.

Definition set_ackReceived v (x : session) : session :=
  {| dir := dir x; webrtcClientId := webrtcClientId x; webrtcUserId := webrtcUserId x; fromTag := fromTag x; toTag := toTag x; state := state x; targetUri := targetUri x; cseq := cseq x; viaBranch := viaBranch x; sipRequest := sipRequest x; s_rinfo := s_rinfo x; transactionKey := transactionKey x; from := from x; ackReceived := v; retransmit200Count := retransmit200Count x; retransmit200Interval := retransmit200Interval x; maxRetransmits := maxRetransmits x; retransmit200Timer := retransmit200Timer x; ackTimeoutTimer := ackTimeoutTimer x |}.

Definition set_retransmit200Count v (x : session) : session :=
  {| dir := dir x; webrtcClientId := webrtcClientId x; webrtcUserId := webrtcUserId x; fromTag := fromTag x; toTag := toTag x; state := state x; targetUri := targetUri x; cseq := cseq x; viaBranch := viaBranch x; sipRequest := sipRequest x; s_rinfo := s_rinfo x; transactionKey := transactionKey x; from := from x; ackReceived := ackReceived x; retransmit200Count := v; retransmit200Interval := retransmit200Interval x; maxRetransmits := maxRetransmits x; retransmit200Timer := retransmit200Timer x; ackTimeoutTimer := ackTimeoutTimer x |}.

Definition set_retransmit200Interval v (x : session) : session :=
  {| dir := dir x; webrtcClientId := webrtcClientId x; webrtcUserId := webrtcUserId x; fromTag := fromTag x; toTag := toTag x; state := state x; targetUri := targetUri x; cseq := cseq x; viaBranch := viaBranch x; sipRequest := sipRequest x; s_rinfo := s_rinfo x; transactionKey := transactionKey x; from := from x; ackReceived := ackReceived x; retransmit200Count := retransmit200Count x; retransmit200Interval := v; maxRetransmits := maxRetransmits x; retransmit200Timer := retransmit200Timer x; ackTimeoutTimer := ackTimeoutTimer x |}.

Definition set_maxRetransmits v (x : session) : session :=
  {| dir := dir x; webrtcClientId := webrtcClientId x; webrtcUserId := webrtcUserId x; fromTag := fromTag x; toTag := toTag x; state := state x; targetUri := targetUri x; cseq := cseq x; viaBranch := viaBranch x; sipRequest := sipRequest x; s_rinfo := s_rinfo x; transactionKey := transactionKey x; from := from x; ackReceived := ackReceived x; retransmit200Count := retransmit200Count x; retransmit200Interval := retransmit200Interval x; maxRetransmits := v; retransmit200Timer := retransmit200Timer x; ackTimeoutTimer := ackTimeoutTimer x |}.

Definition set_retransmit200Timer v (x : session) : session :=
  {| dir := dir x; webrtcClientId := webrtcClientId x; webrtcUserId := webrtcUserId x; fromTag := fromTag x; toTag := toTag x; state := state x; targetUri := targetUri x; cseq := cseq x; viaBranch := viaBranch x; sipRequest := sipRequest x; s_rinfo := s_rinfo x; transactionKey := transactionKey x; from := from x; ackReceived := ackReceived x; retransmit200Count := retransmit200Count x; retransmit200Interval := retransmit200Interval x; maxRetransmits := maxRetransmits x; retransmit200Timer := v; ackTimeoutTimer := ackTimeoutTimer x |}.

Definition set_ackTimeoutTimer v (x : session) : session :=
  {| dir := dir x; webrtcClientId := webrtcClientId x; webrtcUserId := webrtcUserId x; fromTag := fromTag x; toTag := toTag x; state := state x; targetUri := targetUri x; cseq := cseq x; viaBranch := viaBranch x; sipRequest := sipRequest x; s_rinfo := s_rinfo x; transactionKey := transactionKey x; from := from x; ackReceived := ackReceived x; retransmit200Count := retransmit200Count x; retransmit200Interval := retransmit200Interval x; maxRetransmits := maxRetransmits x; retransmit200Timer := retransmit200Timer x; ackTimeoutTimer := v |}.

Definition upd_sessions f (s : gw) : gw :=
  {| sessions := f (sessions s); heap := heap s; inviteTransactions := inviteTransactions s; transactions := transactions s; timers := timers s; pending := pending s; next := next s; clock := clock s; metric := metric s; out := out s |}.

Definition upd_heap f (s : gw) : gw :=
  {| sessions := sessions s; heap := f (heap s); inviteTransactions := inviteTransactions s; transactions := transactions s; timers := timers s; pending := pending s; next := next s; clock := clock s; metric := metric s; out := out s |}.

Definition upd_inviteTransactions f (s : gw) : gw :=
  {| sessions := sessions s; heap := heap s; inviteTransactions := f (inviteTransactions s); transactions := transactions s; timers := timers s; pending := pending s; next := next s; clock := clock s; metric := metric s; out := out s |}.

Definition upd_transactions f (s : gw) : gw :=
  {| sessions := sessions s; heap := heap s; inviteTransactions := inviteTransactions s; transactions := f (transactions s); timers := timers s; pending := pending s; next := next s; clock := clock s; metric := metric s; out := out s |}.

Definition upd_timers f (s : gw) : gw :=
  {| sessions := sessions s; heap := heap s; inviteTransactions := inviteTransactions s; transactions := transactions s; timers := f (timers s); pending := pending s; next := next s; clock := clock s; metric := metric s; out := out s |}.

Definition upd_pending f (s : gw) : gw :=
  {| sessions := sessions s; heap := heap s; inviteTransactions := inviteTransactions s; transactions := transactions s; timers := timers s; pending := f (pending s); next := next s; clock := clock s; metric := metric s; out := out s |}.

Definition upd_next f (s : gw) : gw :=
  {| sessions := sessions s; heap := heap s; inviteTransactions := inviteTransactions s; transactions := transactions s; timers := timers s; pending := pending s; next := f (next s); clock := clock s; metric := metric s; out := out s |}.

Definition upd_clock f (s : gw) : gw :=
  {| sessions := sessions s; heap := heap s; inviteTransactions := inviteTransactions s; transactions := transactions s; timers := timers s; pending := pending s; next := next s; clock := f (clock s); metric := metric s; out := out s |}.

Definition upd_metric f (s : gw) : gw :=
  {| sessions := sessions s; heap := heap s; inviteTransactions := inviteTransactions s; transactions := transactions s; timers := timers s; pending := pending s; next := next s; clock := clock s; metric := f (metric s); out := out s |}.

Definition upd_out f (s : gw) : gw :=
  {| sessions := sessions s; heap := heap s; inviteTransactions := inviteTransactions s; transactions := transactions s; timers := timers s; pending := pending s; next := next s; clock := clock s; metric := metric s; out := f (out s) |}.

(** *** Primitives: trace, timers, suspended calls, session objects *)

Definition log (o : output) (s : gw) : gw :=
  upd_out (fun l => (l ++ [(clock s, o)])%list) s.

(** [setTimeout(c, delay)]: the handle and the new state. *)
Definition setTimeout (c : closure) (delay : N) (s : gw) : nat * gw :=
  (next s,
   upd_next S
     (upd_timers (insert (next s) {| due := clock s + delay; callback := c |}) s)).

(** [if (h) clearTimeout(h)] *)
Definition clearTimeout (h : option nat) (s : gw) : gw :=
  match h with
  | Some id => upd_timers (delete id) s
  | None => s
  end.

(** The [await] of a media-relay call: the issued operation is traced
    and the rest of the function parked until the relay answers. *)
Definition await_relay (op : relay_op) (p : relay_payload) (k : kont)
    (s : gw) : gw :=
  let s := log (Relay op p) s in
  upd_next S (upd_pending (insert (next s) k) s).

(** [this.sessions.get(callId)]: the object's address and value. *)
Definition get_session (callId : string) (s : gw) : option (nat * session) :=
  match sessions s !! callId with
  | Some loc =>
      match heap s !! loc with
      | Some x => Some (loc, x)
      | None => None
      end
  | None => None
  end.

(** Assignment to fields of the session object at [loc]. *)
Definition update (loc : nat) (f : session -> session) (s : gw) : gw :=
  upd_heap (alter f loc) s.

(** [this.sessions.set(callId, {...})] with a fresh object. *)
Definition sessions_set (callId : string) (x : session) (s : gw) : gw :=
  upd_next S
    (upd_sessions (insert callId (next s)) (upd_heap (insert (next s) x) s)).

(** JavaScript truthiness of a string-or-undefined. *)
Definition truthy (o : option string) : bool :=
  match o with
  | Some EmptyString => false
  | Some _ => true
  | None => false
  end.

Definition or_null (o : option string) : string :=
  match o with
  | Some b => b
  | None => "null"
  end.

(** [viaHeader ? viaHeader.match(/branch=([^;\s>]+)/) : null], group 1. *)
Definition branch_of (v : option via_value) : option string :=
  match topVia v with
  | Some viaHeader => match_branch viaHeader
  | None => None
  end.

(** The key of a server transaction: [`${callId}-${cseq}-${branch}`]. *)
Definition serverKey (q : request) : string :=
  h_call_id q ++ "-" ++ h_cseq q ++ "-" ++ or_null (branch_of (h_via q)).

(** The key of a client transaction: [`${branch}-${callId}-${cseq}`]. *)
Definition clientKey (branch callId cseq : string) : string :=
  branch ++ "-" ++ callId ++ "-" ++ cseq.

Section Engine.
Variable cfg : config.

(** *** Sending *)

(** [socket.send(data, port, host, callback)] of Node's [dgram]
    validates the port before anything is sent: unless
    [0 < port < 65536] it throws [ERR_SOCKET_BAD_PORT] synchronously.  The
    ports of the configuration and of the [rinfo] of a received datagram
    pass the test; the port that [handleInviteResponse] reads in a Contact
    header is whatever the peer wrote. *)
Definition valid_port (port : N) : bool := (0 <? port) && (port <? 65536).

(** The message of [ERR_SOCKET_BAD_PORT] for a numeric port, as Node 18
    and later print it. *)
Definition ERR_SOCKET_BAD_PORT (port : N) : string :=
  "Port should be > 0 and < 65536. Received type number (" ++ ofN port ++ ").".

(** [sendSipMessage(message, host, port)] without callback, for a port
    that [socket.send] accepts: the message goes to the socket (its
    serialisation is not modelled). *)
Definition sendSipMessage (m : out_message) (host : string) (port : N)
    (s : gw) : gw :=
  log (Send m host port) s.

Definition contactHeader : string :=
  quote ++ displayName cfg ++ quote ++ " <sip:gateway@" ++ advertiseIP cfg ++ ":"
  ++ ofN (localSipPort cfg) ++ ">".

Definition recordRouteHeader : string :=
  "<sip:gateway@" ++ advertiseIP cfg ++ ":" ++ ofN (localSipPort cfg) ++ ";lr>".

(** [sendResponse(request, status, reason, rinfo, body = null)] *)
Definition sendResponse (q : request) (status : N) (reason : string)
    (r : rinfo) (body : option string) (s : gw) : gw :=
  let toHeader := h_to q in
  let is_180_200 := (status =? 180) || (status =? 200) in
  let responseToHeader :=
    if is_180_200 && negb (includes toHeader "tag=") then
      match get_session (h_call_id q) s with
      | Some (_, x) =>
          if truthy (toTag x)
          then toHeader ++ ";tag=" ++ or_null (toTag x)
          else toHeader
      | None => toHeader
      end
    else toHeader in
  let headers :=
    ([("via", HVia (h_via q)); ("from", HStr (h_from q));
     ("to", HStr responseToHeader); ("call-id", HStr (h_call_id q));
     ("cseq", HStr (h_cseq q))]
    ++ (if is_180_200
        then [("contact", HStr contactHeader);
              ("allow", HStr "INVITE, ACK, BYE, CANCEL, OPTIONS, INFO");
              ("supported", HStr "replaces, timer");
              ("record-route", HStr recordRouteHeader)]
        else [])
    ++ (if truthy body
        then [("content-type", HStr "application/sdp");
              ("accept", HStr "application/sdp")]
        else []))%list in
  let s :=
    sendSipMessage
      (OutResponse status reason headers (if truthy body then body else None))
      (address r) (port r) s in
  let transactionKey := serverKey q in
  match inviteTransactions s !! transactionKey with
  | Some t =>
      upd_inviteTransactions
        (insert transactionKey
           {| it_callId := it_callId t;
              lastResponse := Some (status, reason, body) |}) s
  | None => s
  end.

(** *** Cleanup *)

Definition run_after (a : after_cleanup) (s : gw) : gw :=
  match a with
  | AfterNothing => s
  | AfterEmit e => log (Emit e) s
  | AfterThrow api msg => log (Threw api msg) s
  end.

(** [cleanupSession(callId)] up to its [await]; [after] is what the
    caller does once the call has settled. *)
Definition cleanupSession (callId : string) (after : after_cleanup)
    (s : gw) : gw :=
  match get_session callId s with
  | None => run_after after s
  | Some (_, x) =>
      let s := clearTimeout (retransmit200Timer x) s in
      let s := clearTimeout (ackTimeoutTimer x) s in
      let s :=
        if truthy (transactionKey x)
        then upd_inviteTransactions (delete (or_null (transactionKey x))) s
        else s in
      await_relay op_delete
        {| p_call_id := callId; p_from_tag := fromTag x;
           p_to_tag := toTag x; p_sdp := None; p_profile := [] |}
        (KCleanup callId after) s
  end.

(** [cleanupSession] after its [await]: the relay's answer, or the
    error it threw and the [catch] logged, makes no difference. *)
Definition cleanupSession_resume (callId : string) (after : after_cleanup)
    (s : gw) : gw :=
  let s := upd_sessions (delete callId) s in
  let s :=
    upd_metric (fun m =>
      {| activeSessions := Z.max 0 (activeSessions m - 1);
         totalCalls := totalCalls m; failedCalls := failedCalls m;
         reInvites := reInvites m; retriedInvites := retriedInvites m |}) s in
  run_after after s.


(** *** Requests from the telephony leg *)

(** The random inputs of one step: the bytes [crypto.randomBytes]
    draws, [Date.now()], and the two draws of [Math.random()] that
    [makeCallToSip] scales by 1000000 and by 10000. *)
Record random := { bytes : entropy; now : N; rand6 : N; rand4 : N }.

Definition relay_completion : Type := completion relay_response string.

Definition bump_retriedInvites (m : metrics) : metrics :=
  {| activeSessions := activeSessions m; totalCalls := totalCalls m;
     failedCalls := failedCalls m; reInvites := reInvites m;
     retriedInvites := retriedInvites m + 1 |}.

Definition bump_reInvites (m : metrics) : metrics :=
  {| activeSessions := activeSessions m; totalCalls := totalCalls m;
     failedCalls := failedCalls m; reInvites := reInvites m + 1;
     retriedInvites := retriedInvites m |}.

Definition bump_failedCalls (m : metrics) : metrics :=
  {| activeSessions := activeSessions m; totalCalls := totalCalls m;
     failedCalls := failedCalls m + 1; reInvites := reInvites m;
     retriedInvites := retriedInvites m |}.

Definition bump_totalCalls (m : metrics) : metrics :=
  {| activeSessions := activeSessions m; totalCalls := totalCalls m + 1;
     failedCalls := failedCalls m; reInvites := reInvites m;
     retriedInvites := retriedInvites m |}.

Definition bump_activeSessions (m : metrics) : metrics :=
  {| activeSessions := activeSessions m + 1; totalCalls := totalCalls m;
     failedCalls := failedCalls m; reInvites := reInvites m;
     retriedInvites := retriedInvites m |}.

(** The [catch] of [handleReInvite]. *)
Definition reInvite_failed (q : request) (r : rinfo) (s : gw) : gw :=
  sendResponse q 500 "Internal Server Error" r None s.

(** [handleReInvite] up to the [await] of the relay's [offer]. *)
Definition handleReInvite (q : request) (r : rinfo) (loc : nat)
    (x : session) (s : gw) : gw :=
  match validateSDP (SdpStr (body q)) with
  | Some _ => reInvite_failed q r s
  | None =>
      await_relay op_offer
        {| p_call_id := h_call_id q; p_from_tag := fromTag x;
           p_to_tag := toTag x; p_sdp := Some (SdpStr (body q));
           p_profile := [] |}
        (KReInvite q r loc) s
  end.

Definition sdp_of (o : option string) : sdp_value :=
  match o with
  | Some t => SdpStr t
  | None => SdpOther "undefined"
  end.

Definition handleReInvite_resume (q : request) (r : rinfo) (loc : nat)
    (c : relay_completion) (s : gw) : gw :=
  match c with
  | Return resp =>
      if negb (String.eqb (result resp) "ok") then reInvite_failed q r s
      else
        match sdp resp, validateSDP (sdp_of (sdp resp)) with
        | Some t, None =>
            let s := sendResponse q 200 "OK" r (Some t) s in
            match heap s !! loc with
            | Some x =>
                match dir x with
                | outgoing =>
                    log (Emit (media_renegotiation (webrtcClientId x)
                                 (h_call_id q) t)) s
                | incoming =>
                    log (Emit (media_renegotiation (webrtcUserId x)
                                 (h_call_id q) t)) s
                end
            | None => s
            end
        | _, _ => reInvite_failed q r s
        end
  | _ => reInvite_failed q r s
  end.

(** The [catch] of [handleIncomingInvite]. *)
Definition incomingInvite_failed (q : request) (r : rinfo) (s : gw) : gw :=
  sendResponse q 500 "Internal Server Error" r None s.

(** [handleIncomingInvite] up to the [await] of the relay's [offer]. *)
Definition handleIncomingInvite (q : request) (r : rinfo)
    (transactionKey : string) (e : random) (s : gw) : gw :=
  let callId := h_call_id q in
  let fromTag :=
    match match_tag (h_from q) with
    | Some g => g
    | None => generateTag (bytes e) 0
    end in
  let callerUri :=
    match match_angle (h_from q) with
    | Some g => g
    | None => trim (before_semicolon (h_from q))
    end in
  let targetUser :=
    match match_sip_user (h_to q) with
    | Some g => g
    | None => "default"
    end in
  if maxConcurrentSessions cfg <=? N.of_nat (size (sessions s)) then
    sendResponse q 503 "Service Unavailable" r None s
  else
    match validateSDP (SdpStr (body q)) with
    | Some _ => incomingInvite_failed q r s
    | None =>
        await_relay op_offer
          {| p_call_id := callId; p_from_tag := fromTag; p_to_tag := None;
             p_sdp := Some (SdpStr (body q));
             p_profile :=
               [("transport-protocol", ["UDP/TLS/RTP/SAVPF"]);
                ("ICE", ["force"]); ("DTLS", ["passive"]);
                ("rtcp-mux", ["require"]); ("flags", ["generate-mid"])] |}
          (KIncomingInvite q r transactionKey callId fromTag callerUri
             targetUser) s
    end.

Definition handleIncomingInvite_resume (q : request) (r : rinfo)
    (transactionKey callId fromTag callerUri targetUser : string)
    (c : relay_completion) (e : random) (s : gw) : gw :=
  match c with
  | Return resp =>
      if negb (String.eqb (result resp) "ok") then incomingInvite_failed q r s
      else
        let toTag := generateTag (bytes e) 0 in
        let s :=
          upd_inviteTransactions
            (insert transactionKey
               {| it_callId := callId; lastResponse := None |}) s in
        let s :=
          sessions_set callId
            {| dir := incoming; webrtcClientId := None; webrtcUserId := None;
               fromTag := fromTag; toTag := Some toTag; state := ringing;
               targetUri := None; cseq := 1; viaBranch := None;
               sipRequest := Some q; s_rinfo := Some r;
               transactionKey := Some transactionKey; from := Some callerUri;
               ackReceived := false; retransmit200Count := 0;
               retransmit200Interval := 0; maxRetransmits := None;
               retransmit200Timer := None; ackTimeoutTimer := None |} s in
        let s := upd_metric (fun m => bump_totalCalls (bump_activeSessions m)) s in
        let s := sendResponse q 100 "Trying" r None s in
        let s := sendResponse q 180 "Ringing" r None s in
        log (Emit (incoming_sip_call callId callerUri targetUser (sdp resp))) s
  | _ => incomingInvite_failed q r s
  end.

(** [handleInvite] *)
Definition handleInvite (q : request) (r : rinfo) (e : random) (s : gw) : gw :=
  let callId := h_call_id q in
  let transactionKey := serverKey q in
  match inviteTransactions s !! transactionKey with
  | Some existingTransaction =>
      let s := upd_metric bump_retriedInvites s in
      match lastResponse existingTransaction with
      | Some (st, rs, b) => sendResponse q st rs r b s
      | None => s
      end
  | None =>
      match get_session callId s with
      | Some (loc, x) =>
          match state x with
          | established =>
              handleReInvite q r loc x (upd_metric bump_reInvites s)
          | _ => handleIncomingInvite q r transactionKey e s
          end
      | None => handleIncomingInvite q r transactionKey e s
      end
  end.

(** [handleAck] *)
Definition handleAck (q : request) (s : gw) : gw :=
  match get_session (h_call_id q) s with
  | Some (loc, x) =>
      let s := clearTimeout (retransmit200Timer x) s in
      let s := clearTimeout (ackTimeoutTimer x) s in
      let s :=
        update loc (fun x =>
          set_state established
            (set_ackReceived true
               (set_ackTimeoutTimer None (set_retransmit200Timer None x)))) s in
      if truthy (transactionKey x)
      then upd_inviteTransactions (delete (or_null (transactionKey x))) s
      else s
  | None => s
  end.

(** [handleBye] *)
Definition handleBye (q : request) (r : rinfo) (s : gw) : gw :=
  let callId := h_call_id q in
  match get_session callId s with
  | Some (_, x) =>
      let s := sendResponse q 200 "OK" r None s in
      let s :=
        match dir x with
        | incoming =>
            if truthy (webrtcUserId x)
            then log (Emit (sip_call_ended callId)) s else s
        | outgoing =>
            if truthy (webrtcClientId x)
            then log (Emit (call_ended (webrtcClientId x))) s else s
        end in
      cleanupSession callId AfterNothing s
  | None => sendResponse q 481 "Call/Transaction Does Not Exist" r None s
  end.

(** [handleCancel] *)
Definition handleCancel (q : request) (r : rinfo) (s : gw) : gw :=
  let callId := h_call_id q in
  let unknown := sendResponse q 481 "Call/Transaction Does Not Exist" r None s in
  match get_session callId s with
  | Some (_, x) =>
      match state x, sipRequest x, s_rinfo x with
      | ringing, Some q0, Some r0 =>
          let s := sendResponse q 200 "OK" r None s in
          let s := sendResponse q0 487 "Request Terminated" r0 None s in
          let s :=
            if truthy (webrtcUserId x)
            then log (Emit (sip_call_ended callId)) s else s in
          cleanupSession callId AfterNothing s
      | ringing, _, _ => sendResponse q 200 "OK" r None s
      | _, _, _ => unknown
      end
  | None => unknown
  end.

(** [handleInfo]: both branches answer [200 OK] (the DTMF event that
    the first may emit is not modelled). *)
Definition handleInfo (q : request) (r : rinfo) (s : gw) : gw :=
  sendResponse q 200 "OK" r None s.

(** [handleRequest] *)
Definition handleRequest (q : request) (r : rinfo) (e : random) (s : gw) : gw :=
  if String.eqb (method q) "INVITE" then handleInvite q r e s
  else if String.eqb (method q) "ACK" then handleAck q s
  else if String.eqb (method q) "BYE" then handleBye q r s
  else if String.eqb (method q) "CANCEL" then handleCancel q r s
  else if String.eqb (method q) "INFO" then handleInfo q r s
  else if String.eqb (method q) "OPTIONS" then sendResponse q 200 "OK" r None s
  else sendResponse q 501 "Not Implemented" r None s.


(** *** Outgoing calls *)

Definition or_undefined (o : option string) : string :=
  match o with
  | Some b => b
  | None => "undefined"
  end.

(** The [catch] of [handleInviteResponse]. *)
Definition inviteResponse_failed (callId : string) (loc : nat)
    (msg : string) (s : gw) : gw :=
  let s := upd_metric bump_failedCalls s in
  let id := match heap s !! loc with
            | Some x => webrtcClientId x
            | None => None
            end in
  cleanupSession callId AfterNothing (log (Emit (call_failed id msg)) s).

(** [handleInviteResponse] up to its first [await]. *)
Definition handleInviteResponse (p : response)
    (callId fromTag targetUri : string) (e : random) (s : gw) : gw :=
  if isTimeout p then
    match get_session callId s with
    | Some (_, x) =>
        cleanupSession callId AfterNothing
          (log (Emit (call_failed (webrtcClientId x) "Request Timeout")) s)
    | None => s
    end
  else
    match get_session callId s with
    | None => s
    | Some (loc, x) =>
        if (100 <=? status p) && (status p <? 200) then
          if status p =? 180
          then log (Emit (sip_ringing (webrtcClientId x))) s
          else s
        else if (200 <=? status p) && (status p <? 300) then
          let toTag :=
            match rs_to p with
            | Some t =>
                match match_tag t with
                | Some g => g
                | None => generateTag (bytes e) 0
                end
            | None => generateTag (bytes e) 0
            end in
          let s :=
            update loc (fun x => set_state established (set_toTag (Some toTag) x)) s in
          match validateSDP (SdpStr (rs_body p)) with
          | Some msg => inviteResponse_failed callId loc msg s
          | None =>
              await_relay op_answer
                {| p_call_id := callId; p_from_tag := fromTag;
                   p_to_tag := Some toTag; p_sdp := Some (SdpStr (rs_body p));
                   p_profile := [] |}
                (KInviteResponse callId fromTag targetUri p loc toTag) s
          end
        else if 300 <=? status p then
          cleanupSession callId
            (AfterEmit (call_failed (webrtcClientId x)
                          (ofN (status p) ++ " " ++ reason p)))
            (upd_metric bump_failedCalls s)
        else s
    end.

Definition handleInviteResponse_resume (callId fromTag targetUri : string)
    (p : response) (loc : nat) (toTag : string) (c : relay_completion)
    (e : random) (s : gw) : gw :=
  match c with
  | Return resp =>
      if negb (String.eqb (result resp) "ok")
      then inviteResponse_failed callId loc
             ("RTPEngine answer failed: " ++ error_reason resp) s
      else
        match sdp resp, validateSDP (sdp_of (sdp resp)) with
        | _, Some msg => inviteResponse_failed callId loc msg s
        | None, None =>
            (* not reached: [validateSDP(undefined)] throws *)
            inviteResponse_failed callId loc "TypeError" s
        | Some t, None =>
            let contactUri :=
              match rs_contact p with
              | Some ch =>
                  match match_angle ch with
                  | Some u => u
                  | None => targetUri
                  end
              | None => targetUri
              end in
            let x_cseq := match heap s !! loc with
                          | Some x => cseq x
                          | None => 0
                          end in
            let ackMessage :=
              OutRequest "ACK" contactUri
                [("via", HStr ("SIP/2.0/UDP " ++ advertiseIP cfg ++ ":"
                               ++ ofN (localSipPort cfg) ++ ";branch="
                               ++ generateBranch (bytes e) 0));
                 ("max-forwards", HStr "70");
                 ("from", HStr (rs_from p));
                 ("to", HOpt (rs_to p));
                 ("call-id", HStr callId);
                 ("cseq", HStr (ofN x_cseq ++ " ACK"))] None in
            let uriMatch := match_sip_uri contactUri in
            let targetHost := match uriMatch with
                              | Some (h, _) => h
                              | None => sipServerHost cfg
                              end in
            let targetPort := match uriMatch with
                              | Some (_, Some d) => parseInt d
                              | _ => sipServerPort cfg
                              end in
            if negb (valid_port targetPort)
            then inviteResponse_failed callId loc (ERR_SOCKET_BAD_PORT targetPort) s
            else
              let s := sendSipMessage ackMessage targetHost targetPort s in
              let id := match heap s !! loc with
                        | Some x => webrtcClientId x
                        | None => None
                        end in
              log (Emit (call_answered id t)) s
        end
  | Throw msg => inviteResponse_failed callId loc msg s
  | ReturnUndefined =>
      inviteResponse_failed callId loc
        "Cannot read properties of undefined (reading 'result')" s
  end.

(** [handleResponse] *)
Definition handleResponse (p : response) (e : random) (s : gw) : gw :=
  let transactionKey :=
    clientKey (or_null (branch_of (rs_via p))) (rs_call_id p) (rs_cseq p) in
  match transactions s !! transactionKey with
  | Some t =>
      let s := clearTimeout (Some (tx_timer t)) s in
      let s :=
        handleInviteResponse p (cb_callId t) (cb_fromTag t) (cb_targetUri t) e s in
      if 200 <=? status p
      then upd_transactions (delete transactionKey) s
      else s
  | None => s
  end.

(** The [catch] of [makeCallToSip]. *)
Definition makeCall_failed (webrtcClientId msg : string) (s : gw) : gw :=
  let s := upd_metric bump_failedCalls s in
  let s := log (Emit (call_failed (Some webrtcClientId) msg)) s in
  log (Threw "makeCallToSip" msg) s.

(** [makeCallToSip] up to the [await] of the relay's [offer]. *)
Definition makeCallToSip (webrtcClientId targetSipUri : string)
    (webrtcOfferSdp : sdp_value) (e : random) (s : gw) : gw :=
  if maxConcurrentSessions cfg <=? N.of_nat (size (sessions s)) then
    log (Threw "makeCallToSip" "Maximum concurrent sessions reached") s
  else
    let callId :=
      generateCallId (now e) (rand6 e mod 1000000) (advertiseIP cfg) in
    let fromTag := generateTag (bytes e) 0 in
    let branch := generateBranch (bytes e) 6 in
    let cseq := rand4 e mod 10000 + 1 in
    let s := upd_metric bump_totalCalls s in
    match validateSDP webrtcOfferSdp with
    | Some msg => makeCall_failed webrtcClientId msg s
    | None =>
        await_relay op_offer
          {| p_call_id := callId; p_from_tag := fromTag; p_to_tag := None;
             p_sdp := Some webrtcOfferSdp;
             p_profile :=
               [("transport-protocol", ["RTP/AVP"]); ("ICE", ["remove"]);
                ("rtcp-mux", ["demux"])] |}
          (KMakeCall callId fromTag branch cseq webrtcClientId targetSipUri) s
    end.

Definition makeCallToSip_resume (callId fromTag branch : string) (cseq : N)
    (webrtcClientId targetSipUri : string) (c : relay_completion)
    (s : gw) : gw :=
  match c with
  | Return resp =>
      if negb (String.eqb (result resp) "ok")
      then makeCall_failed webrtcClientId
             ("RTPEngine offer failed: " ++ error_reason resp) s
      else
        match validateSDP (sdp_of (sdp resp)) with
        | Some msg => makeCall_failed webrtcClientId msg s
        | None =>
            let via :=
              "SIP/2.0/UDP " ++ advertiseIP cfg ++ ":" ++ ofN (localSipPort cfg)
              ++ ";branch=" ++ branch ++ ";rport" in
            let cseqHeader := ofN cseq ++ " INVITE" in
            let inviteMessage :=
              OutRequest "INVITE" targetSipUri
                [("via", HStr via);
                 ("max-forwards", HStr "70");
                 ("from", HStr (quote ++ displayName cfg ++ quote ++ " <sip:webrtc@"
                                ++ advertiseIP cfg ++ ">;tag=" ++ fromTag));
                 ("to", HStr ("<" ++ targetSipUri ++ ">"));
                 ("call-id", HStr callId);
                 ("cseq", HStr cseqHeader);
                 ("contact", HStr (quote ++ displayName cfg ++ quote ++ " <sip:webrtc@"
                                   ++ advertiseIP cfg ++ ">"));
                 ("content-type", HStr "application/sdp");
                 ("user-agent", HStr "WebRTC-SIP-Gateway/2.0");
                 ("allow", HStr "INVITE, ACK, BYE, CANCEL, OPTIONS, INFO");
                 ("supported", HStr "replaces, timer")]
                (sdp resp) in
            let s :=
              sessions_set callId
                {| dir := outgoing; webrtcClientId := Some webrtcClientId;
                   webrtcUserId := None; fromTag := fromTag; toTag := None;
                   state := calling; targetUri := Some targetSipUri;
                   cseq := cseq; viaBranch := Some branch;
                   sipRequest := None; s_rinfo := None;
                   transactionKey := None; from := None;
                   ackReceived := false; retransmit200Count := 0;
                   retransmit200Interval := 0; maxRetransmits := None;
                   retransmit200Timer := None; ackTimeoutTimer := None |} s in
            let s := upd_metric bump_activeSessions s in
            (* sendSipMessage with the callback: send, arm Timer B,
               register the client transaction *)
            let s :=
              sendSipMessage inviteMessage (sipServerHost cfg)
                (sipServerPort cfg) s in
            let transactionKey :=
              clientKey
                (match match_branch via with
                 | Some b => b
                 | None => "unknown"
                 end) callId cseqHeader in
            let (timer, s) :=
              setTimeout
                (TTransaction transactionKey (sipServerHost cfg)
                   (sipServerPort cfg)) TIMER_B s in
            let s :=
              upd_transactions
                (insert transactionKey
                   {| cb_callId := callId; cb_fromTag := fromTag;
                      cb_targetUri := targetSipUri; tx_timer := timer;
                      tx_method := "INVITE" |}) s in
            log (Returned "makeCallToSip" callId) s
        end
  | Throw msg => makeCall_failed webrtcClientId msg s
  | ReturnUndefined =>
      makeCall_failed webrtcClientId
        "Cannot read properties of undefined (reading 'result')" s
  end.

(** *** Answering, rejecting and hanging up an incoming call *)

(** The [catch] of [answerSipCall]. *)
Definition answer_failed (callId msg : string) (s : gw) : gw :=
  cleanupSession callId (AfterThrow "answerSipCall" msg) s.

(** [answerSipCall] up to the [await] of the relay's [answer]. *)
Definition answerSipCall (callId webrtcUserId : string)
    (webrtcAnswerSdp : sdp_value) (s : gw) : gw :=
  match get_session callId s with
  | None => log (Threw "answerSipCall" "Session not found") s
  | Some (loc, x) =>
      match validateSDP webrtcAnswerSdp with
      | Some msg => answer_failed callId msg s
      | None =>
          let s :=
            update loc (fun x =>
              set_webrtcUserId (Some webrtcUserId) (set_state answered x)) s in
          await_relay op_answer
            {| p_call_id := callId; p_from_tag := fromTag x;
               p_to_tag := toTag x; p_sdp := Some webrtcAnswerSdp;
               p_profile := [] |}
            (KAnswer callId webrtcUserId loc) s
      end
  end.

Definition answerSipCall_resume (callId webrtcUserId : string) (loc : nat)
    (c : relay_completion) (s : gw) : gw :=
  match c with
  | Return resp =>
      if negb (String.eqb (result resp) "ok")
      then answer_failed callId
             ("RTPEngine answer failed: " ++ error_reason resp) s
      else
        match sdp resp, validateSDP (sdp_of (sdp resp)) with
        | _, Some msg => answer_failed callId msg s
        | None, None =>
            (* not reached: [validateSDP(undefined)] throws *)
            answer_failed callId "TypeError" s
        | Some t, None =>
            match heap s !! loc with
            | Some x =>
                match sipRequest x, s_rinfo x with
                | Some q, Some r =>
                    let s := sendResponse q 200 "OK" r (Some t) s in
                    let s :=
                      update loc (fun x =>
                        set_maxRetransmits (Some 7)
                          (set_retransmit200Interval T1
                             (set_retransmit200Count 0 x))) s in
                    let (h, s) :=
                      setTimeout (TAckTimeout loc callId webrtcUserId) TIMER_H s in
                    let s := update loc (set_ackTimeoutTimer (Some h)) s in
                    let (h, s) := setTimeout (TRetransmit200 loc q t) T1 s in
                    update loc (set_retransmit200Timer (Some h)) s
                | None, _ =>
                    (* [sendResponse(undefined, ...)] reads [request.headers] *)
                    answer_failed callId
                      "Cannot read properties of undefined (reading 'headers')" s
                | Some _, None =>
                    (* the arguments of [sendSipMessage] read [rinfo.address] *)
                    answer_failed callId
                      "Cannot read properties of undefined (reading 'address')" s
                end
            | None =>
                (* not reached: a session object is never freed *)
                answer_failed callId "TypeError" s
            end
        end
  | Throw msg => answer_failed callId msg s
  | ReturnUndefined =>
      answer_failed callId "Cannot read properties of undefined (reading 'result')" s
  end.

(** [rejectCall(callId, statusCode = 603, reason = 'Decline')] *)
Definition rejectCall (callId : string) (statusCode : N) (reason : string)
    (s : gw) : gw :=
  match get_session callId s with
  | None => s
  | Some (_, x) =>
      match dir x with
      | outgoing => s
      | incoming =>
          match sipRequest x, s_rinfo x with
          | Some q, Some r =>
              cleanupSession callId AfterNothing
                (sendResponse q statusCode reason r None s)
          | _, _ => s
          end
      end
  end.

(** [hangup] *)
Definition hangup (callId : string) (e : random) (s : gw) : gw :=
  match get_session callId s with
  | None => log (Threw "hangup" "Session not found") s
  | Some (loc, x) =>
      let byeMessage :=
        OutRequest "BYE"
          (if truthy (targetUri x) then or_undefined (targetUri x)
           else "sip:" ++ fromTag x ++ "@" ++ sipServerHost cfg)
          [("via", HStr ("SIP/2.0/UDP " ++ advertiseIP cfg ++ ":"
                         ++ ofN (localSipPort cfg) ++ ";branch="
                         ++ generateBranch (bytes e) 0));
           ("max-forwards", HStr "70");
           ("from", HStr (match dir x with
                          | outgoing => "<sip:webrtc@" ++ advertiseIP cfg
                                        ++ ">;tag=" ++ fromTag x
                          | incoming => "<sip:fede@" ++ advertiseIP cfg
                                        ++ ">;tag=" ++ or_null (toTag x)
                          end));
           ("to", HStr (match dir x with
                        | outgoing => "<" ++ or_undefined (targetUri x)
                                      ++ ">;tag=" ++ or_null (toTag x)
                        | incoming => "<sip:" ++ or_undefined (from x)
                                      ++ ">;tag=" ++ fromTag x
                        end));
           ("call-id", HStr callId);
           ("cseq", HStr (ofN (cseq x + 1) ++ " BYE"))] None in
      let s := update loc (fun x => set_cseq (cseq x + 1) x) s in
      let s :=
        sendSipMessage byeMessage (sipServerHost cfg) (sipServerPort cfg) s in
      cleanupSession callId AfterNothing s
  end.


(** *** Timers, resumptions and the step function *)

(** The synthetic response of a transaction timeout. *)
Definition timeout_response : response :=
  {| status := 408; reason := "Request Timeout"; isTimeout := true;
     rs_via := None; rs_from := ""; rs_to := None; rs_call_id := "";
     rs_cseq := ""; rs_contact := None; rs_body := "" |}.

(** The timeout branch of [handleInviteResponse] draws nothing. *)
Definition no_random : random :=
  {| bytes := fun _ => Byte.x00; now := 0; rand6 := 0; rand4 := 0 |}.

(** The callbacks given to [setTimeout]: the ACK-timeout arrow
    function and [retransmit200OK] of [answerSipCall], and the
    transaction timer of [sendSipMessage]. *)
Definition run_closure (c : closure) (s : gw) : gw :=
  match c with
  | TAckTimeout loc callId webrtcUserId =>
      match heap s !! loc with
      | Some x =>
          if ackReceived x then s
          else
            cleanupSession callId AfterNothing
              (log (Emit (call_failed (Some webrtcUserId) "ACK timeout")) s)
      | None => s
      end
  | TRetransmit200 loc q t =>
      match heap s !! loc with
      | Some x =>
          if ackReceived x
             || match maxRetransmits x with
                | Some m => m <=? retransmit200Count x
                | None => false
                end
          then s
          else
            match s_rinfo x with
            | Some r =>
                let s :=
                  update loc (fun x =>
                    set_retransmit200Count (retransmit200Count x + 1) x) s in
                let s := sendResponse q 200 "OK" r (Some t) s in
                let nextInterval := N.min (retransmit200Interval x * 2) T2 in
                let s := update loc (set_retransmit200Interval nextInterval) s in
                let (h, s) := setTimeout (TRetransmit200 loc q t) nextInterval s in
                update loc (set_retransmit200Timer (Some h)) s
            | None =>
                update loc (fun x =>
                  set_retransmit200Count (retransmit200Count x + 1) x) s
            end
      | None => s
      end
  | TTransaction transactionKey host port =>
      let s :=
        match transactions s !! transactionKey with
        | Some t =>
            handleInviteResponse timeout_response (cb_callId t)
              (cb_fromTag t) (cb_targetUri t) no_random s
        | None => s
        end in
      upd_transactions (delete transactionKey) s
  end.

(** The timer [id] expires: the clock reaches its due time and its
    callback runs.  A cleared or expired handle does nothing. *)
Definition fire (id : nat) (s : gw) : gw :=
  match timers s !! id with
  | Some t =>
      run_closure (callback t) (upd_clock (N.max (due t)) (upd_timers (delete id) s))
  | None => s
  end.

(** The media relay has settled the call on which the suspended
    function [k] waits: [attempts i] is what the [i]-th invocation by
    [rtpengineOperationWithRetry] gives. *)
Definition resume (k : nat) (attempts : nat -> outcome relay_response string)
    (e : random) (s : gw) : gw :=
  match pending s !! k with
  | None => s
  | Some kt =>
      let s := upd_pending (delete k) s in
      let c := snd (rtpengineOperationWithRetry attempts 3) in
      match kt with
      | KReInvite q r loc => handleReInvite_resume q r loc c s
      | KMakeCall callId fromTag branch cseq webrtcClientId targetSipUri =>
          makeCallToSip_resume callId fromTag branch cseq webrtcClientId
            targetSipUri c s
      | KInviteResponse callId fromTag targetUri p loc toTag =>
          handleInviteResponse_resume callId fromTag targetUri p loc toTag c e s
      | KIncomingInvite q r transactionKey callId fromTag callerUri targetUser =>
          handleIncomingInvite_resume q r transactionKey callId fromTag
            callerUri targetUser c e s
      | KAnswer callId webrtcUserId loc =>
          answerSipCall_resume callId webrtcUserId loc c s
      | KCleanup callId after => cleanupSession_resume callId after s
      end
  end.

Definition with_via (q : request) (v : option via_value) : request :=
  {| method := method q; uri := uri q; h_via := v; h_from := h_from q;
     h_to := h_to q; h_call_id := h_call_id q; h_cseq := h_cseq q;
     h_content_type := h_content_type q; body := body q |}.

(** [handleIncomingMessage] *)
Definition handleIncomingMessage (m : message) (r : rinfo) (e : random)
    (s : gw) : gw :=
  match m with
  | IsResponse p => handleResponse p e s
  | IsRequest q =>
      handleRequest (with_via q (handleNATForRequest (h_via q) r)) r e s
  end.

(** What can happen to the engine: a datagram is parsed, the relay
    settles a call, a timer expires, the hub calls the API, time
    passes.  [Datagram] is a datagram that the handler of the socket has
    parsed: the handler passes a datagram that starts with [INFO ] and
    contains [application/dtmf-relay] to [handleDTMFNotification] instead,
    which sends nothing and is outside this model. *)
Inductive input :=
| Datagram (m : message) (r : rinfo) (e : random)
| RelayDone (k : nat) (attempts : nat -> outcome relay_response string)
    (e : random)
| TimerFire (id : nat)
| CallMakeCallToSip (webrtcClientId targetSipUri : string)
    (sdp : sdp_value) (e : random)
| CallAnswerSipCall (callId webrtcUserId : string) (sdp : sdp_value)
| CallRejectCall (callId : string) (statusCode : N) (reason : string)
| CallHangup (callId : string) (e : random)
| Elapse (ms : N).

Definition step (i : input) (s : gw) : gw :=
  match i with
  | Datagram m r e => handleIncomingMessage m r e s
  | RelayDone k attempts e => resume k attempts e s
  | TimerFire id => fire id s
  | CallMakeCallToSip id target sdp e => makeCallToSip id target sdp e s
  | CallAnswerSipCall callId id sdp => answerSipCall callId id sdp s
  | CallRejectCall callId statusCode reason => rejectCall callId statusCode reason s
  | CallHangup callId e => hangup callId e s
  | Elapse ms => upd_clock (N.add ms) s
  end.

Definition run (inputs : list input) (s : gw) : gw :=
  fold_left (fun s i => step i s) inputs s.

(** *** Reading the trace *)

(** The status codes of the responses sent, in order. *)
Definition statuses (tr : list (N * output)) : list N :=
  omap (fun o => match snd o with
                 | Send (OutResponse st _ _ _) _ _ => Some st
                 | _ => None
                 end) tr.

(** The media-relay operations [op] issued for [callId]. *)
Definition relay_ops (op : relay_op) (callId : string)
    (tr : list (N * output)) : list relay_payload :=
  omap (fun o => match snd o with
                 | Relay op' p =>
                     if relay_op_eqb op' op && String.eqb (p_call_id p) callId
                     then Some p else None
                 | _ => None
                 end) tr.

End Engine.
End SipGateway.

(** ** The revision of [src/unnamed/part_000]

    Only the functions that differ from [sipGateway.js] and that the
    properties below are about. *)

Module Rev.
Import JsString SipText Nat_fixup Retry Generate SipGateway.

(** [rtpengineOperationWithRetry(operation, maxRetries = 3)]: the wait
    is [1000 * (i + 1)] ms. *)
Definition rtpengineOperationWithRetry {A E} (operation : nat -> outcome A E)
    (maxRetries : nat) : list retry_event * completion A E :=
  retry_loop 1000 operation maxRetries maxRetries 0.

Definition generateCallId (rnd : entropy) (off : nat) (advertiseIP : string)
  : string :=
  toHex (randomBytes rnd off 16) ++ "@" ++ advertiseIP.

Definition generateTag (rnd : entropy) (off : nat) : string :=
  toHex (randomBytes rnd off 8).

Definition generateBranch (rnd : entropy) (off : nat) : string :=
  "z9hG4bK" ++ toHex (randomBytes rnd off 16).

Section Engine.
Variable cfg : config.

(** [cleanupSession(callId)] up to its [await]. *)
Definition cleanupSession (callId : string) (after : after_cleanup)
    (s : gw) : gw :=
  match get_session callId s with
  | None => run_after after s
  | Some (loc, x) =>
      match state x with
      | terminating => run_after after s
      | _ =>
          let s := update loc (set_state terminating) s in
          let s := clearTimeout (ackTimeoutTimer x) s in
          let s := update loc (set_ackTimeoutTimer None) s in
          let s := clearTimeout (retransmit200Timer x) s in
          let s := update loc (set_retransmit200Timer None) s in
          let s :=
            if truthy (transactionKey x)
            then upd_inviteTransactions (delete (or_null (transactionKey x))) s
            else s in
          await_relay op_delete
            {| p_call_id := callId; p_from_tag := fromTag x;
               p_to_tag := if truthy (toTag x) then toTag x else None;
               p_sdp := None; p_profile := [] |}
            (KCleanup callId after) s
      end
  end.

(** [cleanupSession] after its [await]. *)
Definition cleanupSession_resume (callId : string) (after : after_cleanup)
    (s : gw) : gw :=
  let s :=
    upd_metric (fun m =>
      {| activeSessions := activeSessions m - 1;
         totalCalls := totalCalls m; failedCalls := failedCalls m;
         reInvites := reInvites m; retriedInvites := retriedInvites m |}) s in
  let s := upd_sessions (delete callId) s in
  run_after after s.

Definition gatewayFrom (x : session) : string :=
  quote ++ displayName cfg ++ quote ++ " <sip:gateway@" ++ sipDomain cfg ++ ">;tag="
  ++ fromTag x.

Definition viaWith (branch : string) : string :=
  "SIP/2.0/UDP " ++ advertiseIP cfg ++ ":" ++ ofN (localSipPort cfg)
  ++ ";branch=" ++ branch.

(** [hangup] *)
Definition hangup (callId : string) (e : random) (s : gw) : gw :=
  match get_session callId s with
  | None => s
  | Some (loc, x) =>
      let s :=
        match state x with
        | established | answered =>
            let branch := generateBranch (bytes e) 0 in
            let s := update loc (fun x => set_cseq (cseq x + 1) x) s in
            let headers (fromH toH : string) :=
              [("via", HStr (viaWith branch));
               ("max-forwards", HStr "70");
               ("from", HStr fromH); ("to", HStr toH);
               ("call-id", HStr callId);
               ("cseq", HStr (ofN (cseq x + 1) ++ " BYE"))] in
            match dir x with
            | outgoing =>
                sendSipMessage
                  (OutRequest "BYE" (or_undefined (targetUri x))
                     (headers (gatewayFrom x)
                        ("<" ++ or_undefined (targetUri x) ++ ">;tag="
                         ++ or_null (toTag x))) None)
                  (sipServerHost cfg) (sipServerPort cfg) s
            | incoming =>
                match sipRequest x, s_rinfo x with
                | Some q0, Some r0 =>
                    let targetUri :=
                      match match_angle (h_from q0) with
                      | Some u => u
                      | None => before_semicolon (h_from q0)
                      end in
                    sendSipMessage
                      (OutRequest "BYE" targetUri
                         (headers (h_to q0 ++ ";tag=" ++ or_null (toTag x))
                            (h_from q0)) None)
                      (address r0) (port r0) s
                | _, _ => s
                end
            end
        | calling =>
            match dir x with
            | outgoing =>
                sendSipMessage
                  (OutRequest "CANCEL" (or_undefined (targetUri x))
                     [("via", HStr (viaWith (or_undefined (viaBranch x))));
                      ("max-forwards", HStr "70");
                      ("from", HStr (gatewayFrom x));
                      ("to", HStr ("<" ++ or_undefined (targetUri x) ++ ">"));
                      ("call-id", HStr callId);
                      ("cseq", HStr (ofN (cseq x) ++ " CANCEL"))] None)
                  (sipServerHost cfg) (sipServerPort cfg) s
            | incoming => s
            end
        | _ => s
        end in
      cleanupSession callId AfterNothing s
  end.

End Engine.
End Rev.

(** ** The hub's calls, and what the proofs observe *)

Module Hub.
Import JsString SipText Nat_fixup Retry Generate SipGateway.

(** The three places where [signaling-server.js] calls [rejectCall]: the
    target user's channel is not open, the target user is not registered,
    the browser declined. *)
Inductive hub_reject := target_unreachable | target_unknown | declined.

Definition hub_rejectCall (callId : string) (why : hub_reject) : input :=
  match why with
  | target_unreachable => CallRejectCall callId 480 "Temporarily Unavailable"
  | target_unknown => CallRejectCall callId 404 "Not Found"
  | declined => CallRejectCall callId 603 "Decline"
  end.

(** An input that the hub, the relay, the network or a timer can give:
    [rejectCall] only with the arguments of the hub. *)
Definition from_hub (i : input) : Prop :=
  match i with
  | CallRejectCall callId _ _ => exists why, i = hub_rejectCall callId why
  | _ => True
  end.

(** The status codes of C7. *)
Definition claimed_statuses : list N := [100; 180; 200; 480; 487; 500; 501; 503; 603].

(** The status codes [sipGateway.js] and the hub can make it send. *)
Definition emitted_statuses : list N :=
  [100; 180; 200; 404; 480; 481; 487; 500; 501; 503; 603].

Definition allowed (st : N) : Prop := In st emitted_statuses.
Arguments allowed : simpl never.

(** Every status sent so far and every remembered status is allowed. *)
Definition statuses_allowed (s : gw) : Prop :=
  Forall allowed (statuses (out s))
  /\ forall k t st rs b, inviteTransactions s !! k = Some t ->
       lastResponse t = Some (st, rs, b) -> allowed st.

End Hub.

(** ** Retransmission of the 200 OK: what is observed *)

Module Retransmission.
Import JsString SipText Nat_fixup Retry Generate SipGateway.

(** The retransmission timer of the session object at [loc] expires. *)
Definition fire_retransmit (cfg : config) (loc : nat) (s : gw) : gw :=
  match heap s !! loc with
  | Some x =>
      match retransmit200Timer x with
      | Some h => fire cfg h s
      | None => s
      end
  | None => s
  end.

(** ... [n] times in a row. *)
Fixpoint fire_retransmits (cfg : config) (loc : nat) (n : nat) (s : gw) : gw :=
  match n with
  | O => s
  | S n' => fire_retransmits cfg loc n' (fire_retransmit cfg loc s)
  end.

(** [k] instants from [d] on, each interval the double of the one before
    up to the ceiling [T2]; [i] is the interval that led to [d]. *)
Fixpoint schedule (k : nat) (d i : N) : list N :=
  match k with
  | O => []
  | S k' => d :: schedule k' (d + N.min (i * 2) T2) (N.min (i * 2) T2)
  end.

Section Dialog.
Variables (callId uid : string) (loc : nat) (q : request) (r : rinfo) (t : string).
Variable ha : nat.
Variable dH : N.

(** The dialog waits for the ACK: [cnt] retransmissions done, the next
    one due at [d] on timer [h], Timer H pending on [ha] for [dH]. *)
Definition armed (s : gw) (cnt i d : N) (h : nat) : Prop :=
  sessions s !! callId = Some loc
  /\ timers s !! ha = Some {| due := dH; callback := TAckTimeout loc callId uid |}
  /\ timers s !! h = Some {| due := d; callback := TRetransmit200 loc q t |}
  /\ clock s <= d /\ (ha < next s)%nat /\ (h < next s)%nat /\ h <> ha
  /\ exists x, heap s !! loc = Some x
       /\ s_rinfo x = Some r /\ ackReceived x = false /\ maxRetransmits x = Some 7
       /\ retransmit200Count x = cnt /\ retransmit200Interval x = i
       /\ retransmit200Timer x = Some h /\ ackTimeoutTimer x = Some ha.

(** The cap is reached: the last timer has expired without effect. *)
Definition spent (s : gw) : Prop :=
  sessions s !! callId = Some loc
  /\ timers s !! ha = Some {| due := dH; callback := TAckTimeout loc callId uid |}
  /\ exists x h, heap s !! loc = Some x /\ ackReceived x = false
       /\ retransmit200Timer x = Some h /\ ackTimeoutTimer x = Some ha
       /\ timers s !! h = None.

(** What holds between two expiries, whatever their number. *)
Definition waiting (s : gw) : Prop :=
  (exists cnt i d h, armed s cnt i d h /\ cnt <= 7) \/ spent s.

End Dialog.
End Retransmission.

(** ** Sample inputs

    A gateway at 10.0.0.9 in front of the telephony server 10.0.0.2, with
    room for one session, and a telephone at 192.168.1.127. *)

Module Scenario.
Import JsString SipText Nat_fixup Retry Generate SipGateway.

Definition cfg0 : config :=
  {| sipServerHost := "10.0.0.2"; sipServerPort := 5060; sipDomain := "gateway";
     displayName := "WebRTC-SIP Gateway"; localSipPort := 5060;
     maxConcurrentSessions := 1; advertiseIP := "10.0.0.9" |}.

Definition crlf : string := String (ascii_of_nat 13) (String (ascii_of_nat 10) EmptyString).

(** An audio-only SDP. *)
Definition sdp0 : string :=
  "v=0" ++ crlf ++ "o=- 1 1 IN IP4 192.168.1.127" ++ crlf ++ "s=-" ++ crlf
  ++ "c=IN IP4 192.168.1.127" ++ crlf ++ "m=audio 4000 RTP/AVP 0" ++ crlf.

Definition phone : rinfo := {| address := "192.168.1.127"; port := 5060 |}.

(** A request of the telephone in the dialog [callId]. *)
Definition req (method callId : string) : request :=
  {| method := method; uri := "sip:alice@gateway";
     h_via := Some (ViaArray ["SIP/2.0/UDP 192.168.1.127:5060;branch=z9hG4bK-"
                              ++ method ++ "-" ++ callId]);
     h_from := "<sip:bob@192.168.1.127>;tag=7d1";
     h_to := "<sip:alice@gateway>";
     h_call_id := callId;
     h_cseq := "1 " ++ method;
     h_content_type := Some "application/sdp";
     body := if String.eqb method "INVITE" then sdp0 else "" |}.

(** The media relay answers [ok] at the first attempt. *)
Definition relay_ok_response : relay_response :=
  {| result := "ok"; sdp := Some sdp0; error_reason := "" |}.

Definition relay_ok : nat -> outcome relay_response string :=
  fun _ => Resolved relay_ok_response.

Definition datagram (method callId : string) : input :=
  Datagram (IsRequest (req method callId)) phone no_random.

(** The incoming call [c1] rings: INVITE, then the relay's answer to the
    offer (suspended call 0).  The session object is at address 1. *)
Definition s_ringing : gw :=
  run cfg0 [datagram "INVITE" "c1"; RelayDone 0 relay_ok no_random] init.

(** The browser has answered and the relay has translated the answer
    (suspended call 2): the [200 OK] is out, Timer H is timer 3 and the
    retransmission timer is timer 4. *)
Definition s_answered : gw :=
  run cfg0 [CallAnswerSipCall "c1" "alice" (SdpStr sdp0);
            RelayDone 2 relay_ok no_random] s_ringing.

(** The ACK has arrived. *)
Definition s_established : gw := run cfg0 [datagram "ACK" "c1"] s_answered.

(** The browser has answered and the relay has not yet translated the
    answer. *)
Definition s_answering : gw :=
  run cfg0 [CallAnswerSipCall "c1" "alice" (SdpStr sdp0)] s_ringing.

(** An outgoing call whose INVITE is out and unanswered. *)
Definition s_calling : gw :=
  run cfg0 [CallMakeCallToSip "alice" "sip:bob@10.0.0.2" (SdpStr sdp0) no_random;
            RelayDone 0 relay_ok no_random] init.

(** The requests sent, with their destinations. *)
Definition requests_sent (tr : list (N * output)) : list (string * string * N) :=
  omap (fun o => match snd o with
                 | Send (OutRequest m _ _ _) host port => Some (m, host, port)
                 | _ => None
                 end) tr.

(** The responses sent: time, status, destination and body. *)
Definition responses_sent (tr : list (N * output))
  : list (N * N * string * N * option string) :=
  omap (fun o => match snd o with
                 | Send (OutResponse st _ _ b) host port => Some (fst o, st, host, port, b)
                 | _ => None
                 end) tr.


(** The header [name] of a message the engine built. *)
Definition header (name : string) (m : out_message) : option hvalue :=
  match m with
  | OutRequest _ _ hs _ | OutResponse _ _ hs _ =>
      snd <$> List.find (fun kv => String.eqb (fst kv) name) hs
  end.

(** The requests sent, whole, with their destinations. *)
Definition requests (tr : list (N * output)) : list (out_message * string * N) :=
  omap (fun o => match snd o with
                 | Send (OutRequest m u hs b) host port =>
                     Some (OutRequest m u hs b, host, port)
                 | _ => None
                 end) tr.

(** The payload of the relay's [delete] in the revision of [part_000]. *)
Definition Rev_delete_payload (callId : string) (x : session) : relay_payload :=
  {| p_call_id := callId; p_from_tag := fromTag x;
     p_to_tag := if truthy (toTag x) then toTag x else None;
     p_sdp := None; p_profile := [] |}.

(** The responses that the timer callbacks of a run have sent: what
    each [TimerFire] step adds to the responses sent. *)
Fixpoint sent_by_timers (cfg : config) (inputs : list input) (s : gw)
  : list (N * N * string * N * option string) :=
  match inputs with
  | [] => []
  | i :: rest =>
      let s' := step cfg i s in
      ((match i with
        | TimerFire _ =>
            List.skipn (List.length (responses_sent (out s))) (responses_sent (out s'))
        | _ => []
        end) ++ sent_by_timers cfg rest s')%list
  end.

(** From [s_answered]: no ACK arrives and the retransmission timer
    expires three times (timers 4, 5, 6, at 500, 1500 and 3500 ms); then
    the browser's answer frame comes again, the hub passes it to
    [answerSipCall] as it does with every answer frame, and the relay
    translates it (suspended call 8); from then on the timers expire in the
    order of their due times. *)
Definition second_answer : list input :=
  [TimerFire 4; TimerFire 5; TimerFire 6;
   CallAnswerSipCall "c1" "alice" (SdpStr sdp0); RelayDone 8 relay_ok no_random;
   TimerFire 10; TimerFire 11; TimerFire 12; TimerFire 7; TimerFire 13;
   TimerFire 14; TimerFire 15; TimerFire 16; TimerFire 17].

End Scenario.

(** ** What the further properties observe *)

Module Observe.
Import JsString SipText Nat_fixup Retry Generate SipGateway.

(** The input is the settling of a media-relay call. *)
Definition is_relay_done (i : input) : bool :=
  match i with
  | RelayDone _ _ _ => true
  | _ => false
  end.

(** The events emitted, in order. *)
Definition events (tr : list (N * output)) : list event :=
  omap (fun o => match snd o with
                 | Emit e => Some e
                 | _ => None
                 end) tr.

(** The media-relay calls issued, in order. *)
Definition relay_calls (tr : list (N * output)) : list (relay_op * relay_payload) :=
  omap (fun o => match snd o with
                 | Relay op p => Some (op, p)
                 | _ => None
                 end) tr.

(** The errors thrown to the callers of the API, in order. *)
Definition thrown (tr : list (N * output)) : list (string * string) :=
  omap (fun o => match snd o with
                 | Threw api msg => Some (api, msg)
                 | _ => None
                 end) tr.

(** The messages sent, with their destinations. *)
Definition sent (tr : list (N * output)) : list (out_message * string * N) :=
  omap (fun o => match snd o with
                 | Send m host port => Some (m, host, port)
                 | _ => None
                 end) tr.

(** The payload of the relay's [delete] for the session [x]. *)
Definition delete_payload (callId : string) (x : session) : relay_payload :=
  {| p_call_id := callId; p_from_tag := fromTag x; p_to_tag := toTag x;
     p_sdp := None; p_profile := [] |}.

(** The time a run of the retry wrapper spends waiting, in milliseconds. *)
Definition total_sleep (tr : list Retry.retry_event) : N :=
  fold_right (fun ev acc => match ev with
                            | Retry.Sleep ms => ms + acc
                            | Retry.Attempt _ => acc
                            end) 0 tr.

(** The gauge of active sessions is not negative. *)
Definition gauge_ok (s : gw) : Prop := (0 <=? activeSessions (metric s))%Z = true.

(** A white-space character is the first character of [s]. *)
Definition starts_with_space (s : string) : bool :=
  match s with
  | String c _ => JsString.is_space c
  | EmptyString => false
  end.

(** Character classes of the engine's regular expressions: [[^<]],
    [[^@>]] (a user part inside angle brackets), [[^:;>]]. *)
Definition not_lt (c : ascii) : bool := negb (Ascii.eqb c "<").
Definition not_gt (c : ascii) : bool := negb (Ascii.eqb c ">").
Definition user_char (c : ascii) : bool := negb (Ascii.eqb c "@").
Definition host_char (c : ascii) : bool :=
  negb (Ascii.eqb c ":" || Ascii.eqb c ";" || Ascii.eqb c ">").

(** Sample inputs: the top Via of the INVITE of [Scenario.s_calling], a
    response of the telephony server to it, and the continuation of
    [handleInviteResponse] parked on the relay's answer in a state with
    the dialog of [Scenario.s_calling]. *)
Definition via_calling : string :=
  "SIP/2.0/UDP 10.0.0.9:5060;branch=" ++ generateBranch (bytes no_random) 6 ++ ";rport".

Definition answer_of (status : N) (reason contact body : string) : response :=
  {| status := status; reason := reason; isTimeout := false;
     rs_via := Some (ViaArray [via_calling]);
     rs_from := "<sip:webrtc@10.0.0.9>;tag=" ++ generateTag (bytes no_random) 0;
     rs_to := Some "<sip:bob@10.0.0.2>;tag=b0b";
     rs_call_id := "00@10.0.0.9"; rs_cseq := "1 INVITE";
     rs_contact := Some contact; rs_body := body |}.

Definition s_answer_parked : gw :=
  upd_pending
    (insert 7%nat
       (KInviteResponse "00@10.0.0.9" (generateTag (bytes no_random) 0) "sip:bob@10.0.0.2"
          (answer_of 200 "OK" "Bob <sip:bob@10.0.0.5:5080>;expires=60" Scenario.sdp0)
          1%nat "b0b"))
    Scenario.s_calling.


(** The same, for an answer whose Contact has the port 0. *)
Definition s_answer_port0 : gw :=
  upd_pending
    (insert 7%nat
       (KInviteResponse "00@10.0.0.9" (generateTag (bytes no_random) 0) "sip:bob@10.0.0.2"
          (answer_of 200 "OK" "<sip:bob@10.0.0.5:0>" Scenario.sdp0)
          1%nat "b0b"))
    Scenario.s_calling.

End Observe.

(** * Properties *)

(** ** Bounded retries *)

Module RetryFacts.
Import Retry.

Section Loop.
Context {A E : Type}.
Variable unit : N.
Variable operation : nat -> outcome A E.
Variable retries : nat.

Lemma retry_loop_attempts fuel i :
  (attempts (fst (retry_loop unit operation retries fuel i)) <= fuel)%nat.
Proof.
  revert i. induction fuel as [|fuel IH]; intros i; simpl; [unfold attempts; simpl; lia|].
  destruct (i <? retries)%nat; [|unfold attempts; simpl; lia].
  destruct (operation i); [unfold attempts; simpl; lia|].
  destruct (i =? retries - 1)%nat; [unfold attempts; simpl; lia|].
  specialize (IH (S i)).
  destruct (retry_loop unit operation retries fuel (S i)) as [tr c].
  unfold attempts in *. simpl in *. lia.
Qed.

(** The first success after [k] failures ends the loop. *)
Lemma retry_loop_success fuel i k a :
  (i + k < retries)%nat -> (k < fuel)%nat ->
  (forall j, (j < k)%nat -> exists e, operation (i + j)%nat = Rejected e) ->
  operation (i + k)%nat = Resolved a ->
  retry_loop unit operation retries fuel i = (backoff_trace unit i k, Return a).
Proof.
  revert i k. induction fuel as [|fuel IH]; intros i k Hlt Hf Hrej Hok; [lia|].
  simpl. destruct (Nat.ltb_spec i retries); [|lia].
  destruct k as [|k].
  - rewrite Nat.add_0_r in Hok. rewrite Hok. reflexivity.
  - destruct (Hrej O ltac:(lia)) as [e He]. rewrite Nat.add_0_r in He. rewrite He.
    destruct (Nat.eqb_spec i (retries - 1)); [lia|].
    rewrite (IH (S i) k); [reflexivity|lia|lia| |].
    + intros j Hj. destruct (Hrej (S j) ltac:(lia)) as [e' He'].
      exists e'. rewrite <- He'. f_equal. lia.
    + rewrite <- Hok. f_equal. lia.
Qed.

(** When every attempt fails, the error of the last one is thrown. *)
Lemma retry_loop_exhausted fuel i k e :
  (i + k = retries - 1)%nat -> (i + k < retries)%nat -> (k < fuel)%nat ->
  (forall j, (j < k)%nat -> exists e', operation (i + j)%nat = Rejected e') ->
  operation (i + k)%nat = Rejected e ->
  retry_loop unit operation retries fuel i = (backoff_trace unit i k, Throw e).
Proof.
  revert i k. induction fuel as [|fuel IH]; intros i k Heq Hlt Hf Hrej Hlast; [lia|].
  simpl. destruct (Nat.ltb_spec i retries); [|lia].
  destruct k as [|k].
  - rewrite Nat.add_0_r in Hlast, Heq. rewrite Hlast.
    destruct (Nat.eqb_spec i (retries - 1)); [reflexivity|lia].
  - destruct (Hrej O ltac:(lia)) as [e' He']. rewrite Nat.add_0_r in He'. rewrite He'.
    destruct (Nat.eqb_spec i (retries - 1)); [lia|].
    rewrite (IH (S i) k); [reflexivity|lia|lia|lia| |].
    + intros j Hj. destruct (Hrej (S j) ltac:(lia)) as [e'' He''].
      exists e''. rewrite <- He''. f_equal. lia.
    + rewrite <- Hlast. f_equal. lia.
Qed.
End Loop.

(** The wrapper never invokes the operation more than [retries] times. *)
Lemma rtpengineOperationWithRetry_attempts {A E} (operation : nat -> outcome A E) retries :
  (attempts (fst (rtpengineOperationWithRetry operation retries)) <= retries)%nat.
Proof. apply retry_loop_attempts. Qed.

End RetryFacts.

(** ** C9: the relay calls and the retry wrapper *)

Module RelayCallFacts.
Import JsString SipText Nat_fixup Retry Generate SipGateway Scenario Observe RetryFacts.

(** C9, as the claim states it, fails twice.  The ping of [initialize]
    is not retried: one failed ping ends it, although the second attempt,
    which the wrapper would have made, succeeds.  And the wrapper of
    [sipGateway.js] waits 100 ms before the second attempt, not one
    second; one second is what the wrapper of [part_000] waits. *)
Lemma ping_is_not_retried_and_the_wait_is_100_ms :
  let operation := fun i : nat => match i with
                                  | O => Rejected "ETIMEDOUT"
                                  | S _ => Resolved "pong"
                                  end in
  initialize_ping operation = ([Attempt 0], Throw "ETIMEDOUT")
  /\ rtpengineOperationWithRetry operation 3
     = ([Attempt 0; Sleep 100; Attempt 1], Return "pong")
  /\ Rev.rtpengineOperationWithRetry operation 3
     = ([Attempt 0; Sleep 1000; Attempt 1], Return "pong").
Proof. repeat split. Qed.

(** C9 (amended): every relay call that the engine issues suspends
    its caller, and every relay call on which the engine is suspended, the
    [offer] of [makeCallToSip], [handleIncomingInvite] and
    [handleReInvite], the [answer] of [handleInviteResponse] and
    [answerSipCall] and the [delete] of [cleanupSession], is settled by
    [rtpengineOperationWithRetry] with three tries.  The first attempt
    that succeeds, the first, second or third, is the one the caller goes
    on with, as if the call had succeeded at once; before attempt [i + 1]
    the wrapper has waited [100 * i] ms after the failure of attempt [i]
    in [sipGateway.js], and [1000 * i] ms in [part_000].  When the three
    attempts fail there is no fourth: the error of the third is thrown
    into the [catch] of the caller.  The ping of [initialize] is attempted
    once and its error thrown at once. *)
Theorem relay_calls_are_retried_three_times cfg k kt
    (attempts : nat -> outcome relay_response string) e (s : gw) :
  pending s !! k = Some kt ->
  let s' := upd_pending (delete k) s in
  (forall j resp,
      (j < 3)%nat ->
      (forall i, (i < j)%nat -> exists e', attempts i = Rejected e') ->
      attempts j = Resolved resp ->
      rtpengineOperationWithRetry attempts 3 = (backoff_trace 100 0 j, Return resp)
      /\ Rev.rtpengineOperationWithRetry attempts 3 = (backoff_trace 1000 0 j, Return resp)
      /\ resume cfg k attempts e s = resume cfg k (fun _ => Resolved resp) e s)
  /\ backoff_trace 100 0 2 = [Attempt 0; Sleep 100; Attempt 1; Sleep 200; Attempt 2]
  /\ backoff_trace 1000 0 2 = [Attempt 0; Sleep 1000; Attempt 1; Sleep 2000; Attempt 2]
  /\ (forall e0 e1 e2,
        attempts 0%nat = Rejected e0 -> attempts 1%nat = Rejected e1 ->
        attempts 2%nat = Rejected e2 ->
        rtpengineOperationWithRetry attempts 3 = (backoff_trace 100 0 2, Throw e2)
        /\ Rev.rtpengineOperationWithRetry attempts 3 = (backoff_trace 1000 0 2, Throw e2)
        /\ resume cfg k attempts e s
           = match kt with
             | KReInvite q r _ => reInvite_failed cfg q r s'
             | KMakeCall _ _ _ _ webrtcClientId _ => makeCall_failed webrtcClientId e2 s'
             | KInviteResponse callId _ _ _ loc _ => inviteResponse_failed callId loc e2 s'
             | KIncomingInvite q r _ _ _ _ _ => incomingInvite_failed cfg q r s'
             | KAnswer callId _ _ => answer_failed callId e2 s'
             | KCleanup callId after => cleanupSession_resume callId after s'
             end)
  /\ (forall e0, attempts 0%nat = Rejected e0 ->
        initialize_ping attempts = ([Attempt 0], Throw e0))
  /\ (forall op p kt0 (s0 : gw),
        out (await_relay op p kt0 s0) = (out s0 ++ [(clock s0, Relay op p)])%list
        /\ pending (await_relay op p kt0 s0) !! next s0 = Some kt0).
Proof.
  intros Hp s'. split; [|split; [reflexivity|split; [reflexivity|split; [|split]]]].
  - intros j resp Hj Hrej Hok.
    assert (E1 : rtpengineOperationWithRetry attempts 3
                 = (backoff_trace 100 0 j, Return resp)).
    { unfold rtpengineOperationWithRetry.
      apply (retry_loop_success 100 attempts 3 3 0 j resp); [lia|lia|exact Hrej|exact Hok]. }
    assert (E2 : Rev.rtpengineOperationWithRetry attempts 3
                 = (backoff_trace 1000 0 j, Return resp)).
    { unfold Rev.rtpengineOperationWithRetry.
      apply (retry_loop_success 1000 attempts 3 3 0 j resp); [lia|lia|exact Hrej|exact Hok]. }
    split; [exact E1|]. split; [exact E2|].
    unfold resume. rewrite Hp, E1. reflexivity.
  - intros e0 e1 e2 H0 H1 H2.
    assert (Hrej : forall i, (i < 2)%nat -> exists e', attempts (0 + i)%nat = Rejected e').
    { intros [|[|i]] Hi; [eauto|eauto|lia]. }
    assert (E1 : rtpengineOperationWithRetry attempts 3
                 = (backoff_trace 100 0 2, Throw e2)).
    { unfold rtpengineOperationWithRetry.
      apply (retry_loop_exhausted 100 attempts 3 3 0 2 e2); [lia|lia|lia|exact Hrej|exact H2]. }
    assert (E2 : Rev.rtpengineOperationWithRetry attempts 3
                 = (backoff_trace 1000 0 2, Throw e2)).
    { unfold Rev.rtpengineOperationWithRetry.
      apply (retry_loop_exhausted 1000 attempts 3 3 0 2 e2); [lia|lia|lia|exact Hrej|exact H2]. }
    split; [exact E1|]. split; [exact E2|].
    unfold resume. rewrite Hp, E1. destruct kt; reflexivity.
  - intros e0 H0. unfold initialize_ping. rewrite H0. reflexivity.
  - intros op p kt0 s0. split; [reflexivity|]. unfold await_relay, log. simpl.
    apply lookup_insert_eq.
Qed.

Lemma relay_calls_are_retried_three_times_witness :
  let s := handleInvite cfg0 (req "INVITE" "c1") phone no_random init in
  let third := fun i : nat => match i with
                              | 2%nat => Resolved relay_ok_response
                              | _ => Rejected "ETIMEDOUT"
                              end in
  let never := fun _ : nat => @Rejected relay_response string "ETIMEDOUT" in
  rtpengineOperationWithRetry third 3
  = ([Attempt 0; Sleep 100; Attempt 1; Sleep 200; Attempt 2], Return relay_ok_response)
  /\ resume cfg0 0 third no_random s = s_ringing
  /\ rtpengineOperationWithRetry never 3
     = ([Attempt 0; Sleep 100; Attempt 1; Sleep 200; Attempt 2], Throw "ETIMEDOUT")
  /\ statuses (out (resume cfg0 0 never no_random s)) = [500].
Proof.
  intros s third never.
  assert (Hp : pending s !! 0%nat
               = Some (KIncomingInvite (req "INVITE" "c1") phone
                         (serverKey (req "INVITE" "c1")) "c1" "7d1"
                         "sip:bob@192.168.1.127" "alice"))
    by (vm_compute; reflexivity).
  destruct (relay_calls_are_retried_three_times cfg0 0 _ third no_random s Hp)
    as (H3 & _ & _ & _ & _).
  destruct (relay_calls_are_retried_three_times cfg0 0 _ never no_random s Hp)
    as (_ & _ & _ & H0 & _).
  destruct (H3 2%nat relay_ok_response ltac:(lia)) as (A1 & _ & A3).
  { intros [|[|i]] Hi; [eexists; reflexivity|eexists; reflexivity|lia]. }
  { reflexivity. }
  destruct (H0 "ETIMEDOUT" "ETIMEDOUT" "ETIMEDOUT" eq_refl eq_refl eq_refl) as (B1 & _ & B3).
  split; [exact A1|]. split; [rewrite A3; vm_compute; reflexivity|].
  split; [exact B1|]. rewrite B3. vm_compute. reflexivity.
Defined.

End RelayCallFacts.

(** ** C6: the NAT fixup applied twice *)

Module NatFacts.
Import JsString SipText Nat_fixup.

Lemma append_cons c a x : String c a ++ x = String c (a ++ x).
Proof. reflexivity. Qed.

Lemma append_nil x : "" ++ x = x.
Proof. reflexivity. Qed.

Lemma append_assoc a b c : (a ++ b) ++ c = a ++ (b ++ c).
Proof.
  induction a as [|x a IH]; [reflexivity|]. rewrite !append_cons, IH. reflexivity.
Qed.

Lemma startsWith_cons c s d q :
  startsWith (String c s) (String d q) = Ascii.eqb c d && startsWith s q.
Proof.
  unfold startsWith. simpl. destruct (ascii_dec d c) as [->|Hne].
  - rewrite Ascii.eqb_refl. reflexivity.
  - destruct (Ascii.eqb_spec c d); [congruence|reflexivity].
Qed.

Lemma startsWith_nil s : startsWith s "" = true.
Proof. destruct s; reflexivity. Qed.

Lemma startsWith_empty q : startsWith "" q = match q with "" => true | _ => false end.
Proof. destruct q; reflexivity. Qed.

Lemma startsWith_app_long q : forall a x,
  (String.length q <= String.length a)%nat -> startsWith (a ++ x) q = startsWith a q.
Proof.
  induction q as [|d q IH]; intros a x H.
  - rewrite !startsWith_nil. reflexivity.
  - destruct a as [|c a]; simpl in H; [lia|].
    rewrite append_cons, !startsWith_cons. rewrite IH by lia. reflexivity.
Qed.

Lemma startsWith_self q x : startsWith (q ++ x) q = true.
Proof.
  induction q as [|d q IH]; [apply startsWith_nil|].
  rewrite append_cons, startsWith_cons, Ascii.eqb_refl, IH. reflexivity.
Qed.

Lemma startsWith_length s q : startsWith s q = true -> (String.length q <= String.length s)%nat.
Proof.
  revert s. induction q as [|d q IH]; intros s H; simpl; [lia|].
  destruct s as [|c s]; [discriminate|]. rewrite startsWith_cons in H.
  apply andb_true_iff in H as [_ H]. apply IH in H. simpl. lia.
Qed.

Lemma startsWith_drop s q : startsWith s q = true -> s = q ++ drop (String.length q) s.
Proof.
  revert s. induction q as [|d q IH]; intros s H; simpl; [reflexivity|].
  destruct s as [|c s]; [discriminate|]. rewrite startsWith_cons in H.
  apply andb_true_iff in H as [Hc H]. apply Ascii.eqb_eq in Hc. subst d.
  rewrite append_cons. cbn [String.length drop]. f_equal. apply IH. exact H.
Qed.

Lemma drop_app_exact q x : drop (String.length q) (q ++ x) = x.
Proof. induction q as [|d q IH]; [reflexivity|]. rewrite append_cons. exact IH. Qed.

Lemma includes_length s q : includes s q = true -> (String.length q <= String.length s)%nat.
Proof.
  induction s as [|c s IH]; cbn [includes]; intros H.
  - apply startsWith_length in H. exact H.
  - apply orb_true_iff in H as [H|H].
    + apply startsWith_length in H. exact H.
    + apply IH in H. simpl. lia.
Qed.

Lemma includes_app_l s x q : includes s q = true -> includes (s ++ x) q = true.
Proof.
  induction s as [|c s IH]; cbn [includes]; intros H.
  - pose proof (startsWith_length _ _ H) as L. destruct q; [|simpl in L; lia].
    rewrite append_nil. destruct x; reflexivity.
  - rewrite append_cons. cbn [includes]. apply orb_true_iff in H as [H|H].
    + pose proof (startsWith_length _ _ H) as L.
      rewrite <- append_cons.
      rewrite startsWith_app_long by exact L. rewrite H. reflexivity.
    + rewrite IH by exact H. apply orb_true_r.
Qed.

Lemma includes_app_r s x q : includes x q = true -> includes (s ++ x) q = true.
Proof.
  induction s as [|c s IH]; intros H; [exact H|].
  rewrite append_cons. cbn [includes]. rewrite IH by exact H. apply orb_true_r.
Qed.

Lemma includes_self q x : includes (q ++ x) q = true.
Proof.
  destruct q as [|d q].
  - rewrite append_nil. destruct x; reflexivity.
  - pose proof (startsWith_self (String d q) x) as H. rewrite append_cons in *.
    cbn [includes]. rewrite H. reflexivity.
Qed.

Lemma span_all p D rest : all p D = true -> snd (span p (D ++ rest)) = snd (span p rest).
Proof.
  induction D as [|c D IH]; cbn [all]; intros H; [reflexivity|].
  apply andb_true_iff in H as [Hc H]. rewrite append_cons. cbn [span]. rewrite Hc.
  specialize (IH H). destruct (span p (D ++ rest)). simpl in *. exact IH.
Qed.

Lemma span_idem p x : snd (span p (snd (span p x))) = snd (span p x).
Proof.
  induction x as [|c x IH]; simpl; [reflexivity|].
  destruct (p c) eqn:E.
  - destruct (span p x). simpl in *. exact IH.
  - simpl. rewrite E. reflexivity.
Qed.

Lemma span_no_digit x : starts_with_digit x = false -> snd (span is_digit x) = x.
Proof. destruct x as [|c x]; simpl; [reflexivity|]. intros ->. reflexivity. Qed.

Lemma span_app_stop p a c suf :
  p c = false -> snd (span p (a ++ String c suf)) = snd (span p a) ++ String c suf.
Proof.
  intros Hc. induction a as [|c' a IH].
  - rewrite append_nil. cbn [span]. rewrite Hc. reflexivity.
  - rewrite append_cons. cbn [span]. destruct (p c').
    + destruct (span p (a ++ String c suf)), (span p a). simpl in *. exact IH.
    + reflexivity.
Qed.

Lemma ofN_digits n : all is_digit (ofN n) = true.
Proof.
  unfold ofN. generalize (N.to_uint n). intros u.
  induction u; simpl; try rewrite IHu; reflexivity.
Qed.

Section Replace.
Variable D : string.
Hypothesis D_digits : all is_digit D = true.
Let P := "rport=" ++ D.

Lemma replaceLitDigits_at_head x :
  replaceLitDigits ("rport=" ++ x) "rport=" P = P ++ snd (span is_digit x).
Proof.
  change ("rport=" ++ x)
    with (String "r" (String "p" (String "o" (String "r" (String "t" (String "=" x)))))).
  cbn [replaceLitDigits].
  assert (E : startsWith (String "r" (String "p" (String "o" (String "r" (String "t"
                (String "=" x)))))) "rport=" = true) by (destruct x; reflexivity).
  rewrite E. reflexivity.
Qed.

Lemma replace_at_head x : replace ("rport" ++ x) "rport" P = P ++ x.
Proof.
  change ("rport" ++ x)
    with (String "r" (String "p" (String "o" (String "r" (String "t" x))))).
  cbn [replace].
  assert (E : startsWith (String "r" (String "p" (String "o" (String "r" (String "t" x)))))
                "rport" = true) by (destruct x; reflexivity).
  rewrite E. reflexivity.
Qed.

(** The replacement leaves the first six characters as they are. *)
Lemma replaceLitDigits_startsWith s : forall q,
  (String.length q <= 6)%nat ->
  startsWith (replaceLitDigits s "rport=" P) q = startsWith s q.
Proof.
  induction s as [|c s IH]; intros q Hq; [reflexivity|].
  destruct (startsWith (String c s) "rport=") eqn:E.
  - rewrite (startsWith_drop _ _ E). rewrite replaceLitDigits_at_head.
    unfold P. rewrite append_assoc.
    rewrite !startsWith_app_long by (simpl; lia). reflexivity.
  - cbn [replaceLitDigits]. rewrite E.
    destruct q as [|d q]; [rewrite !startsWith_nil; reflexivity|].
    rewrite !startsWith_cons. rewrite IH by (simpl in Hq; lia). reflexivity.
Qed.

Lemma startsWith_r c s q :
  startsWith (String c s) (String "r" q) = Ascii.eqb c "r" && startsWith s q.
Proof. apply startsWith_cons. Qed.

Lemma replaceLitDigits_idem s :
  replaceLitDigits (replaceLitDigits s "rport=" P) "rport=" P = replaceLitDigits s "rport=" P.
Proof.
  induction s as [|c s IH]; [reflexivity|].
  destruct (startsWith (String c s) "rport=") eqn:E.
  - rewrite (startsWith_drop _ _ E). rewrite replaceLitDigits_at_head.
    unfold P at 1. rewrite append_assoc, replaceLitDigits_at_head.
    rewrite span_all by exact D_digits. rewrite span_idem. reflexivity.
  - cbn [replaceLitDigits]. rewrite E.
    assert (E' : startsWith (String c (replaceLitDigits s "rport=" P)) "rport=" = false).
    { change "rport=" with (String "r" "port=") at 2. rewrite startsWith_r.
      rewrite replaceLitDigits_startsWith by (simpl; lia).
      change "rport=" with (String "r" "port=") in E. rewrite startsWith_r in E. exact E. }
    cbn [replaceLitDigits]. rewrite E', IH. reflexivity.
Qed.

Lemma replace_startsWith s : forall q,
  (String.length q <= 5)%nat ->
  startsWith (replace s "rport" P) q = startsWith s q.
Proof.
  induction s as [|c s IH]; intros q Hq; [reflexivity|].
  destruct (startsWith (String c s) "rport") eqn:E.
  - rewrite (startsWith_drop _ _ E). rewrite replace_at_head.
    change P with ("rport" ++ ("=" ++ D)). rewrite append_assoc.
    rewrite !startsWith_app_long by (simpl; lia). reflexivity.
  - cbn [replace]. rewrite E.
    destruct q as [|d q]; [rewrite !startsWith_nil; reflexivity|].
    rewrite !startsWith_cons. rewrite IH by (simpl in Hq; lia). reflexivity.
Qed.

Lemma startsWith_rport_eq s : startsWith s "rport=" = true -> startsWith s "rport" = true.
Proof.
  intros H. rewrite (startsWith_drop _ _ H).
  change ("rport=" ++ drop (String.length "rport=") s)
    with ("rport" ++ ("=" ++ drop (String.length "rport=") s)).
  apply startsWith_self.
Qed.

Lemma replaceLitDigits_replace s :
  digit_after_first s "rport" = false ->
  replaceLitDigits (replace s "rport" P) "rport=" P = replace s "rport" P.
Proof.
  induction s as [|c s IH]; intros Hd; [reflexivity|].
  cbn [digit_after_first] in Hd.
  destruct (startsWith (String c s) "rport") eqn:E.
  - rewrite (startsWith_drop _ _ E). rewrite replace_at_head.
    unfold P at 1. rewrite append_assoc, replaceLitDigits_at_head.
    rewrite span_all by exact D_digits. rewrite span_no_digit by exact Hd. reflexivity.
  - cbn [replace]. rewrite E.
    assert (E' : startsWith (String c (replace s "rport" P)) "rport=" = false).
    { change "rport=" with (String "r" "port="). rewrite startsWith_r.
      rewrite replace_startsWith by (simpl; lia).
      destruct (Ascii.eqb c "r" && startsWith s "port=") eqn:F; [|reflexivity].
      assert (G : startsWith (String c s) "rport=" = true).
      { change "rport=" with (String "r" "port="). rewrite startsWith_r. exact F. }
      apply startsWith_rport_eq in G. congruence. }
    cbn [replaceLitDigits]. rewrite E', IH by exact Hd. reflexivity.
Qed.

Lemma replaceLitDigits_app s c suf :
  includes s "rport=" = true -> is_digit c = false ->
  replaceLitDigits (s ++ String c suf) "rport=" P
  = replaceLitDigits s "rport=" P ++ String c suf.
Proof.
  intros Hi Hc. induction s as [|c' s IH]; [discriminate|].
  cbn [includes] in Hi.
  destruct (startsWith (String c' s) "rport=") eqn:E.
  - rewrite (startsWith_drop _ _ E). rewrite append_assoc, !replaceLitDigits_at_head.
    rewrite span_app_stop by exact Hc. rewrite append_assoc. reflexivity.
  - simpl in Hi. rewrite append_cons. cbn [replaceLitDigits].
    rewrite <- append_cons, startsWith_app_long.
    + rewrite E, append_cons. f_equal. apply IH. exact Hi.
    + apply includes_length in Hi. simpl in *. lia.
Qed.

Lemma includes_replaceLitDigits s :
  includes s "rport=" = true -> includes (replaceLitDigits s "rport=" P) "rport=" = true.
Proof.
  induction s as [|c s IH]; intros H; [discriminate|].
  destruct (startsWith (String c s) "rport=") eqn:E.
  - rewrite (startsWith_drop _ _ E), replaceLitDigits_at_head.
    unfold P. rewrite append_assoc. apply includes_self.
  - cbn [replaceLitDigits]. rewrite E. cbn [includes] in *. rewrite E in H. simpl in H.
    rewrite IH by exact H. apply orb_true_r.
Qed.

Lemma includes_replace s :
  includes s "rport" = true -> includes (replace s "rport" P) "rport=" = true.
Proof.
  induction s as [|c s IH]; intros H; [discriminate|].
  destruct (startsWith (String c s) "rport") eqn:E.
  - rewrite (startsWith_drop _ _ E), replace_at_head.
    unfold P. rewrite append_assoc. apply includes_self.
  - cbn [replace]. rewrite E. cbn [includes] in *. rewrite E in H. simpl in H.
    rewrite IH by exact H. apply orb_true_r.
Qed.
End Replace.

(** Where the first [rport] of the Via is the parameter (it carries a
    value already, or no digit follows it), the fixup is idempotent as C6
    says. *)
Lemma fixVia_idempotent_when_rport_is_clean v r :
  includes v "rport=" = true \/ digit_after_first v "rport" = false ->
  fixVia (fixVia v r) r = fixVia v r.
Proof.
  intros Hclean.
  pose proof (ofN_digits (port r)) as HD.
  set (u := if includes v "rport=" then replaceLitDigits v "rport=" ("rport=" ++ ofN (port r))
            else replace v "rport" ("rport=" ++ ofN (port r))).
  set (f := if negb (includes u "received=") then u ++ ";received=" ++ address r else u).
  assert (Hcases : fixVia v r = v \/ (includes v "rport" = true /\ fixVia v r = f)).
  { unfold fixVia. destruct v as [|c v']; [left; reflexivity|].
    destruct (via_match (String c v')) as [[viaHost g2]|]; [|left; reflexivity].
    destruct (negb (viaHost =? address r)%string || negb (_ =? port r)); [|left; reflexivity].
    destruct (includes (String c v') "rport") eqn:E; [|left; reflexivity].
    right. split; reflexivity. }
  destruct Hcases as [E|[Hr E]]; [rewrite E, E; reflexivity|].
  rewrite E.
  assert (Hu1 : includes u "rport=" = true).
  { subst u. destruct (includes v "rport=") eqn:E1.
    - apply includes_replaceLitDigits. exact E1.
    - apply includes_replace. exact Hr. }
  assert (Hu2 : replaceLitDigits u "rport=" ("rport=" ++ ofN (port r)) = u).
  { subst u. destruct (includes v "rport=") eqn:E1.
    - apply replaceLitDigits_idem. exact HD.
    - apply replaceLitDigits_replace; [exact HD|].
      destruct Hclean as [?|?]; [congruence|assumption]. }
  assert (Hf1 : includes f "rport=" = true).
  { subst f. destruct (negb (includes u "received=")); [apply includes_app_l|]; exact Hu1. }
  assert (Hf2 : replaceLitDigits f "rport=" ("rport=" ++ ofN (port r)) = f).
  { subst f. destruct (negb (includes u "received=")); [|exact Hu2].
    change (";received=" ++ address r) with (String ";" ("received=" ++ address r)).
    rewrite replaceLitDigits_app; [rewrite Hu2; reflexivity|exact Hu1|reflexivity]. }
  assert (Hf3 : includes f "received=" = true).
  { subst f. destruct (includes u "received=") eqn:E3; simpl; [exact E3|].
    apply includes_app_r.
    change (";received=" ++ address r) with (String ";" ("received=" ++ address r)).
    cbn [includes]. rewrite includes_self. apply orb_true_r. }
  clearbody f. clear E.
  unfold fixVia. destruct f as [|c f']; [reflexivity|].
  destruct (via_match (String c f')) as [[viaHost g2]|]; [|reflexivity].
  destruct (negb (viaHost =? address r)%string || negb (_ =? port r)); [|reflexivity].
  destruct (includes (String c f') "rport"); [|reflexivity].
  rewrite Hf1, Hf2, Hf3. reflexivity.
Qed.

(** ... and so is [handleNATForRequest] on the header. *)
Lemma handleNATForRequest_idempotent_when_rport_is_clean v r :
  (forall via, topVia v = Some via ->
     includes via "rport=" = true \/ digit_after_first via "rport" = false) ->
  handleNATForRequest (handleNATForRequest v r) r = handleNATForRequest v r.
Proof.
  intros H. unfold handleNATForRequest.
  destruct v as [[[|via rest]|via]|]; simpl; try reflexivity;
    rewrite fixVia_idempotent_when_rport_is_clean by (apply H; reflexivity);
    reflexivity.
Qed.

(** C6 on the code: the fixup looks for the substring [rport] anywhere in
    the Via, not for the parameter.  For a request from the host
    airport1.example.com whose Via has the [rport] parameter, the first
    application rewrites the host name to [airport=400001...] and the
    second one, whose [/rport=\d*/] now swallows the digit of the name,
    to [airport=40000...]: applying the fixup twice does not give the Via
    of applying it once. *)
Theorem nat_fixup_twice_differs :
  let once := handleNATForRequest (Some (ViaArray [via_airport])) nat_source in
  let twice := handleNATForRequest once nat_source in
  includes via_airport ";rport" = true
  /\ topVia once
     = Some ("SIP/2.0/UDP airport=400001.example.com:5060;branch=z9hG4bK776;rport"
             ++ ";received=203.0.113.7")
  /\ topVia twice
     = Some ("SIP/2.0/UDP airport=40000.example.com:5060;branch=z9hG4bK776;rport"
             ++ ";received=203.0.113.7")
  /\ topVia twice <> topVia once.
Proof.
  split; [vm_compute; reflexivity|]. split; [vm_compute; reflexivity|].
  split; [vm_compute; reflexivity|]. vm_compute. discriminate.
Qed.

End NatFacts.

(** ** Formats of the generated identifiers *)

Module GenerateFacts.
Import JsString Generate.

Lemma toHex_length bs : String.length (toHex bs) = (2 * List.length bs)%nat.
Proof. induction bs as [|b bs IH]; simpl; [reflexivity|]. rewrite IH. lia. Qed.

Lemma hex_of_byte b :
  is_hex (hex_digit (Byte.to_N b / 16)) && is_hex (hex_digit (Byte.to_N b mod 16)) = true.
Proof. destruct b; reflexivity. Qed.

Lemma toHex_is_hex bs : all is_hex (toHex bs) = true.
Proof.
  induction bs as [|b bs IH]; simpl; [reflexivity|].
  pose proof (hex_of_byte b) as H. apply andb_true_iff in H as [H1 H2].
  rewrite H1, H2, IH. reflexivity.
Qed.

Lemma randomBytes_length rnd off n : List.length (randomBytes rnd off n) = n.
Proof. unfold randomBytes. rewrite List.length_map, List.length_seq. reflexivity. Qed.

(** In the revision of [part_000] the three formats of C8 hold: a call
    identifier is 32 hexadecimal characters and [@<advertised address>], a
    branch is [z9hG4bK] and 32 hexadecimal characters, a tag is 16
    hexadecimal characters. *)
Lemma Rev_generated_formats (rnd : entropy) (off : nat) (advertiseIP : string) :
  (exists h, Rev.generateCallId rnd off advertiseIP = h ++ "@" ++ advertiseIP
             /\ String.length h = 32%nat /\ all is_hex h = true)
  /\ (exists h, Rev.generateBranch rnd off = "z9hG4bK" ++ h
                /\ String.length h = 32%nat /\ all is_hex h = true)
  /\ String.length (Rev.generateTag rnd off) = 16%nat
  /\ all is_hex (Rev.generateTag rnd off) = true.
Proof.
  assert (H32 : String.length (toHex (randomBytes rnd off 16)) = 32%nat)
    by (rewrite toHex_length, randomBytes_length; reflexivity).
  split; [|split; [|split]].
  - exists (toHex (randomBytes rnd off 16)).
    split; [reflexivity|]. split; [exact H32|apply toHex_is_hex].
  - exists (toHex (randomBytes rnd off 16)).
    split; [reflexivity|]. split; [exact H32|apply toHex_is_hex].
  - unfold Rev.generateTag. rewrite toHex_length, randomBytes_length. reflexivity.
  - apply toHex_is_hex.
Qed.

(** C8 on [sipGateway.js]: a tag is 12 hexadecimal characters, not 16,
    and a call identifier is the decimal time stamp followed by a decimal
    random number, here 19 characters before the [@], not 32; the branch
    alone has the format of the claim. *)
Theorem generated_identifiers_of_sipGateway_js :
  (forall rnd off, String.length (generateTag rnd off) = 12%nat
                   /\ all is_hex (generateTag rnd off) = true)
  /\ generateCallId 1700000000000 123456 "10.0.0.9" = "1700000000000123456@10.0.0.9"
  /\ (forall rnd off, exists h, generateBranch rnd off = "z9hG4bK" ++ h
                                /\ String.length h = 32%nat /\ all is_hex h = true).
Proof.
  split; [|split].
  - intros rnd off. split; [|apply toHex_is_hex].
    unfold generateTag. rewrite toHex_length, randomBytes_length. reflexivity.
  - reflexivity.
  - intros rnd off. exists (toHex (randomBytes rnd off 16)).
    split; [reflexivity|]. split; [|apply toHex_is_hex].
    rewrite toHex_length, randomBytes_length. reflexivity.
Qed.

End GenerateFacts.

(** ** The engine: frame lemmas *)

Module GatewayFacts.
Import JsString SipText Nat_fixup Retry Generate SipGateway Scenario.

Lemma get_session_None callId (s : gw) :
  sessions s !! callId = None -> get_session callId s = None.
Proof. unfold get_session. intros ->. reflexivity. Qed.

Lemma get_session_Some callId (s : gw) loc x :
  sessions s !! callId = Some loc -> heap s !! loc = Some x ->
  get_session callId s = Some (loc, x).
Proof. unfold get_session. intros -> ->. reflexivity. Qed.

Lemma get_session_inv callId (s : gw) loc x :
  get_session callId s = Some (loc, x) ->
  sessions s !! callId = Some loc /\ heap s !! loc = Some x.
Proof.
  unfold get_session. destruct (sessions s !! callId) as [l|]; [|discriminate].
  destruct (heap s !! l) eqn:E; [|discriminate]. intros [= <- <-]. auto.
Qed.

(** [sendResponse] touches the trace and the remembered response only. *)
Lemma sendResponse_frame cfg q st rs r b s :
  sessions (sendResponse cfg q st rs r b s) = sessions s
  /\ heap (sendResponse cfg q st rs r b s) = heap s
  /\ pending (sendResponse cfg q st rs r b s) = pending s
  /\ timers (sendResponse cfg q st rs r b s) = timers s
  /\ next (sendResponse cfg q st rs r b s) = next s
  /\ clock (sendResponse cfg q st rs r b s) = clock s
  /\ transactions (sendResponse cfg q st rs r b s) = transactions s.
Proof.
  unfold sendResponse, sendSipMessage, log. simpl.
  destruct (inviteTransactions _ !! _); simpl; auto 10.
Qed.

Lemma sendResponse_statuses cfg q st rs r b s :
  statuses (out (sendResponse cfg q st rs r b s)) = (statuses (out s) ++ [st])%list.
Proof.
  unfold sendResponse, sendSipMessage, log, statuses. simpl.
  destruct (inviteTransactions _ !! _); simpl; rewrite omap_app; reflexivity.
Qed.

(** ** C10: rejecting an unknown or an outgoing dialog *)

(** C10: [rejectCall] on a call identifier that the dialog store does not
    know, or whose dialog is outgoing, leaves the whole engine as it is: the
    trace gets no response, no media-relay operation and no error, and the
    store is unchanged.  Conversely a call of [rejectCall] that changes
    anything was for a dialog of direction incoming. *)
Theorem rejectCall_unknown_or_outgoing_is_noop cfg (s : gw) callId statusCode reason :
  ((sessions s !! callId = None
    \/ exists loc x, sessions s !! callId = Some loc /\ heap s !! loc = Some x
                     /\ dir x = outgoing) ->
   rejectCall cfg callId statusCode reason s = s)
  /\ (rejectCall cfg callId statusCode reason s <> s ->
      exists loc x, sessions s !! callId = Some loc /\ heap s !! loc = Some x
                    /\ dir x = incoming).
Proof.
  split.
  - intros [H|(loc & x & H1 & H2 & H3)]; unfold rejectCall.
    + rewrite (get_session_None _ _ H). reflexivity.
    + rewrite (get_session_Some _ _ _ _ H1 H2), H3. reflexivity.
  - unfold rejectCall. destruct (get_session callId s) as [[loc x]|] eqn:E; [|congruence].
    apply get_session_inv in E as [H1 H2].
    destruct (dir x) eqn:D; [congruence|]. eauto.
Qed.

Lemma rejectCall_unknown_or_outgoing_is_noop_witness :
  rejectCall cfg0 "c9" 603 "Decline" s_ringing = s_ringing
  /\ rejectCall cfg0 "00@10.0.0.9" 603 "Decline" s_calling = s_calling.
Proof.
  split.
  - apply (proj1 (rejectCall_unknown_or_outgoing_is_noop cfg0 s_ringing "c9" 603 "Decline")).
    left. vm_compute. reflexivity.
  - apply (proj1 (rejectCall_unknown_or_outgoing_is_noop cfg0 s_calling "00@10.0.0.9"
                    603 "Decline")).
    right. eexists _, _. split; [vm_compute; reflexivity|].
    split; [vm_compute; reflexivity|reflexivity].
Defined.

(** ** C3: retransmitted INVITEs *)






(** ** The session store changes only when a relay call settles *)

Lemma cleanupSession_sessions callId a (s : gw) :
  sessions (cleanupSession callId a s) = sessions s.
Proof.
  unfold cleanupSession, run_after.
  destruct (get_session callId s) as [[l x]|]; [|destruct a; reflexivity].
  destruct (truthy (transactionKey x)), (retransmit200Timer x), (ackTimeoutTimer x);
    reflexivity.
Qed.

Lemma sendResponse_sessions cfg q st rs r b s :
  sessions (sendResponse cfg q st rs r b s) = sessions s.
Proof. apply sendResponse_frame. Qed.

Lemma clearTimeout_sessions h (s : gw) : sessions (clearTimeout h s) = sessions s.
Proof. destruct h; reflexivity. Qed.

Ltac frame0 :=
  repeat first
    [ rewrite cleanupSession_sessions
    | rewrite clearTimeout_sessions
    | rewrite sendResponse_sessions
    | progress simpl
    | case_match ];
  try reflexivity.

Lemma handleInviteResponse_sessions p callId fromTag targetUri e s :
  sessions (handleInviteResponse p callId fromTag targetUri e s) = sessions s.
Proof. unfold handleInviteResponse, inviteResponse_failed. frame0. Qed.

Ltac frame :=
  repeat first
    [ rewrite cleanupSession_sessions
    | rewrite clearTimeout_sessions
    | rewrite sendResponse_sessions
    | rewrite handleInviteResponse_sessions
    | progress simpl
    | case_match ];
  try reflexivity.

Lemma handleRequest_sessions cfg q r e s :
  sessions (handleRequest cfg q r e s) = sessions s.
Proof.
  unfold handleRequest, handleInvite, handleAck, handleBye, handleCancel, handleInfo,
    handleReInvite, handleIncomingInvite, reInvite_failed, incomingInvite_failed.
  frame.
Qed.

(** Every step but the settling of a relay call leaves the dialog store
    as it is: dialogs are inserted and removed only by the continuations
    of [makeCallToSip], [handleIncomingInvite] and [cleanupSession]. *)
Lemma step_sessions cfg i s :
  (forall k a e, i <> RelayDone k a e) -> sessions (step cfg i s) = sessions s.
Proof.
  intros H. destruct i; simpl.
  - unfold handleIncomingMessage. destruct m.
    + apply handleRequest_sessions.
    + unfold handleResponse. frame.
  - exfalso. eapply H. reflexivity.
  - unfold fire, run_closure. frame.
  - unfold makeCallToSip, makeCall_failed. frame.
  - unfold answerSipCall, answer_failed. frame.
  - unfold rejectCall. frame.
  - unfold hangup. frame.
  - reflexivity.
Qed.

(** ** C4: the cap on concurrent sessions *)

(** At the cap an inbound INVITE is answered [503] and nothing else
    happens: no dialog, no relay call. *)
Lemma handleIncomingInvite_at_capacity cfg q r key e (s : gw) :
  maxConcurrentSessions cfg <= N.of_nat (size (sessions s)) ->
  handleIncomingInvite cfg q r key e s
  = sendResponse cfg q 503 "Service Unavailable" r None s.
Proof.
  intros H. unfold handleIncomingInvite.
  destruct (N.leb_spec (maxConcurrentSessions cfg) (N.of_nat (size (sessions s))));
    [reflexivity|lia].
Qed.

(** At the cap [makeCallToSip] throws and nothing else happens. *)
Lemma makeCallToSip_at_capacity cfg id target offer e (s : gw) :
  maxConcurrentSessions cfg <= N.of_nat (size (sessions s)) ->
  makeCallToSip cfg id target offer e s
  = log (Threw "makeCallToSip" "Maximum concurrent sessions reached") s.
Proof.
  intros H. unfold makeCallToSip.
  destruct (N.leb_spec (maxConcurrentSessions cfg) (N.of_nat (size (sessions s))));
    [reflexivity|lia].
Qed.

(** C4 on the code: the cap is tested before the [await] of the relay's
    offer and the dialog is inserted after it, without a second test.  With
    room for one session, two INVITEs that arrive before the relay has
    answered the first both pass the test and both dialogs are inserted:
    the store holds two dialogs, and neither INVITE got a [503]. *)
Theorem racing_invites_exceed_the_cap :
  let s := run cfg0 [datagram "INVITE" "c1"; datagram "INVITE" "c2";
                     RelayDone 0 relay_ok no_random; RelayDone 1 relay_ok no_random]
             init in
  maxConcurrentSessions cfg0 = 1
  /\ size (sessions s) = 2%nat
  /\ statuses (out s) = [100; 180; 100; 180].
Proof. vm_compute. auto. Qed.

(** ** C1: cleanup *)

Lemma relay_ops_app op callId tr1 tr2 :
  relay_ops op callId (tr1 ++ tr2)
  = (relay_ops op callId tr1 ++ relay_ops op callId tr2)%list.
Proof. unfold relay_ops. apply omap_app. Qed.

(** In the revision of [part_000] cleanup is idempotent as C1 says: the
    first invocation marks the dialog [terminating] and issues one relay
    delete; a second invocation, whether it runs while the first waits for
    the relay or after the first has removed the dialog, changes nothing. *)
Lemma Rev_cleanupSession_idempotent callId (s : gw) loc x :
  sessions s !! callId = Some loc -> heap s !! loc = Some x -> state x <> terminating ->
  let s1 := Rev.cleanupSession callId AfterNothing s in
  let s2 := Rev.cleanupSession_resume callId AfterNothing s1 in
  relay_ops op_delete callId (out s1)
    = (relay_ops op_delete callId (out s) ++ [Rev_delete_payload callId x])%list
  /\ Rev.cleanupSession callId AfterNothing s1 = s1
  /\ out s2 = out s1
  /\ sessions s2 = delete callId (sessions s)
  /\ Rev.cleanupSession callId AfterNothing s2 = s2.
Proof.
  intros Hs Hh Hst s1 s2.
  assert (E1 : s1 =
    await_relay op_delete (Rev_delete_payload callId x) (KCleanup callId AfterNothing)
      ((if truthy (transactionKey x)
        then upd_inviteTransactions (delete (or_null (transactionKey x)))
        else fun s => s)
         (update loc (set_retransmit200Timer None)
            (clearTimeout (retransmit200Timer x)
               (update loc (set_ackTimeoutTimer None)
                  (clearTimeout (ackTimeoutTimer x)
                     (update loc (set_state terminating) s))))))).
  { subst s1. unfold Rev.cleanupSession. rewrite (get_session_Some _ _ _ _ Hs Hh).
    destruct (state x); try congruence; destruct (truthy (transactionKey x)); reflexivity. }
  assert (Hs1 : sessions s1 = sessions s).
  { rewrite E1.
    destruct (truthy (transactionKey x)), (retransmit200Timer x), (ackTimeoutTimer x);
      reflexivity. }
  assert (Hh1 : exists x1, heap s1 !! loc = Some x1 /\ state x1 = terminating).
  { rewrite E1.
    exists (set_retransmit200Timer None (set_ackTimeoutTimer None (set_state terminating x))).
    split; [|reflexivity].
    destruct (truthy (transactionKey x)), (retransmit200Timer x), (ackTimeoutTimer x); simpl;
      rewrite !lookup_alter_eq, Hh; reflexivity. }
  split; [|split; [|split; [|split]]].
  - rewrite E1. unfold await_relay, log. simpl. rewrite relay_ops_app. f_equal.
    + destruct (truthy (transactionKey x)), (retransmit200Timer x), (ackTimeoutTimer x);
        reflexivity.
    + unfold relay_ops. simpl. rewrite String.eqb_refl. reflexivity.
  - destruct Hh1 as (x1 & Hx1 & Ht1).
    unfold Rev.cleanupSession. rewrite (get_session_Some callId s1 loc x1); [|congruence|auto].
    rewrite Ht1. reflexivity.
  - reflexivity.
  - subst s2. unfold Rev.cleanupSession_resume. simpl. rewrite Hs1. reflexivity.
  - unfold Rev.cleanupSession. rewrite get_session_None; [reflexivity|].
    subst s2. unfold Rev.cleanupSession_resume. simpl. apply lookup_delete_eq.
Qed.

(** C1 on [sipGateway.js]: [cleanupSession] never sets the state
    [terminating] and has no early exit on it.  When the telephone's BYE
    and the browser's hangup for the established call [c1] come in before
    the relay has answered the first delete, both invocations issue a relay
    delete: two deletes for one call.  The same two invocations of the
    other revision's [cleanupSession] issue one. *)
Theorem racing_cleanups_delete_twice :
  let s := run cfg0 [datagram "BYE" "c1"; CallHangup "c1" no_random;
                     RelayDone 5 relay_ok no_random; RelayDone 6 relay_ok no_random]
             s_established in
  List.length (relay_ops op_delete "c1" (out s)) = 2%nat
  /\ state <$> heap s !! 1%nat = Some established
  /\ List.length
       (relay_ops op_delete "c1"
          (out (cleanupSession "c1" AfterNothing
                  (cleanupSession "c1" AfterNothing s_established)))) = 2%nat
  /\ List.length
       (relay_ops op_delete "c1"
          (out (Rev.cleanupSession "c1" AfterNothing
                  (Rev.cleanupSession "c1" AfterNothing s_established)))) = 1%nat.
Proof. vm_compute. auto. Qed.

(** ** C5: hangup *)

Lemma Rev_cleanupSession_requests callId (s : gw) :
  requests (out (Rev.cleanupSession callId AfterNothing s)) = requests (out s).
Proof.
  unfold Rev.cleanupSession.
  destruct (get_session callId s) as [[loc x]|]; [|reflexivity].
  destruct (state x); try reflexivity;
    destruct (truthy (transactionKey x)), (retransmit200Timer x), (ackTimeoutTimer x);
    unfold await_relay, log, requests; simpl; rewrite omap_app; simpl;
    rewrite app_nil_r; reflexivity.
Qed.

(** In the revision of [part_000] hangup is as C5 says: a BYE only in
    the states established and answered, to the configured server for an
    outgoing dialog and to the address the INVITE came from for an incoming
    one, with the incremented sequence number; a CANCEL on the branch of
    the INVITE for an outgoing dialog in the state calling; nothing
    otherwise. *)
Lemma Rev_hangup_spec cfg callId e (s : gw) loc x :
  sessions s !! callId = Some loc -> heap s !! loc = Some x ->
  let s' := Rev.hangup cfg callId e s in
  match state x, dir x with
  | established, outgoing | answered, outgoing =>
      exists uri hs,
        requests (out s')
        = (requests (out s)
           ++ [(OutRequest "BYE" uri hs None, sipServerHost cfg, sipServerPort cfg)])%list
        /\ header "cseq" (OutRequest "BYE" uri hs None)
           = Some (HStr (ofN (cseq x + 1) ++ " BYE"))
  | established, incoming | answered, incoming =>
      forall q0 r0, sipRequest x = Some q0 -> s_rinfo x = Some r0 ->
      exists uri hs,
        requests (out s')
        = (requests (out s) ++ [(OutRequest "BYE" uri hs None, address r0, port r0)])%list
        /\ header "cseq" (OutRequest "BYE" uri hs None)
           = Some (HStr (ofN (cseq x + 1) ++ " BYE"))
  | calling, outgoing =>
      exists uri hs,
        requests (out s')
        = (requests (out s)
           ++ [(OutRequest "CANCEL" uri hs None, sipServerHost cfg, sipServerPort cfg)])%list
        /\ header "via" (OutRequest "CANCEL" uri hs None)
           = Some (HStr (Rev.viaWith cfg (or_undefined (viaBranch x))))
  | _, _ => requests (out s') = requests (out s)
  end.
Proof.
  intros Hs Hh s'. subst s'. unfold Rev.hangup.
  rewrite (get_session_Some _ _ _ _ Hs Hh).
  destruct (state x) eqn:St, (dir x) eqn:D; rewrite Rev_cleanupSession_requests;
    try reflexivity; try (intros q0 r0 -> ->); eexists _, _;
    unfold sendSipMessage, log, requests; simpl; rewrite omap_app; simpl;
    split; reflexivity.
Qed.

Lemma Rev_cleanupSession_cseq callId (s : gw) loc :
  cseq <$> heap (Rev.cleanupSession callId AfterNothing s) !! loc = cseq <$> heap s !! loc.
Proof.
  unfold Rev.cleanupSession.
  destruct (get_session callId s) as [[l x]|]; [|reflexivity].
  destruct (state x); try reflexivity;
    destruct (truthy (transactionKey x)), (retransmit200Timer x), (ackTimeoutTimer x);
    simpl; rewrite !lookup_alter; repeat case_decide; subst; try congruence;
    try reflexivity; destruct (heap s !! loc); reflexivity.
Qed.

(** ... and the sequence number of the dialog is incremented. *)
Lemma Rev_hangup_cseq cfg callId e (s : gw) loc x :
  sessions s !! callId = Some loc -> heap s !! loc = Some x ->
  state x = established \/ state x = answered ->
  cseq <$> heap (Rev.hangup cfg callId e s) !! loc = Some (cseq x + 1).
Proof.
  intros Hs Hh Hst. unfold Rev.hangup.
  rewrite (get_session_Some _ _ _ _ Hs Hh), Rev_cleanupSession_cseq.
  destruct Hst as [-> | ->]; destruct (dir x); try destruct (sipRequest x), (s_rinfo x);
    simpl; rewrite lookup_alter_eq, Hh; reflexivity.
Qed.

(** C5 on [sipGateway.js]: [hangup] sends a BYE whatever the state and
    always to the configured server.  For the established incoming call
    [c1], whose INVITE came from 192.168.1.127, the BYE goes to 10.0.0.2;
    for the outgoing call still in the state calling a BYE goes out where
    the claim has a CANCEL.  The other revision sends the BYE to
    192.168.1.127 and a CANCEL. *)
Theorem hangup_sends_BYE_to_the_server_in_any_state :
  s_rinfo <$> heap s_established !! 1%nat = Some (Some phone)
  /\ state <$> heap s_established !! 1%nat = Some established
  /\ requests_sent (out (hangup cfg0 "c1" no_random s_established))
     = [("BYE", "10.0.0.2", 5060)]
  /\ requests_sent (out (Rev.hangup cfg0 "c1" no_random s_established))
     = [("BYE", "192.168.1.127", 5060)]
  /\ state <$> heap s_calling !! 1%nat = Some calling
  /\ requests_sent (out (hangup cfg0 "00@10.0.0.9" no_random s_calling))
     = [("INVITE", "10.0.0.2", 5060); ("BYE", "10.0.0.2", 5060)]
  /\ requests_sent (out (Rev.hangup cfg0 "00@10.0.0.9" no_random s_calling))
     = [("INVITE", "10.0.0.2", 5060); ("CANCEL", "10.0.0.2", 5060)].
Proof. vm_compute. auto 10. Qed.

End GatewayFacts.

(** ** C7: the status codes the gateway sends *)

Module StatusFacts.
Import JsString SipText Nat_fixup Retry Generate SipGateway Hub Scenario GatewayFacts.

Lemma allowed_same (s s' : gw) :
  out s' = out s -> inviteTransactions s' = inviteTransactions s ->
  statuses_allowed s -> statuses_allowed s'.
Proof. unfold statuses_allowed. intros -> ->. auto. Qed.

Lemma allowed_log o (s : gw) :
  match o with Send (OutResponse _ _ _ _) _ _ => False | _ => True end ->
  statuses_allowed s -> statuses_allowed (log o s).
Proof.
  intros Ho [H1 H2]. split; [|exact H2].
  unfold log, statuses. simpl. rewrite omap_app. apply Forall_app. split; [exact H1|].
  destruct o as [[]| | | |]; simpl; try contradiction; constructor.
Qed.

Lemma allowed_sendResponse cfg q st rs r b (s : gw) :
  allowed st -> statuses_allowed s -> statuses_allowed (sendResponse cfg q st rs r b s).
Proof.
  intros Hst [H1 H2]. split.
  - rewrite sendResponse_statuses. apply Forall_app. split; [exact H1|].
    constructor; [exact Hst|constructor].
  - unfold sendResponse, sendSipMessage, log. simpl.
    destruct (inviteTransactions s !! serverKey q) eqn:E; simpl; [|exact H2].
    intros k t st' rs' b' Hk Hl.
    rewrite lookup_insert in Hk. case_decide.
    + injection Hk as <-. simpl in Hl. injection Hl as <- <- <-. exact Hst.
    + exact (H2 _ _ _ _ _ Hk Hl).
Qed.

Lemma allowed_delete k (s : gw) :
  statuses_allowed s -> statuses_allowed (upd_inviteTransactions (delete k) s).
Proof.
  intros [H1 H2]. split; [exact H1|]. simpl. intros k' t st rs b Hk Hl.
  rewrite lookup_delete in Hk. case_decide; [discriminate|eauto].
Qed.

Lemma allowed_register k c (s : gw) :
  statuses_allowed s ->
  statuses_allowed
    (upd_inviteTransactions (insert k {| it_callId := c; lastResponse := None |}) s).
Proof.
  intros [H1 H2]. split; [exact H1|]. simpl. intros k' t st rs b Hk Hl.
  rewrite lookup_insert in Hk. case_decide; [|eauto].
  injection Hk as <-. discriminate.
Qed.

Lemma allowed_await op p k (s : gw) :
  statuses_allowed s -> statuses_allowed (await_relay op p k s).
Proof.
  intros H. unfold await_relay.
  apply (allowed_same (log (Relay op p) s)); [reflexivity|reflexivity|].
  apply allowed_log; [exact I|exact H].
Qed.

Lemma allowed_clearTimeout h (s : gw) :
  statuses_allowed s -> statuses_allowed (clearTimeout h s).
Proof. intros H. destruct h; [|exact H]. apply (allowed_same s); auto. Qed.

Lemma allowed_update loc f (s : gw) :
  statuses_allowed s -> statuses_allowed (update loc f s).
Proof. apply allowed_same; reflexivity. Qed.

Lemma allowed_metric f (s : gw) :
  statuses_allowed s -> statuses_allowed (upd_metric f s).
Proof. apply allowed_same; reflexivity. Qed.

Lemma allowed_run_after a (s : gw) :
  statuses_allowed s -> statuses_allowed (run_after a s).
Proof. intros H. destruct a; simpl; [exact H| |]; apply allowed_log; auto; exact I. Qed.

Lemma allowed_cleanupSession callId a (s : gw) :
  statuses_allowed s -> statuses_allowed (cleanupSession callId a s).
Proof.
  intros H. unfold cleanupSession.
  destruct (get_session callId s) as [[l x]|]; [|apply allowed_run_after; exact H].
  apply allowed_await. destruct (truthy (transactionKey x));
    [apply allowed_delete|]; repeat apply allowed_clearTimeout; exact H.
Qed.

Lemma allowed_cleanupSession_resume callId a (s : gw) :
  statuses_allowed s -> statuses_allowed (cleanupSession_resume callId a s).
Proof.
  intros H. unfold cleanupSession_resume. apply allowed_run_after.
  eapply allowed_same; [| |exact H]; reflexivity.
Qed.

Ltac in_emitted := unfold allowed, emitted_statuses; simpl; tauto.

(** Peels the engine's primitives off a goal [statuses_allowed (f ... s)]. *)
Ltac keep_allowed :=
  repeat match goal with
  | H : statuses_allowed ?s |- statuses_allowed ?s => exact H
  | |- statuses_allowed (sendResponse _ _ _ _ _ _ _) =>
      apply allowed_sendResponse; [in_emitted|]
  | |- statuses_allowed (cleanupSession _ _ _) => apply allowed_cleanupSession
  | |- statuses_allowed (cleanupSession_resume _ _ _) => apply allowed_cleanupSession_resume
  | |- statuses_allowed (await_relay _ _ _ _) => apply allowed_await
  | |- statuses_allowed (clearTimeout _ _) => apply allowed_clearTimeout
  | |- statuses_allowed (update _ _ _) => apply allowed_update
  | |- statuses_allowed (upd_metric _ _) => apply allowed_metric
  | |- statuses_allowed (upd_inviteTransactions (delete _) _) => apply allowed_delete
  | |- statuses_allowed (upd_inviteTransactions (insert _ _) _) => apply allowed_register
  | |- statuses_allowed (log _ _) => apply allowed_log; [exact I|]
  | |- statuses_allowed (sendSipMessage _ _ _ _) => apply allowed_log; [exact I|]
  | |- statuses_allowed (run_after _ _) => apply allowed_run_after
  | |- statuses_allowed (upd_transactions _ ?s) =>
      apply (allowed_same s); [reflexivity|reflexivity|]
  | |- statuses_allowed (upd_timers _ ?s) =>
      apply (allowed_same s); [reflexivity|reflexivity|]
  | |- statuses_allowed (upd_next _ ?s) =>
      apply (allowed_same s); [reflexivity|reflexivity|]
  | |- statuses_allowed (upd_clock _ ?s) =>
      apply (allowed_same s); [reflexivity|reflexivity|]
  | |- statuses_allowed (upd_pending _ ?s) =>
      apply (allowed_same s); [reflexivity|reflexivity|]
  | |- statuses_allowed (upd_sessions _ ?s) =>
      apply (allowed_same s); [reflexivity|reflexivity|]
  | |- statuses_allowed (upd_heap _ ?s) =>
      apply (allowed_same s); [reflexivity|reflexivity|]
  | |- statuses_allowed (sessions_set _ _ ?s) =>
      apply (allowed_same s); [reflexivity|reflexivity|]
  | |- statuses_allowed (match ?x with _ => _ end) => destruct x eqn:?
  | |- statuses_allowed (if ?b then _ else _) => destruct b eqn:?
  end.

Lemma allowed_handleInviteResponse p callId fromTag targetUri e s :
  statuses_allowed s ->
  statuses_allowed (handleInviteResponse p callId fromTag targetUri e s).
Proof. intros H. unfold handleInviteResponse, inviteResponse_failed. keep_allowed. Qed.

Lemma allowed_handleRequest cfg q r e s :
  statuses_allowed s -> statuses_allowed (handleRequest cfg q r e s).
Proof.
  intros H.
  unfold handleRequest, handleInvite, handleAck, handleBye, handleCancel, handleInfo,
    handleReInvite, handleIncomingInvite, reInvite_failed, incomingInvite_failed.
  keep_allowed.
  (* the replay: the remembered status was allowed when it was sent *)
  apply allowed_sendResponse; [|keep_allowed].
  destruct H as [_ H2]. eapply H2; eauto.
Qed.

Lemma allowed_fire cfg id s : statuses_allowed s -> statuses_allowed (fire cfg id s).
Proof.
  intros H. unfold fire, run_closure, setTimeout.
  keep_allowed; try apply allowed_handleInviteResponse; keep_allowed.
Qed.

Lemma allowed_resume cfg k a e s :
  statuses_allowed s -> statuses_allowed (resume cfg k a e s).
Proof.
  intros H. unfold resume.
  destruct (pending s !! k) as [kt|]; [|exact H].
  assert (H' : statuses_allowed (upd_pending (delete k) s)) by keep_allowed.
  destruct kt; unfold handleReInvite_resume, makeCallToSip_resume,
    handleInviteResponse_resume, handleIncomingInvite_resume, answerSipCall_resume,
    reInvite_failed, makeCall_failed, inviteResponse_failed, incomingInvite_failed,
    answer_failed, setTimeout; keep_allowed.
Qed.

Lemma allowed_step cfg i s :
  from_hub i -> statuses_allowed s -> statuses_allowed (step cfg i s).
Proof.
  intros Hi H. destruct i; simpl.
  - unfold handleIncomingMessage. destruct m.
    + apply allowed_handleRequest; exact H.
    + unfold handleResponse. keep_allowed; apply allowed_handleInviteResponse; keep_allowed.
  - apply allowed_resume; exact H.
  - apply allowed_fire; exact H.
  - unfold makeCallToSip, makeCall_failed. keep_allowed.
  - unfold answerSipCall, answer_failed. keep_allowed.
  - destruct Hi as [why Hi]. unfold rejectCall.
    destruct why; injection Hi as -> ->; keep_allowed.
  - unfold hangup. keep_allowed.
  - keep_allowed.
Qed.

(** C7, as the claim states it, fails twice: a BYE for a call that the
    store does not know is answered [481], and an INVITE for a user that
    the hub does not know is rejected by the hub with [404]. *)
Lemma status_outside_the_claimed_set :
  statuses (out (run cfg0 [datagram "BYE" "c9"] init)) = [481]
  /\ ~ In 481 claimed_statuses
  /\ statuses (out (run cfg0 [datagram "INVITE" "c1"; RelayDone 0 relay_ok no_random;
                              hub_rejectCall "c1" target_unknown] init))
     = [100; 180; 404]
  /\ ~ In 404 claimed_statuses.
Proof.
  split; [vm_compute; reflexivity|]. split; [unfold claimed_statuses; simpl; lia|].
  split; [vm_compute; reflexivity|]. unfold claimed_statuses; simpl; lia.
Qed.

(** C7 (amended): whatever the telephony leg, the media relay, the timers
    and the hub do, every status code of every response the gateway sends
    is one of 100, 180, 200, 404, 480, 481, 487, 500, 501, 503, 603. *)
Theorem emitted_statuses_closed cfg inputs :
  Forall from_hub inputs ->
  Forall (fun st => In st emitted_statuses) (statuses (out (run cfg inputs init))).
Proof.
  intros Hin.
  assert (H : statuses_allowed init).
  { split; [apply List.Forall_nil|].
    intros k t st rs b Hk. simpl in Hk. rewrite lookup_empty in Hk. discriminate. }
  unfold run. revert H. generalize init.
  induction Hin as [|i l Hi Hl IH]; intros s H; simpl.
  - apply H.
  - apply IH. apply allowed_step; assumption.
Qed.

Lemma emitted_statuses_closed_witness :
  Forall (fun st => In st emitted_statuses)
    (statuses (out (run cfg0 [datagram "INVITE" "c1"; RelayDone 0 relay_ok no_random;
                              hub_rejectCall "c1" target_unknown] init))).
Proof.
  apply (emitted_statuses_closed cfg0).
  repeat constructor. exists target_unknown. reflexivity.
Defined.

End StatusFacts.

(** ** C2: retransmission of the 200 OK *)

Module RetransmissionFacts.
Import JsString SipText Nat_fixup Retry Generate SipGateway Retransmission Scenario
  GatewayFacts.

(** The schedule of scenario 4 of the specification. *)
Example schedule_from_zero :
  schedule 7 (0 + T1) T1 = [500; 1500; 3500; 7500; 11500; 15500; 19500].
Proof. reflexivity. Qed.

Lemma responses_sent_app tr1 tr2 :
  responses_sent (tr1 ++ tr2) = (responses_sent tr1 ++ responses_sent tr2)%list.
Proof. unfold responses_sent. apply omap_app. Qed.

Lemma responses_sent_sendResponse cfg q' st rs r' b (s : gw) :
  responses_sent (out (sendResponse cfg q' st rs r' b s))
  = (responses_sent (out s)
     ++ [(clock s, st, address r', port r', if truthy b then b else None)])%list.
Proof.
  unfold sendResponse, sendSipMessage, log, responses_sent. simpl.
  destruct (inviteTransactions _ !! _); simpl; rewrite omap_app; reflexivity.
Qed.

Lemma truthy_nonempty t : t <> "" -> truthy (Some t) = true.
Proof. destruct t; [congruence|reflexivity]. Qed.

Section Dialog.
Variable cfg : config.
Variables (callId uid : string) (loc : nat) (q : request) (r : rinfo) (t : string).
Variable ha : nat.
Variable dH : N.
Hypothesis t_nonempty : t <> "".

Local Abbreviation armed := (armed callId uid loc q r t ha dH).
Local Abbreviation spent := (spent callId uid loc ha dH).
Local Abbreviation waiting := (waiting callId uid loc q r t ha dH).

(** One expiry below the cap: the 200 goes out at the due time and the
    next timer is armed for the doubled interval, at most [T2]. *)
Lemma fire_armed (s : gw) cnt i d h :
  armed s cnt i d h -> cnt < 7 ->
  armed (fire_retransmit cfg loc s) (cnt + 1) (N.min (i * 2) T2)
    (d + N.min (i * 2) T2) (next s)
  /\ responses_sent (out (fire_retransmit cfg loc s))
     = (responses_sent (out s) ++ [(d, 200, address r, port r, Some t)])%list.
Proof.
  intros (Hs & Hha & Hh & Hclk & Hlt1 & Hlt2 & Hne & x & Hx & Hr & Hack & Hmax & Hcnt
          & Hi & Hrt & Hat) Hc.
  unfold fire_retransmit. rewrite Hx, Hrt. unfold fire. rewrite Hh. simpl.
  rewrite Hx, Hack, Hmax, Hcnt, Hr. simpl.
  destruct (N.leb_spec 7 cnt) as [?|_]; [lia|].
  unfold setTimeout. simpl.
  destruct (sendResponse_frame cfg q 200 "OK" r (Some t)
             (update loc (fun x0 => set_retransmit200Count (retransmit200Count x0 + 1) x0)
                (upd_clock (N.max d) (upd_timers (delete h) s))))
    as (F1 & F2 & F3 & F4 & F5 & F6 & F7).
  assert (Hmaxd : N.max d (clock s) = d) by lia.
  split.
  - unfold Retransmission.armed. simpl. rewrite F1, F2, F4, F5, F6. simpl.
    rewrite Hmaxd, Hi.
    split; [exact Hs|].
    split; [rewrite lookup_insert_ne by lia; rewrite lookup_delete_ne by congruence;
            exact Hha|].
    split; [rewrite lookup_insert_eq; reflexivity|].
    split; [lia|]. split; [lia|]. split; [lia|]. split; [lia|].
    eexists. split.
    + rewrite !lookup_alter_eq, Hx. simpl. reflexivity.
    + simpl. rewrite Hcnt. auto 10.
  - simpl. rewrite responses_sent_sendResponse, (truthy_nonempty t t_nonempty). simpl.
    rewrite Hmaxd. reflexivity.
Qed.

(** The expiry at the cap: nothing is sent and no timer is armed. *)
Lemma fire_exhausted (s : gw) i d h :
  armed s 7 i d h ->
  spent (fire_retransmit cfg loc s) /\ out (fire_retransmit cfg loc s) = out s.
Proof.
  intros (Hs & Hha & Hh & Hclk & Hlt1 & Hlt2 & Hne & x & Hx & Hr & Hack & Hmax & Hcnt
          & Hi & Hrt & Hat).
  unfold fire_retransmit. rewrite Hx, Hrt. unfold fire. rewrite Hh. simpl.
  rewrite Hx, Hack, Hmax, Hcnt. simpl. split; [|reflexivity].
  unfold Retransmission.spent. simpl. split; [exact Hs|].
  split; [rewrite lookup_delete_ne by congruence; exact Hha|].
  exists x, h. rewrite lookup_delete_eq. auto.
Qed.

Lemma fire_spent (s : gw) : spent s -> fire_retransmit cfg loc s = s.
Proof.
  intros (Hs & Hha & x & h & Hx & Hack & Hrt & Hat & Hh).
  unfold fire_retransmit. rewrite Hx, Hrt. unfold fire. rewrite Hh. reflexivity.
Qed.

Lemma fires_spent n (s : gw) : spent s -> fire_retransmits cfg loc n s = s.
Proof.
  intros H. induction n as [|n IH]; simpl; [reflexivity|]. rewrite fire_spent; auto.
Qed.

(** [n] expiries from a dialog that has [k] retransmissions left: the
    first [n] instants of the schedule, and no more than [k]. *)
Lemma fires_from_armed k : forall n (s : gw) cnt i d h,
  armed s cnt i d h -> cnt + N.of_nat k = 7 ->
  waiting (fire_retransmits cfg loc n s)
  /\ responses_sent (out (fire_retransmits cfg loc n s))
     = (responses_sent (out s)
        ++ List.map (fun d => (d, 200, address r, port r, Some t))
             (firstn n (schedule k d i)))%list.
Proof.
  induction k as [|k IH]; intros n s cnt i d h Ha Hk.
  - assert (cnt = 7) by lia. subst cnt. simpl. rewrite firstn_nil, app_nil_r.
    destruct n as [|n]; simpl.
    + split; [left; exists 7, i, d, h; split; [exact Ha|lia]|reflexivity].
    + destruct (fire_exhausted s i d h Ha) as [Hsp Ho].
      rewrite fires_spent by exact Hsp. split; [right; exact Hsp|]. rewrite Ho. reflexivity.
  - destruct n as [|n]; simpl.
    + rewrite app_nil_r. split; [left; exists cnt, i, d, h; split; [exact Ha|lia]|reflexivity].
    + destruct (fire_armed s cnt i d h Ha ltac:(lia)) as [Ha' Ho].
      destruct (IH n _ _ _ _ _ Ha' ltac:(lia)) as [Hw Hr]. split; [exact Hw|].
      rewrite Hr, Ho. rewrite <- app_assoc. reflexivity.
Qed.

Lemma waiting_inv (s : gw) :
  waiting s ->
  sessions s !! callId = Some loc
  /\ timers s !! ha = Some {| due := dH; callback := TAckTimeout loc callId uid |}
  /\ exists x h, heap s !! loc = Some x /\ ackReceived x = false
       /\ retransmit200Timer x = Some h /\ ackTimeoutTimer x = Some ha.
Proof.
  intros [(cnt & i & d & h & Ha & _)|Hsp].
  - destruct Ha as (Hs & Hha & Hh & Hclk & Hlt1 & Hlt2 & Hne & x & Hx & Hr & Hack & Hmax
                    & Hcnt & Hi & Hrt & Hat).
    split; [exact Hs|]. split; [exact Hha|]. exists x, h. auto.
  - destruct Hsp as (Hs & Hha & x & h & Hx & Hack & Hrt & Hat & Hh).
    split; [exact Hs|]. split; [exact Hha|]. exists x, h. auto.
Qed.

(** The ACK stops the retransmission: both timers are cancelled, and the
    callback of any retransmission timer of this session does nothing. *)
Lemma ack_stops (s : gw) ackq :
  waiting s -> h_call_id ackq = callId ->
  out (handleAck ackq s) = out s
  /\ timers (handleAck ackq s) !! ha = None
  /\ (forall q' t', run_closure cfg (TRetransmit200 loc q' t') (handleAck ackq s)
                    = handleAck ackq s)
  /\ (forall m, fire_retransmits cfg loc m (handleAck ackq s) = handleAck ackq s).
Proof.
  intros Hw Hc. destruct (waiting_inv s Hw) as (Hs & Hha & x & h & Hx & Hack & Hrt & Hat).
  unfold handleAck. rewrite Hc, (get_session_Some _ _ _ _ Hs Hx), Hrt, Hat.
  set (s' := update loc _ _).
  assert (Hx' : exists x', heap s' !! loc = Some x' /\ ackReceived x' = true
                           /\ retransmit200Timer x' = None).
  { eexists. subst s'. simpl. rewrite lookup_alter_eq, Hx. simpl. eauto. }
  assert (Ht' : timers s' !! ha = None).
  { subst s'. simpl. apply lookup_delete_eq. }
  assert (Ho : out s' = out s) by reflexivity.
  destruct Hx' as (x' & Hx' & Hack' & Hrt').
  assert (G : forall s'' : gw, heap s'' = heap s' ->
            (forall q' t', run_closure cfg (TRetransmit200 loc q' t') s'' = s'')
            /\ (forall m, fire_retransmits cfg loc m s'' = s'')).
  { intros s'' Hh. split.
    - intros q' t'. simpl. rewrite Hh, Hx', Hack'. reflexivity.
    - intros m. induction m as [|m IH]; simpl; [reflexivity|].
      unfold fire_retransmit. rewrite Hh, Hx', Hrt'. exact IH. }
  destruct (truthy (transactionKey x)).
  - split; [exact Ho|]. split; [exact Ht'|]. apply G. reflexivity.
  - split; [exact Ho|]. split; [exact Ht'|]. apply G. reflexivity.
Qed.

(** Timer H stops the retransmission: its expiry emits the failure and
    the cleanup it starts cancels the retransmission timer. *)
Lemma timer_H_stops (s : gw) :
  waiting s ->
  responses_sent (out (fire cfg ha s)) = responses_sent (out s)
  /\ In (Emit (call_failed (Some uid) "ACK timeout")) (List.map snd (out (fire cfg ha s)))
  /\ (forall m, fire_retransmits cfg loc m (fire cfg ha s) = fire cfg ha s).
Proof.
  intros Hw. destruct (waiting_inv s Hw) as (Hs & Hha & x & h & Hx & Hack & Hrt & Hat).
  unfold fire. rewrite Hha. simpl. rewrite Hx, Hack.
  unfold cleanupSession.
  rewrite (get_session_Some callId _ loc x) by (simpl; assumption).
  rewrite Hrt, Hat.
  set (s0 := clearTimeout (Some ha) (clearTimeout (Some h) _)).
  assert (H0 : timers s0 !! h = None).
  { subst s0. simpl. rewrite lookup_delete. case_decide; [reflexivity|apply lookup_delete_eq]. }
  assert (G : forall s'' : gw, heap s'' = heap s -> timers s'' = timers s0 ->
            forall m, fire_retransmits cfg loc m s'' = s'').
  { intros s'' Hh Ht m. induction m as [|m IH]; simpl; [reflexivity|].
    unfold fire_retransmit. rewrite Hh, Hx, Hrt. unfold fire. rewrite Ht, H0. exact IH. }
  destruct (truthy (transactionKey x)); unfold await_relay, log; simpl;
    rewrite !responses_sent_app; simpl; rewrite !app_nil_r;
    (split; [reflexivity|]); (split; [|apply G; reflexivity]);
    rewrite !map_app; simpl; apply in_or_app; left; apply in_or_app; right; left;
    reflexivity.
Qed.
End Dialog.

(** A dialog that [answerSipCall] answers once and that is not yet
    acknowledged: when [answerSipCall] has sent the [200 OK] of the
    incoming dialog [callId] at time [clock s], Timer H is armed for
    [64 * T1] later, and however often the retransmission timer expires, the same 200 has gone
    out again at the first instants of the schedule [T1], then the doubled
    interval up to [T2], seven instants at most (fewer than 8); an ACK for
    the dialog or the expiry of Timer H, at any point, ends it: no expiry
    after it sends anything. *)
Theorem retransmission_of_200 cfg callId uid loc resp t (s : gw) x q r :
  sessions s !! callId = Some loc -> heap s !! loc = Some x ->
  sipRequest x = Some q -> s_rinfo x = Some r -> ackReceived x = false ->
  result resp = "ok" -> sdp resp = Some t -> validateSDP (SdpStr t) = None ->
  let s1 := answerSipCall_resume cfg callId uid loc (Return resp) s in
  let ok200 := fun d : N => (d, 200, address r, port r, Some t) in
  let ha := next s in
  timers s1 !! ha
  = Some {| due := clock s + 64 * T1; callback := TAckTimeout loc callId uid |}
  /\ forall n,
       let sn := fire_retransmits cfg loc n s1 in
       responses_sent (out sn)
       = (responses_sent (out s) ++ ok200 (clock s)
            :: List.map ok200 (firstn n (schedule 7 (clock s + T1) T1)))%list
       /\ (List.length (firstn n (schedule 7 (clock s + T1) T1)) < 8)%nat
       /\ (forall ackq m, h_call_id ackq = callId ->
             responses_sent (out (fire_retransmits cfg loc m (handleAck ackq sn)))
             = responses_sent (out sn))
       /\ (forall m,
             responses_sent (out (fire_retransmits cfg loc m (fire cfg ha sn)))
             = responses_sent (out sn)).
Proof.
  intros Hs Hx Hq Hr Hack Hres Hsdp Hval s1 ok200 ha.
  assert (Ht : t <> "").
  { intros ->. vm_compute in Hval. discriminate. }
  assert (E1 : s1 =
    let s := sendResponse cfg q 200 "OK" r (Some t) s in
    let s := update loc (fun x => set_maxRetransmits (Some 7)
               (set_retransmit200Interval T1 (set_retransmit200Count 0 x))) s in
    let (h, s) := setTimeout (TAckTimeout loc callId uid) TIMER_H s in
    let s := update loc (set_ackTimeoutTimer (Some h)) s in
    let (h, s) := setTimeout (TRetransmit200 loc q t) T1 s in
    update loc (set_retransmit200Timer (Some h)) s).
  { subst s1. unfold answerSipCall_resume. rewrite Hres, Hsdp. simpl sdp_of.
    rewrite Hval. simpl. rewrite Hx, Hq, Hr. reflexivity. }
  destruct (sendResponse_frame cfg q 200 "OK" r (Some t) s)
    as (F1 & F2 & F3 & F4 & F5 & F6 & F7).
  assert (Harm : armed callId uid loc q r t ha (clock s + 64 * T1) s1 0 T1 (clock s + T1)
                   (S (next s))).
  { rewrite E1. unfold armed, setTimeout. simpl. rewrite F1, F2, F4, F5, F6.
    split; [exact Hs|].
    split; [rewrite lookup_insert_ne by lia; rewrite lookup_insert_eq; reflexivity|].
    split; [rewrite lookup_insert_eq; reflexivity|].
    split; [lia|]. subst ha. split; [lia|]. split; [lia|]. split; [lia|].
    eexists. split; [rewrite !lookup_alter_eq, Hx; simpl; reflexivity|].
    simpl. auto 10. }
  assert (Hout : responses_sent (out s1)
                 = (responses_sent (out s) ++ [ok200 (clock s)])%list).
  { rewrite E1. unfold setTimeout. simpl.
    rewrite (responses_sent_sendResponse cfg), (truthy_nonempty t Ht). reflexivity. }
  split.
  { destruct Harm as (_ & H & _). exact H. }
  intros n sn.
  destruct (fires_from_armed cfg callId uid loc q r t ha (clock s + 64 * T1) Ht 7 n s1 0 T1
              (clock s + T1) (S (next s)) Harm ltac:(lia)) as [Hw Hn].
  fold sn in Hw, Hn.
  split.
  { rewrite Hn, Hout, <- app_assoc. reflexivity. }
  split.
  { rewrite length_firstn. simpl. lia. }
  split.
  - intros ackq m Hc.
    destruct (ack_stops cfg callId uid loc q r t ha _ sn ackq Hw Hc) as (Ho & _ & _ & Hm).
    rewrite Hm, Ho. reflexivity.
  - intros m.
    destruct (timer_H_stops cfg callId uid loc q r t ha _ sn Hw) as (Ho & _ & Hm).
    rewrite Hm, Ho. reflexivity.
Qed.

Lemma retransmission_of_200_witness :
  List.map (fun p => fst (fst (fst (fst p))))
    (responses_sent
       (out (fire_retransmits cfg0 1 9
               (answerSipCall_resume cfg0 "c1" "alice" 1 (Return relay_ok_response)
                  s_answering))))
  = [0; 0; 0; 500; 1500; 3500; 7500; 11500; 15500; 19500].
Proof.
  eassert (Hx : heap s_answering !! 1%nat = Some _) by (vm_compute; reflexivity).
  destruct (retransmission_of_200 cfg0 "c1" "alice" 1 relay_ok_response sdp0 s_answering
              _ (req "INVITE" "c1") phone
              ltac:(vm_compute; reflexivity) Hx
              ltac:(vm_compute; reflexivity) ltac:(vm_compute; reflexivity)
              ltac:(vm_compute; reflexivity) ltac:(vm_compute; reflexivity)
              ltac:(vm_compute; reflexivity) ltac:(vm_compute; reflexivity))
    as [_ H].
  destruct (H 9%nat) as [E _]. rewrite E. vm_compute. reflexivity.
Defined.

(** C2: a dialog that [answerSipCall] answers twice.  The second call
    sends the [200 OK] again, resets the retransmission counter and arms a
    second retransmission timer without clearing the first, so that two
    chains of [retransmit200OK] run on one counter: with no ACK and Timer H
    (timer 3, due at 32 s) still armed, the timers send the [200] ten
    times, three times before the second answer and seven times after it,
    and not at the instants of the schedule of one answer (500, 1500,
    3500, 7500, 11500, 15500, 19500 ms). *)
Theorem second_answer_restarts_the_retransmissions :
  let s := run cfg0 second_answer s_answered in
  let ok200 := fun d : N => (d, 200, address phone, port phone, Some sdp0) in
  sent_by_timers cfg0 second_answer s_answered
  = List.map ok200 [500; 1500; 3500; 4000; 5000; 7000; 7500; 11000; 11500; 15000]
  /\ (8 <= List.length (sent_by_timers cfg0 second_answer s_answered))%nat
  /\ responses_sent (out s)
     = (responses_sent (out s_answered)
        ++ List.map ok200 [500; 1500; 3500; 3500; 4000; 5000; 7000; 7500; 11000;
                           11500; 15000])%list
  /\ (exists x, heap s !! 1%nat = Some x /\ ackReceived x = false)
  /\ clock s = 19000
  /\ timers s !! 3%nat = Some {| due := 32000; callback := TAckTimeout 1 "c1" "alice" |}.
Proof.
  cbv zeta. split; [vm_compute; reflexivity|].
  split; [vm_compute; lia|].
  split; [vm_compute; reflexivity|].
  split; [eexists; split; vm_compute; reflexivity|].
  split; vm_compute; reflexivity.
Qed.

End RetransmissionFacts.

(** ** The engine: what the primitives do *)

Module EngineFacts.
Import JsString SipText Nat_fixup Retry Generate SipGateway Scenario Observe GatewayFacts RetransmissionFacts GenerateFacts.


Lemma sendResponse_metric cfg q st rs r b (s : gw) :
  metric (sendResponse cfg q st rs r b s) = metric s.
Proof.
  unfold sendResponse, sendSipMessage, log.
  destruct (inviteTransactions _ !! _); reflexivity.
Qed.


Lemma events_app tr1 tr2 : events (tr1 ++ tr2) = (events tr1 ++ events tr2)%list.
Proof. apply omap_app. Qed.

Lemma relay_calls_app tr1 tr2 :
  relay_calls (tr1 ++ tr2) = (relay_calls tr1 ++ relay_calls tr2)%list.
Proof. apply omap_app. Qed.

Lemma thrown_app tr1 tr2 : thrown (tr1 ++ tr2) = (thrown tr1 ++ thrown tr2)%list.
Proof. apply omap_app. Qed.

Lemma sent_app tr1 tr2 : sent (tr1 ++ tr2) = (sent tr1 ++ sent tr2)%list.
Proof. apply omap_app. Qed.

Lemma statuses_app tr1 tr2 : statuses (tr1 ++ tr2) = (statuses tr1 ++ statuses tr2)%list.
Proof. apply omap_app. Qed.

(** [cleanupSession] of a dialog that the store knows: the timers of the
    session are cleared, its server transaction forgotten, one relay
    [delete] issued and the rest of the function parked. *)
Lemma cleanupSession_known callId a (s : gw) loc x :
  get_session callId s = Some (loc, x) ->
  let s' := cleanupSession callId a s in
  out s' = (out s ++ [(clock s, Relay op_delete (delete_payload callId x))])%list
  /\ pending s' = <[next s := KCleanup callId a]> (pending s)
  /\ next s' = S (next s)
  /\ sessions s' = sessions s /\ heap s' = heap s /\ metric s' = metric s
  /\ clock s' = clock s /\ transactions s' = transactions s.
Proof.
  intros H s'. subst s'. unfold cleanupSession. rewrite H.
  destruct (truthy (transactionKey x)), (retransmit200Timer x), (ackTimeoutTimer x);
    simpl; auto 10.
Qed.

Lemma resume_cleanup cfg k attempts e (s : gw) callId a :
  pending s !! k = Some (KCleanup callId a) ->
  resume cfg k attempts e s = cleanupSession_resume callId a (upd_pending (delete k) s).
Proof. intros H. unfold resume. rewrite H. reflexivity. Qed.

Lemma clearTimeout_gone h h' (s : gw) :
  timers s !! h = None \/ h' = Some h -> timers (clearTimeout h' s) !! h = None.
Proof.
  intros H. destruct h' as [i|]; simpl.
  - rewrite lookup_delete. case_decide; [reflexivity|].
    destruct H as [H|H]; [exact H|congruence].
  - destruct H as [H|H]; [exact H|discriminate].
Qed.

Lemma cleanupSession_timers_gone callId a (s : gw) h :
  timers s !! h = None -> timers (cleanupSession callId a s) !! h = None.
Proof.
  intros H. unfold cleanupSession.
  destruct (get_session callId s) as [[loc x]|]; [|destruct a; exact H].
  assert (T : timers (clearTimeout (ackTimeoutTimer x)
                        (clearTimeout (retransmit200Timer x) s)) !! h = None).
  { apply clearTimeout_gone. left. apply clearTimeout_gone. left. exact H. }
  destruct (truthy (transactionKey x)); simpl; exact T.
Qed.

Lemma cleanupSession_transactions callId a (s : gw) :
  transactions (cleanupSession callId a s) = transactions s.
Proof.
  unfold cleanupSession.
  destruct (get_session callId s) as [[loc x]|]; [|destruct a; reflexivity].
  destruct (truthy (transactionKey x)), (retransmit200Timer x), (ackTimeoutTimer x);
    reflexivity.
Qed.

Lemma handleInviteResponse_transactions p callId fromTag targetUri e (s : gw) :
  transactions (handleInviteResponse p callId fromTag targetUri e s) = transactions s.
Proof.
  unfold handleInviteResponse, inviteResponse_failed.
  repeat first [rewrite cleanupSession_transactions | progress simpl | case_match];
    reflexivity.
Qed.

Lemma handleInviteResponse_timers_gone p callId fromTag targetUri e (s : gw) h :
  timers s !! h = None ->
  timers (handleInviteResponse p callId fromTag targetUri e s) !! h = None.
Proof.
  intros H. unfold handleInviteResponse, inviteResponse_failed.
  repeat first [apply cleanupSession_timers_gone | progress simpl | case_match];
    exact H.
Qed.

Lemma retry_first_attempt {A E} (attempts : nat -> outcome A E) a :
  attempts 0%nat = Resolved a ->
  snd (rtpengineOperationWithRetry attempts 3) = Return a.
Proof. intros H. unfold rtpengineOperationWithRetry. simpl. rewrite H. reflexivity. Qed.


Lemma retry_all_rejected {A E} (attempts : nat -> outcome A E) e0 e1 e2 :
  attempts 0%nat = Rejected e0 -> attempts 1%nat = Rejected e1 ->
  attempts 2%nat = Rejected e2 ->
  snd (rtpengineOperationWithRetry attempts 3) = Throw e2.
Proof.
  intros H0 H1 H2. unfold rtpengineOperationWithRetry. simpl.
  rewrite H0, H1, H2. reflexivity.
Qed.




End EngineFacts.

(** ** Requests inside a dialog: BYE, CANCEL, ACK *)

Module DialogFacts.
Import JsString SipText Nat_fixup Retry Generate SipGateway Scenario Observe GatewayFacts RetransmissionFacts EngineFacts.




(** X3: [handleAck].  An ACK is never answered.  For a dialog of the
    store, in whatever state it is, the ACK marks it established and
    acknowledged, stops the retransmission timer and the ACK timer (their
    expiry, should it still be delivered, does nothing) and forgets the
    server transaction of the INVITE; for a call identifier that the store
    does not know the ACK changes nothing. *)
Theorem ack_establishes_the_dialog q (s : gw) :
  let callId := h_call_id q in
  let s1 := handleAck q s in
  out s1 = out s /\ sessions s1 = sessions s /\ pending s1 = pending s
  /\ match get_session callId s with
     | Some (loc, x) =>
         (exists x', heap s1 !! loc = Some x'
            /\ state x' = established /\ ackReceived x' = true
            /\ retransmit200Timer x' = None /\ ackTimeoutTimer x' = None
            /\ fromTag x' = fromTag x /\ toTag x' = toTag x /\ cseq x' = cseq x)
         /\ (forall cfg h, retransmit200Timer x = Some h \/ ackTimeoutTimer x = Some h ->
               timers s1 !! h = None /\ fire cfg h s1 = s1)
         /\ (forall k, transactionKey x = Some k -> k <> "" ->
               inviteTransactions s1 !! k = None)
     | None => s1 = s
     end.
Proof.
  intros callId s1. subst s1. unfold handleAck. fold callId.
  destruct (get_session callId s) as [[loc x]|] eqn:G; [|auto].
  apply get_session_inv in G as [Gs Gh].
  set (sa := clearTimeout (ackTimeoutTimer x) (clearTimeout (retransmit200Timer x) s)).
  assert (Ha : out sa = out s /\ sessions sa = sessions s /\ pending sa = pending s
               /\ heap sa = heap s /\ inviteTransactions sa = inviteTransactions s).
  { subst sa. destruct (ackTimeoutTimer x), (retransmit200Timer x); simpl; auto. }
  destruct Ha as (A1 & A2 & A3 & A4 & A5).
  assert (Ht : forall h, retransmit200Timer x = Some h \/ ackTimeoutTimer x = Some h ->
                 timers sa !! h = None).
  { intros h [H|H]; subst sa.
    - apply clearTimeout_gone. left. apply clearTimeout_gone. right. exact H.
    - apply clearTimeout_gone. right. exact H. }
  split; [|split; [|split; [|split; [|split]]]].
  - destruct (truthy (transactionKey x)); simpl; exact A1.
  - destruct (truthy (transactionKey x)); simpl; exact A2.
  - destruct (truthy (transactionKey x)); simpl; exact A3.
  - eexists. split.
    + destruct (truthy (transactionKey x)); simpl; rewrite lookup_alter_eq, A4, Gh;
        reflexivity.
    + simpl. auto 10.
  - intros cfg h H. specialize (Ht h H).
    assert (T : timers (if truthy (transactionKey x)
                        then upd_inviteTransactions (delete (or_null (transactionKey x)))
                               (update loc (fun x0 => set_state established
                                  (set_ackReceived true (set_ackTimeoutTimer None
                                     (set_retransmit200Timer None x0)))) sa)
                        else update loc (fun x0 => set_state established
                                  (set_ackReceived true (set_ackTimeoutTimer None
                                     (set_retransmit200Timer None x0)))) sa) !! h = None).
    { destruct (truthy (transactionKey x)); simpl; exact Ht. }
    split; [exact T|]. unfold fire. rewrite T. reflexivity.
  - intros k Hk Hne. rewrite Hk. simpl. destruct k; [congruence|]. simpl.
    apply lookup_delete_eq.
Qed.

End DialogFacts.

(** ** Client transactions: responses and the time-out *)

Module TransactionFacts.
Import JsString SipText Nat_fixup Retry Generate SipGateway Scenario Observe GatewayFacts RetransmissionFacts EngineFacts.

(** X4: [handleResponse].  A response that matches no client
    transaction is dropped without any effect.  A final response (status
    200 or more) completes its transaction: the transaction is removed and
    its timer cleared, so that neither the timer nor a retransmission of
    the same response has any effect afterwards. *)
Theorem final_response_completes_the_transaction cfg p e e' (s : gw) :
  let key := clientKey (or_null (branch_of (rs_via p))) (rs_call_id p) (rs_cseq p) in
  let s1 := handleResponse p e s in
  match transactions s !! key with
  | None => s1 = s
  | Some t =>
      200 <= status p ->
      transactions s1 = delete key (transactions s)
      /\ timers s1 !! tx_timer t = None
      /\ fire cfg (tx_timer t) s1 = s1
      /\ handleResponse p e' s1 = s1
  end.
Proof.
  intros key s1. subst s1. unfold handleResponse. fold key.
  destruct (transactions s !! key) as [t|] eqn:T; [|reflexivity].
  intros Hst. destruct (N.leb_spec 200 (status p)); [|lia].
  set (sa := handleInviteResponse p (cb_callId t) (cb_fromTag t) (cb_targetUri t) e
               (clearTimeout (Some (tx_timer t)) s)).
  assert (A1 : transactions sa = transactions s).
  { subst sa. rewrite handleInviteResponse_transactions. reflexivity. }
  assert (A2 : timers sa !! tx_timer t = None).
  { subst sa. apply handleInviteResponse_timers_gone. simpl. apply lookup_delete_eq. }
  split; [simpl; rewrite A1; reflexivity|].
  split; [exact A2|].
  split; [unfold fire; simpl; rewrite A2; reflexivity|].
  simpl. rewrite A1, lookup_delete_eq. reflexivity.
Qed.

(** X5: a provisional response (status 100 to 199) of a known
    transaction clears the transaction's timer and keeps the transaction:
    from then on the time-out of the INVITE cannot fire any more, however
    long the final response takes.  Nothing is sent and no relay call is
    issued; the hub is told of a [180] only. *)
Theorem provisional_response_cancels_the_timeout cfg p e (s : gw) t :
  let key := clientKey (or_null (branch_of (rs_via p))) (rs_call_id p) (rs_cseq p) in
  let s1 := handleResponse p e s in
  transactions s !! key = Some t -> isTimeout p = false ->
  100 <= status p < 200 ->
  transactions s1 = transactions s
  /\ timers s1 = delete (tx_timer t) (timers s)
  /\ fire cfg (tx_timer t) s1 = s1
  /\ sessions s1 = sessions s /\ heap s1 = heap s /\ pending s1 = pending s
  /\ sent (out s1) = sent (out s)
  /\ relay_calls (out s1) = relay_calls (out s)
  /\ events (out s1)
     = (events (out s)
        ++ match get_session (cb_callId t) s with
           | Some (_, x) =>
               if status p =? 180 then [sip_ringing (webrtcClientId x)] else []
           | None => []
           end)%list.
Proof.
  intros key s1 T Hto Hst. subst s1. unfold handleResponse. fold key. rewrite T.
  destruct (N.leb_spec 200 (status p)); [lia|].
  unfold handleInviteResponse. rewrite Hto.
  assert (G : get_session (cb_callId t) (clearTimeout (Some (tx_timer t)) s)
              = get_session (cb_callId t) s) by reflexivity.
  rewrite G.
  destruct (get_session (cb_callId t) s) as [[loc x]|].
  - destruct (N.leb_spec 100 (status p)); [|lia].
    destruct (N.ltb_spec (status p) 200); [|lia]. simpl.
    destruct (status p =? 180); simpl.
    + unfold fire. simpl. rewrite lookup_delete_eq.
      rewrite events_app, sent_app, relay_calls_app. simpl. rewrite !app_nil_r. auto 10.
    + unfold fire. simpl. rewrite lookup_delete_eq. rewrite !app_nil_r. auto 10.
  - simpl. unfold fire. simpl. rewrite lookup_delete_eq. rewrite !app_nil_r. auto 10.
Qed.

Lemma provisional_response_cancels_the_timeout_witness :
  let p := answer_of 180 "Ringing" "<sip:bob@10.0.0.2>" "" in
  timers (handleResponse p no_random s_calling) = delete 2%nat (timers s_calling)
  /\ events (out (handleResponse p no_random s_calling)) = [sip_ringing (Some "alice")].
Proof.
  intros p.
  pose (t := {| cb_callId := "00@10.0.0.9"; cb_fromTag := generateTag (bytes no_random) 0;
                cb_targetUri := "sip:bob@10.0.0.2"; tx_timer := 2;
                tx_method := "INVITE" |}).
  assert (H1 : transactions s_calling
               !! clientKey (or_null (branch_of (rs_via p))) (rs_call_id p) (rs_cseq p)
               = Some t) by (vm_compute; reflexivity).
  assert (H3 : 100 <= status p < 200) by (vm_compute; split; [discriminate|reflexivity]).
  destruct (provisional_response_cancels_the_timeout cfg0 p no_random s_calling t H1
              eq_refl H3) as (_ & H2 & _ & _ & _ & _ & _ & _ & H9).
  split; [exact H2|]. rewrite H9. vm_compute. reflexivity.
Defined.

(** X6: the transaction timer of [sendSipMessage].  When the timer of
    a client transaction expires while the transaction is registered and
    its dialog is in the store, the hub is told that the call failed with
    [Request Timeout], one relay [delete] is issued for the dialog and the
    transaction is removed; nothing is sent to the telephony server (no
    CANCEL).  When the transaction is no longer registered the expiry does
    nothing. *)
Theorem invite_timeout_fails_the_call cfg h d key host port (s : gw) :
  timers s !! h = Some {| due := d; callback := TTransaction key host port |} ->
  let s1 := fire cfg h s in
  timers s1 !! h = None
  /\ transactions s1 = delete key (transactions s)
  /\ sent (out s1) = sent (out s)
  /\ sessions s1 = sessions s
  /\ match transactions s !! key with
     | Some t =>
         match get_session (cb_callId t) s with
         | Some (loc, x) =>
             events (out s1)
             = (events (out s) ++ [call_failed (webrtcClientId x) "Request Timeout"])%list
             /\ relay_calls (out s1)
                = (relay_calls (out s) ++ [(op_delete, delete_payload (cb_callId t) x)])%list
             /\ pending s1 = <[next s := KCleanup (cb_callId t) AfterNothing]> (pending s)
         | None => out s1 = out s /\ pending s1 = pending s
         end
     | None => out s1 = out s /\ pending s1 = pending s
     end.
Proof.
  intros Ht s1.
  set (s0 := upd_clock (N.max d) (upd_timers (delete h) s)).
  assert (T0 : timers s0 !! h = None) by (simpl; apply lookup_delete_eq).
  assert (E : s1 = upd_transactions (delete key)
                     match transactions s !! key with
                     | Some t =>
                         match get_session (cb_callId t) s with
                         | Some (_, x) =>
                             cleanupSession (cb_callId t) AfterNothing
                               (log (Emit (call_failed (webrtcClientId x) "Request Timeout"))
                                  s0)
                         | None => s0
                         end
                     | None => s0
                     end).
  { subst s1. unfold fire. rewrite Ht. reflexivity. }
  rewrite E. clear E s1.
  destruct (transactions s !! key) as [t|] eqn:T; [|simpl; auto 10].
  destruct (get_session (cb_callId t) s) as [[loc x]|] eqn:G; [|simpl; auto 10].
  set (sl := log (Emit (call_failed (webrtcClientId x) "Request Timeout")) s0).
  assert (Gl : get_session (cb_callId t) sl = Some (loc, x)) by exact G.
  destruct (cleanupSession_known (cb_callId t) AfterNothing sl loc x Gl)
    as (C1 & C2 & C3 & C4 & C5 & C6 & C7 & C8).
  cbv zeta in C1, C2, C3, C4, C5, C6, C7, C8.
  pose proof (cleanupSession_timers_gone (cb_callId t) AfterNothing sl h T0) as C9.
  set (sc := cleanupSession (cb_callId t) AfterNothing sl) in *.
  change (timers (upd_transactions (delete key) sc)) with (timers sc).
  change (transactions (upd_transactions (delete key) sc)) with (delete key (transactions sc)).
  change (out (upd_transactions (delete key) sc)) with (out sc).
  change (sessions (upd_transactions (delete key) sc)) with (sessions sc).
  change (pending (upd_transactions (delete key) sc)) with (pending sc).
  rewrite C1, C2, C4, C8.
  rewrite sent_app, events_app, relay_calls_app.
  change (out sl) with (out s ++ [(clock s0, Emit (call_failed (webrtcClientId x) "Request Timeout"))])%list.
  rewrite sent_app, events_app, relay_calls_app. simpl.
  rewrite !app_nil_r. auto 10.
Qed.

Lemma invite_timeout_fails_the_call_witness :
  events (out (fire cfg0 2 s_calling)) = [call_failed (Some "alice") "Request Timeout"]
  /\ sent (out (fire cfg0 2 s_calling)) = sent (out s_calling).
Proof.
  assert (H0 : timers s_calling !! 2%nat
               = Some {| due := 32000;
                         callback :=
                           TTransaction
                             (clientKey (generateBranch (bytes no_random) 6) "00@10.0.0.9"
                                "1 INVITE") "10.0.0.2" 5060 |})
    by (vm_compute; reflexivity).
  destruct (invite_timeout_fails_the_call cfg0 2 _ _ _ _ s_calling H0)
    as (_ & _ & H3 & _ & _).
  split; [vm_compute; reflexivity|exact H3].
Defined.

End TransactionFacts.

(** ** Decimal numbers *)

Module NumberFacts.
Import JsString SipText Nat_fixup.

Lemma parseInt_acc d : forall p : positive,
  (fix go (acc : N) (s : string) : N :=
     match s with
     | EmptyString => acc
     | String c t => go (10 * acc + (N_of_ascii c - 48)) t
     end) (N.pos p) (NilEmpty.string_of_uint d)
  = N.pos (Pos.of_uint_acc d p).
Proof.
  induction d; intros p; simpl; try reflexivity;
    match goal with
    | |- context [Pos.of_uint_acc _ ?q] => rewrite <- IHd; f_equal; lia
    end.
Qed.

Lemma parseInt_string_of_uint d :
  parseInt (NilEmpty.string_of_uint d) = N.of_uint d.
Proof.
  unfold parseInt, N.of_uint.
  induction d; simpl; try reflexivity; try exact IHd; apply (parseInt_acc d).
Qed.

(** [parseInt(String(n)) === n]: a number that the gateway prints in
    decimal parses back. *)
Lemma parseInt_ofN n : parseInt (ofN n) = n.
Proof. unfold ofN. rewrite parseInt_string_of_uint. apply DecimalN.Unsigned.of_to. Qed.

Lemma ofN_nonempty n : ofN n <> "".
Proof.
  unfold ofN. destruct n as [|p]; simpl; [discriminate|].
  pose proof (DecimalPos.Unsigned.to_uint_nonnil p) as H.
  destruct (Pos.to_uint p); simpl; congruence.
Qed.

End NumberFacts.

(** ** The regular expressions on well-formed input *)

Module RegexFacts.
Import JsString SipText Nat_fixup Observe NatFacts NumberFacts.

Lemma span_cons_true p c t : p c = true -> fst (span p (String c t)) <> "".
Proof. intros H. simpl. rewrite H. destruct (span p t). discriminate. Qed.

(** The leftmost-match search finds a match wherever the literal is
    followed by a character of the class. *)
Lemma match_lit_class_Some lit cls a c rest :
  cls c = true -> is_Some (match_lit_class lit cls (a ++ lit ++ String c rest)).
Proof.
  intros Hc. induction a as [|d a IH].
  - rewrite append_nil.
    assert (E : startsWith (lit ++ String c rest) lit = true) by apply startsWith_self.
    assert (F : fst (span cls (drop (String.length lit) (lit ++ String c rest))) <> "").
    { rewrite drop_app_exact. apply span_cons_true. exact Hc. }
    destruct (lit ++ String c rest) as [|x y] eqn:L.
    + simpl in *. rewrite E.
      destruct (fst (span cls (drop (String.length lit) ""))); [congruence|eauto].
    + cbn [match_lit_class]. rewrite E.
      destruct (fst (span cls (drop (String.length lit) (String x y)))); [congruence|eauto].
  - rewrite append_cons. cbn [match_lit_class].
    destruct (if startsWith (String d (a ++ lit ++ String c rest)) lit
              then match fst (span cls (drop (String.length lit)
                                          (String d (a ++ lit ++ String c rest)))) with
                   | "" => None
                   | g => Some g
                   end
              else None); [eauto|exact IH].
Qed.

Lemma span_stop p a c rest :
  all p a = true -> p c = false -> span p (a ++ String c rest) = (a, String c rest).
Proof.
  intros Ha Hc. induction a as [|d a IH].
  - rewrite append_nil. simpl. rewrite Hc. reflexivity.
  - simpl in Ha. apply andb_true_iff in Ha as [Hd Ha].
    rewrite append_cons. simpl. rewrite Hd, (IH Ha). reflexivity.
Qed.

Lemma span_whole p a : all p a = true -> span p a = (a, "").
Proof.
  intros Ha. induction a as [|d a IH]; [reflexivity|].
  simpl in Ha. apply andb_true_iff in Ha as [Hd Ha].
  simpl. rewrite Hd, (IH Ha). reflexivity.
Qed.

(** [/<([^>]+)>/] on a header whose first [<] opens the URI. *)
Lemma match_angle_uri pre u suf :
  all not_lt pre = true -> u <> "" -> all not_gt u = true ->
  match_angle (pre ++ "<" ++ u ++ ">" ++ suf) = Some u.
Proof.
  intros Hpre Hu Hall. induction pre as [|d pre IH].
  - rewrite append_nil.
    change ("<" ++ u ++ ">" ++ suf) with (String "<" (u ++ String ">" suf)).
    cbn [match_angle]. change (Ascii.eqb "<" "<") with true. cbv iota.
    fold not_gt. rewrite (span_stop not_gt u ">" suf Hall eq_refl).
    destruct u; [congruence|reflexivity].
  - simpl in Hpre. apply andb_true_iff in Hpre as [Hd Hpre].
    rewrite append_cons. cbn [match_angle].
    unfold not_lt in Hd. apply negb_true_iff in Hd. rewrite Hd. exact (IH Hpre).
Qed.

(** [/sip:([^@]+@)?([^:;>]+)(?::(\d+))?/] on a URI with user, host and
    port. *)
Lemma match_sip_uri_full user host n :
  user <> "" -> all user_char user = true ->
  host <> "" -> all host_char host = true ->
  match_sip_uri ("sip:" ++ user ++ "@" ++ host ++ ":" ++ ofN n)
  = Some (host, Some (ofN n)).
Proof.
  intros Hu Hua Hh Hha.
  change ("sip:" ++ user ++ "@" ++ host ++ ":" ++ ofN n)
    with (String "s" (String "i" (String "p" (String ":"
            (user ++ String "@" (host ++ String ":" (ofN n))))))).
  cbn [match_sip_uri].
  assert (E : startsWith (String "s" (String "i" (String "p" (String ":"
                (user ++ String "@" (host ++ String ":" (ofN n))))))) "sip:" = true).
  { destruct (user ++ String "@" (host ++ String ":" (ofN n))); reflexivity. }
  rewrite E. cbn [drop].
  fold user_char. rewrite (span_stop user_char user "@" _ Hua eq_refl).
  destruct user as [|u0 user']; [congruence|].
  fold host_char. rewrite (span_stop host_char host ":" _ Hha eq_refl).
  destruct host as [|h0 host']; [congruence|].
  rewrite (span_whole is_digit (ofN n) (ofN_digits n)). cbn [fst].
  pose proof (ofN_nonempty n) as Hn.
  destruct (ofN n); [congruence|reflexivity].
Qed.

Lemma all_app p a b : all p (a ++ b) = all p a && all p b.
Proof.
  induction a as [|c a IH]; [rewrite append_nil; reflexivity|].
  rewrite append_cons. simpl. rewrite IH. apply andb_assoc.
Qed.

Lemma all_impl (p q : ascii -> bool) a :
  (forall c, p c = true -> q c = true) -> all p a = true -> all q a = true.
Proof.
  intros H. induction a as [|c a IH]; [reflexivity|]. simpl.
  intros Ha. apply andb_true_iff in Ha as [Hc Ha]. rewrite (H c Hc), (IH Ha). reflexivity.
Qed.

End RegexFacts.

(** ** Setting calls up *)

Module CallFacts.
Import JsString SipText Nat_fixup Retry Generate SipGateway Scenario Observe GatewayFacts RetransmissionFacts RetryFacts NatFacts GenerateFacts EngineFacts NumberFacts RegexFacts.

(** X7: [makeCallToSip] and its continuation.  Below the cap and with
    a valid offer, one relay [offer] is issued; when the relay answers
    [ok] with a valid SDP, the INVITE goes to the configured server with
    that SDP, the dialog is stored in the state calling, the call is
    counted, the transaction timer is armed for 32 s and the client
    transaction is registered under a key that every response echoing the
    top Via, the Call-ID and the CSeq of the INVITE is looked up with. *)
Theorem outgoing_call_is_set_up cfg id target offer e (s : gw) attempts e' resp t :
  N.of_nat (size (sessions s)) < maxConcurrentSessions cfg ->
  validateSDP offer = None ->
  attempts 0%nat = Resolved resp -> result resp = "ok" -> sdp resp = Some t ->
  validateSDP (SdpStr t) = None ->
  let callId := generateCallId (now e) (rand6 e mod 1000000) (advertiseIP cfg) in
  let fromTag := generateTag (bytes e) 0 in
  let cseq := rand4 e mod 10000 + 1 in
  let via := "SIP/2.0/UDP " ++ advertiseIP cfg ++ ":" ++ ofN (localSipPort cfg)
             ++ ";branch=" ++ generateBranch (bytes e) 6 ++ ";rport" in
  let s0 := makeCallToSip cfg id target offer e s in
  let s1 := resume cfg (next s) attempts e' s0 in
  relay_calls (out s0)
  = (relay_calls (out s)
     ++ [(op_offer,
          {| p_call_id := callId; p_from_tag := fromTag; p_to_tag := None;
             p_sdp := Some offer;
             p_profile := [("transport-protocol", ["RTP/AVP"]); ("ICE", ["remove"]);
                           ("rtcp-mux", ["demux"])] |})])%list
  /\ sessions s0 = sessions s
  /\ sessions s1 = <[callId := S (next s)]> (sessions s)
  /\ (exists x, heap s1 !! S (next s) = Some x
        /\ dir x = outgoing /\ state x = calling /\ SipGateway.fromTag x = fromTag
        /\ toTag x = None /\ SipGateway.cseq x = cseq
        /\ webrtcClientId x = Some id /\ targetUri x = Some target)
  /\ totalCalls (metric s1) = totalCalls (metric s) + 1
  /\ activeSessions (metric s1) = (activeSessions (metric s) + 1)%Z
  /\ thrown (out s1) = thrown (out s)
  /\ exists hs key,
       sent (out s1)
       = (sent (out s)
          ++ [(OutRequest "INVITE" target hs (Some t), sipServerHost cfg,
               sipServerPort cfg)])%list
       /\ header "via" (OutRequest "INVITE" target hs (Some t)) = Some (HStr via)
       /\ header "call-id" (OutRequest "INVITE" target hs (Some t)) = Some (HStr callId)
       /\ header "cseq" (OutRequest "INVITE" target hs (Some t))
          = Some (HStr (ofN cseq ++ " INVITE"))
       /\ timers s1 !! S (S (next s))
          = Some {| due := clock s + TIMER_B;
                    callback := TTransaction key (sipServerHost cfg) (sipServerPort cfg) |}
       /\ TIMER_B = 32000
       /\ transactions s1 !! key
          = Some {| cb_callId := callId; cb_fromTag := fromTag; cb_targetUri := target;
                    tx_timer := S (S (next s)); tx_method := "INVITE" |}
       /\ forall p rest,
            rs_via p = Some (ViaArray (via :: rest)) -> rs_call_id p = callId ->
            rs_cseq p = ofN cseq ++ " INVITE" ->
            clientKey (or_null (branch_of (rs_via p))) (rs_call_id p) (rs_cseq p) = key.
Proof.
  intros Hcap Hoffer Hat Hok Hsdp Hval callId fromTag cseq via s0 s1.
  set (payload := {| p_call_id := callId; p_from_tag := fromTag; p_to_tag := None;
                     p_sdp := Some offer;
                     p_profile := [("transport-protocol", ["RTP/AVP"]); ("ICE", ["remove"]);
                                   ("rtcp-mux", ["demux"])] |}).
  set (k := KMakeCall callId fromTag (generateBranch (bytes e) 6) cseq id target).
  assert (E0 : s0 = await_relay op_offer payload k (upd_metric bump_totalCalls s)).
  { subst s0. unfold makeCallToSip.
    destruct (N.leb_spec (maxConcurrentSessions cfg) (N.of_nat (size (sessions s)))); [lia|].
    rewrite Hoffer. reflexivity. }
  assert (Hb : is_Some (match_branch via)).
  { assert (Ev : via = ("SIP/2.0/UDP " ++ advertiseIP cfg ++ ":" ++ ofN (localSipPort cfg) ++ ";")
                       ++ "branch="
                       ++ String "z" (("9hG4bK" ++ toHex (randomBytes (bytes e) 6 16))
                                      ++ ";rport")).
    { subst via. unfold generateBranch. rewrite !append_assoc. reflexivity. }
    rewrite Ev. apply match_lit_class_Some. reflexivity. }
  destruct Hb as [b Hb].
  set (key := clientKey b callId (ofN cseq ++ " INVITE")).
  set (x := {| dir := outgoing; webrtcClientId := Some id;
               webrtcUserId := None; SipGateway.fromTag := fromTag; toTag := None;
               state := calling; targetUri := Some target;
               SipGateway.cseq := cseq; viaBranch := Some (generateBranch (bytes e) 6);
               sipRequest := None; s_rinfo := None;
               transactionKey := None; from := None;
               ackReceived := false; retransmit200Count := 0;
               retransmit200Interval := 0; maxRetransmits := None;
               retransmit200Timer := None; ackTimeoutTimer := None |}).
  assert (P0 : pending s0 !! next s = Some k).
  { rewrite E0. simpl. apply lookup_insert_eq. }
  assert (E1 : s1 = makeCallToSip_resume cfg callId fromTag (generateBranch (bytes e) 6)
                      cseq id target (Return resp) (upd_pending (delete (next s)) s0)).
  { subst s1. unfold resume. rewrite P0. subst k. cbv iota beta.
    rewrite (retry_first_attempt attempts resp Hat). reflexivity. }
  unfold makeCallToSip_resume in E1. rewrite Hok, Hsdp in E1.
  change (negb ("ok" =? "ok")%string) with false in E1. cbv iota in E1.
  change (sdp_of (Some t)) with (SdpStr t) in E1.
  rewrite Hval in E1. fold via in E1. rewrite Hb in E1.
  unfold setTimeout in E1. fold key in E1.
  split; [rewrite E0; unfold await_relay, log; simpl; rewrite relay_calls_app;
          simpl; rewrite ?app_nil_r; reflexivity|].
  split; [rewrite E0; reflexivity|].
  rewrite E1, E0. simpl.
  split; [reflexivity|].
  split.
  { exists x. split; [|simpl; auto 10].
    rewrite lookup_insert_eq. reflexivity. }
  split; [reflexivity|]. split; [reflexivity|].
  split.
  { rewrite !thrown_app. simpl. rewrite ?app_nil_r. reflexivity. }
  eexists _, key.
  split.
  { rewrite !sent_app. simpl. rewrite ?app_nil_r. reflexivity. }
  split; [reflexivity|]. split; [reflexivity|]. split; [reflexivity|].
  split; [apply lookup_insert_eq|].
  split; [reflexivity|].
  split; [apply lookup_insert_eq|].
  intros p rest Hv Hc Hq. rewrite Hv, Hc, Hq. unfold branch_of. simpl.
  fold (match_branch via). rewrite Hb. reflexivity.
Qed.

Lemma outgoing_call_is_set_up_witness :
  let s0 := makeCallToSip cfg0 "alice" "sip:bob@10.0.0.2" (SdpStr sdp0) no_random init in
  sessions (resume cfg0 0 relay_ok no_random s0)
  = <[generateCallId 0 (0 mod 1000000) "10.0.0.9" := 1%nat]> (sessions init).
Proof.
  assert (H1 : N.of_nat (size (sessions init)) < maxConcurrentSessions cfg0)
    by (vm_compute; reflexivity).
  assert (H2 : validateSDP (SdpStr sdp0) = None) by (vm_compute; reflexivity).
  destruct (outgoing_call_is_set_up cfg0 "alice" "sip:bob@10.0.0.2" (SdpStr sdp0) no_random
              init relay_ok no_random relay_ok_response sdp0 H1 H2 eq_refl eq_refl eq_refl H2)
    as (_ & _ & H3 & _).
  exact H3.
Defined.

(** X8: the continuation of [handleInviteResponse] after the relay's
    [answer].  When the relay answers [ok] with a valid SDP and the URI in
    the Contact of the response (a display name may precede the URI and
    parameters may follow it) has a port between 1 and 65535, the ACK of
    the [200 OK] is sent to the host and port of that URI, not to the
    configured server, with that URI as request URI, the From and To of
    the response and the sequence number of the dialog, and the hub is
    told that the call is answered, with the relay's SDP.  When the port
    of the Contact is 0 or above 65535 the socket refuses it: no ACK is
    sent, the call is counted as failed, the hub is told that it failed
    and the relay [delete] of the dialog is issued. *)
Theorem ack_goes_to_the_contact cfg k callId fromTag targetUri p loc toTag attempts e
    (s : gw) resp t x display params user host n :
  pending s !! k = Some (KInviteResponse callId fromTag targetUri p loc toTag) ->
  heap s !! loc = Some x ->
  attempts 0%nat = Resolved resp -> result resp = "ok" -> sdp resp = Some t ->
  validateSDP (SdpStr t) = None ->
  rs_contact p
  = Some (display ++ "<" ++ ("sip:" ++ user ++ "@" ++ host ++ ":" ++ ofN n) ++ ">"
          ++ params) ->
  all not_lt display = true ->
  user <> "" -> all user_char user = true -> all not_gt user = true ->
  host <> "" -> all host_char host = true ->
  let s1 := resume cfg k attempts e s in
  let uri := "sip:" ++ user ++ "@" ++ host ++ ":" ++ ofN n in
  (0 < n < 65536 ->
   (exists hs,
      sent (out s1) = (sent (out s) ++ [(OutRequest "ACK" uri hs None, host, n)])%list
      /\ header "cseq" (OutRequest "ACK" uri hs None) = Some (HStr (ofN (cseq x) ++ " ACK"))
      /\ header "call-id" (OutRequest "ACK" uri hs None) = Some (HStr callId)
      /\ header "from" (OutRequest "ACK" uri hs None) = Some (HStr (rs_from p))
      /\ header "to" (OutRequest "ACK" uri hs None) = Some (HOpt (rs_to p)))
   /\ events (out s1) = (events (out s) ++ [call_answered (webrtcClientId x) t])%list
   /\ relay_calls (out s1) = relay_calls (out s)
   /\ metric s1 = metric s
   /\ sessions s1 = sessions s /\ heap s1 = heap s)
  /\ (n = 0 \/ 65536 <= n ->
      sent (out s1) = sent (out s)
      /\ (exists msg,
            events (out s1) = (events (out s) ++ [call_failed (webrtcClientId x) msg])%list)
      /\ failedCalls (metric s1) = failedCalls (metric s) + 1
      /\ sessions s1 = sessions s
      /\ relay_calls (out s1)
         = (relay_calls (out s)
            ++ match get_session callId s with
               | Some (_, x') => [(op_delete, delete_payload callId x')]
               | None => []
               end)%list).
Proof.
  intros Hp Hx Hat Hok Hsdp Hval Hc Hd Hu Hua Hug Hh Hha s1 uri.
  assert (Huri : all not_gt uri = true).
  { subst uri.
    change ("sip:" ++ user ++ "@" ++ host ++ ":" ++ ofN n)
      with ("sip:" ++ (user ++ ("@" ++ (host ++ (":" ++ ofN n))))).
    rewrite !all_app, Hug.
    rewrite (all_impl host_char not_gt host); [|intros c; unfold host_char, not_gt;
      destruct (Ascii.eqb c ">"); [rewrite !orb_true_r; discriminate|reflexivity]|exact Hha].
    rewrite (all_impl is_digit not_gt (ofN n)); [reflexivity| |apply ofN_digits].
    intros c. unfold is_digit, not_gt.
    destruct (Ascii.eqb_spec c ">") as [->|]; [discriminate|reflexivity]. }
  assert (Hne : uri <> "") by discriminate.
  assert (E1 : s1 = handleInviteResponse_resume cfg callId fromTag targetUri p loc toTag
                      (Return resp) e (upd_pending (delete k) s)).
  { subst s1. unfold resume. rewrite Hp. cbv iota beta.
    rewrite (retry_first_attempt attempts resp Hat). reflexivity. }
  unfold handleInviteResponse_resume in E1. rewrite Hok, Hsdp in E1.
  change (negb ("ok" =? "ok")%string) with false in E1. cbv iota in E1.
  change (sdp_of (Some t)) with (SdpStr t) in E1. rewrite Hval, Hc in E1.
  fold uri in E1. rewrite (match_angle_uri display uri params Hd Hne Huri) in E1.
  pose proof (match_sip_uri_full user host n Hu Hua Hh Hha) as Hm. fold uri in Hm.
  rewrite Hm in E1.
  rewrite parseInt_ofN in E1.
  split.
  - intros [Hn0 Hn1].
    assert (V : valid_port n = true).
    { unfold valid_port. apply andb_true_iff. split; apply N.ltb_lt; assumption. }
    rewrite V in E1. change (negb true) with false in E1. cbv iota in E1.
    change (heap (upd_pending (delete k) s)) with (heap s) in E1.
    unfold sendSipMessage in E1.
    change (heap (log ?o (upd_pending (delete k) s))) with (heap s) in E1.
    rewrite Hx in E1.
    rewrite E1. unfold log. simpl.
    split.
    { eexists. rewrite !sent_app. simpl. rewrite ?app_nil_r.
      split; [reflexivity|]. split; [reflexivity|]. split; [reflexivity|].
      split; reflexivity. }
    rewrite !events_app, !relay_calls_app. simpl. rewrite ?app_nil_r. auto 10.
  - intros Hn.
    assert (V : valid_port n = false).
    { unfold valid_port. apply andb_false_iff.
      destruct Hn as [-> | Hn]; [left; reflexivity|right; apply N.ltb_ge; exact Hn]. }
    rewrite V in E1. change (negb false) with true in E1. cbv iota in E1.
    unfold inviteResponse_failed in E1.
    change (heap (upd_metric bump_failedCalls (upd_pending (delete k) s))) with (heap s) in E1.
    rewrite Hx in E1.
    set (sl := log (Emit (call_failed (webrtcClientId x) (ERR_SOCKET_BAD_PORT n)))
                 (upd_metric bump_failedCalls (upd_pending (delete k) s))) in E1.
    assert (Ol : out sl = (out s ++ [(clock s, Emit (call_failed (webrtcClientId x)
                                                      (ERR_SOCKET_BAD_PORT n)))])%list)
      by reflexivity.
    destruct (get_session callId s) as [[loc' x']|] eqn:G.
    + assert (Gl : get_session callId sl = Some (loc', x')) by exact G.
      destruct (cleanupSession_known callId AfterNothing sl loc' x' Gl)
        as (C1 & C2 & C3 & C4 & C5 & C6 & C7 & C8).
      cbv zeta in C1, C2, C3, C4, C5, C6, C7, C8. rewrite <- E1 in C1, C2, C3, C4, C5, C6, C7, C8.
      rewrite C1, C4, C6, Ol, !sent_app, !events_app, !relay_calls_app.
      simpl. rewrite ?app_nil_r.
      split; [reflexivity|]. split; [eexists; reflexivity|].
      split; [reflexivity|]. split; reflexivity.
    + assert (Gl : get_session callId sl = None) by exact G.
      assert (E2 : s1 = sl).
      { rewrite E1. unfold cleanupSession. rewrite Gl. reflexivity. }
      rewrite E2, Ol, !sent_app, !events_app, !relay_calls_app.
      simpl. rewrite ?app_nil_r.
      split; [reflexivity|]. split; [eexists; reflexivity|].
      split; [reflexivity|]. split; reflexivity.
Qed.

Lemma ack_goes_to_the_contact_witness :
  (exists hs,
     sent (out (resume cfg0 7 relay_ok no_random s_answer_parked))
     = (sent (out s_answer_parked)
        ++ [(OutRequest "ACK" "sip:bob@10.0.0.5:5080" hs None, "10.0.0.5", 5080)])%list)
  /\ sent (out (resume cfg0 7 relay_ok no_random s_answer_port0)) = sent (out s_answer_port0).
Proof.
  assert (H2 : validateSDP (SdpStr sdp0) = None) by (vm_compute; reflexivity).
  split.
  - assert (Hx : exists x, heap s_answer_parked !! 1%nat = Some x)
      by (eexists; vm_compute; reflexivity).
    destruct Hx as [x Hx].
    destruct (ack_goes_to_the_contact cfg0 7 "00@10.0.0.9" (generateTag (bytes no_random) 0)
                "sip:bob@10.0.0.2"
                (answer_of 200 "OK" "Bob <sip:bob@10.0.0.5:5080>;expires=60" sdp0)
                1 "b0b" relay_ok no_random s_answer_parked relay_ok_response sdp0 x
                "Bob " ";expires=60" "bob" "10.0.0.5" 5080)
      as (H & _);
      [vm_compute; reflexivity|exact Hx|reflexivity|reflexivity|reflexivity|exact H2
      |reflexivity|reflexivity|discriminate|reflexivity|reflexivity
      |discriminate|reflexivity|].
    destruct (H ltac:(lia)) as ((hs & H' & _) & _).
    exists hs. exact H'.
  - assert (Hx : exists x, heap s_answer_port0 !! 1%nat = Some x)
      by (eexists; vm_compute; reflexivity).
    destruct Hx as [x Hx].
    destruct (ack_goes_to_the_contact cfg0 7 "00@10.0.0.9" (generateTag (bytes no_random) 0)
                "sip:bob@10.0.0.2"
                (answer_of 200 "OK" "<sip:bob@10.0.0.5:0>" sdp0)
                1 "b0b" relay_ok no_random s_answer_port0 relay_ok_response sdp0 x
                "" "" "bob" "10.0.0.5" 0)
      as (_ & H);
      [vm_compute; reflexivity|exact Hx|reflexivity|reflexivity|reflexivity|exact H2
      |reflexivity|reflexivity|discriminate|reflexivity|reflexivity
      |discriminate|reflexivity|].
    destruct (H (or_introl eq_refl)) as (H' & _). exact H'.
Defined.









(** X13: [answerSipCall] with an SDP that [validateSDP] refuses.  The
    dialog is not marked answered and nothing is sent to the caller, whose
    INVITE stays without a final response; one relay [delete] is issued
    and, when it settles, the dialog is removed and the error of the
    validation is thrown to the hub.  For a call identifier that the store
    does not know the call throws [Session not found] at once and changes
    nothing. *)
Theorem answer_with_a_refused_SDP_drops_the_call cfg callId uid answer attempts e (s : gw) :
  let s0 := answerSipCall callId uid answer s in
  let s1 := resume cfg (next s) attempts e s0 in
  match get_session callId s with
  | None =>
      out s0 = (out s ++ [(clock s, Threw "answerSipCall" "Session not found")])%list
      /\ sessions s0 = sessions s /\ heap s0 = heap s /\ pending s0 = pending s
  | Some (loc, x) =>
      forall msg, validateSDP answer = Some msg ->
      sent (out s0) = sent (out s)
      /\ thrown (out s0) = thrown (out s)
      /\ relay_calls (out s0)
         = (relay_calls (out s) ++ [(op_delete, delete_payload callId x)])%list
      /\ heap s0 = heap s
      /\ sent (out s1) = sent (out s)
      /\ thrown (out s1) = (thrown (out s) ++ [("answerSipCall", msg)])%list
      /\ sessions s1 = delete callId (sessions s)
  end.
Proof.
  intros s0 s1.
  destruct (get_session callId s) as [[loc x]|] eqn:G.
  - intros msg Hv.
    assert (E0 : s0 = cleanupSession callId (AfterThrow "answerSipCall" msg) s).
    { subst s0. unfold answerSipCall. rewrite G, Hv. reflexivity. }
    destruct (cleanupSession_known callId (AfterThrow "answerSipCall" msg) s loc x G)
      as (C1 & C2 & C3 & C4 & C5 & C6 & C7 & C8).
    cbv zeta in C1, C2, C3, C4, C5, C6, C7, C8.
    rewrite <- E0 in C1, C2, C3, C4, C5, C6, C7, C8.
    assert (E1 : s1 = cleanupSession_resume callId (AfterThrow "answerSipCall" msg)
                        (upd_pending (delete (next s)) s0)).
    { apply resume_cleanup. rewrite C2. apply lookup_insert_eq. }
    rewrite E1. unfold cleanupSession_resume, run_after, log.
    cbn [out upd_out upd_metric upd_sessions upd_pending sessions].
    rewrite C1, C4, C5, !sent_app, !thrown_app, relay_calls_app. simpl.
    rewrite !app_nil_r. auto 10.
  - subst s0. unfold answerSipCall. rewrite G. unfold log. simpl. auto.
Qed.

(** X14: [makeCallToSip] when the call cannot be placed.  A call whose
    offer [validateSDP] refuses, or whose relay [offer] is rejected three
    times in a row, is counted as a call and as a failed call, the hub is
    told that it failed and the error is thrown; no INVITE is sent and no
    dialog is stored.  A call refused at the cap throws as well, but is
    counted nowhere and the hub is told nothing. *)
Theorem outgoing_call_failures_are_counted cfg id target offer e attempts e' (s : gw) :
  let s0 := makeCallToSip cfg id target offer e s in
  let s1 := resume cfg (next s) attempts e' s0 in
  (maxConcurrentSessions cfg <= N.of_nat (size (sessions s)) ->
   out s0 = (out s ++ [(clock s, Threw "makeCallToSip"
                                   "Maximum concurrent sessions reached")])%list
   /\ metric s0 = metric s /\ sessions s0 = sessions s /\ pending s0 = pending s)
  /\ (N.of_nat (size (sessions s)) < maxConcurrentSessions cfg ->
      forall msg, validateSDP offer = Some msg ->
      out s0 = (out s ++ [(clock s, Emit (call_failed (Some id) msg));
                          (clock s, Threw "makeCallToSip" msg)])%list
      /\ totalCalls (metric s0) = totalCalls (metric s) + 1
      /\ failedCalls (metric s0) = failedCalls (metric s) + 1
      /\ activeSessions (metric s0) = activeSessions (metric s)
      /\ sessions s0 = sessions s /\ pending s0 = pending s)
  /\ (N.of_nat (size (sessions s)) < maxConcurrentSessions cfg ->
      validateSDP offer = None ->
      forall e0 e1 e2,
      attempts 0%nat = Rejected e0 -> attempts 1%nat = Rejected e1 ->
      attempts 2%nat = Rejected e2 ->
      sent (out s1) = sent (out s)
      /\ events (out s1) = (events (out s) ++ [call_failed (Some id) e2])%list
      /\ thrown (out s1) = (thrown (out s) ++ [("makeCallToSip", e2)])%list
      /\ totalCalls (metric s1) = totalCalls (metric s) + 1
      /\ failedCalls (metric s1) = failedCalls (metric s) + 1
      /\ activeSessions (metric s1) = activeSessions (metric s)
      /\ sessions s1 = sessions s).
Proof.
  intros s0 s1. split; [|split].
  - intros Hcap. subst s0. rewrite (makeCallToSip_at_capacity _ _ _ _ _ _ Hcap).
    unfold log. simpl. auto.
  - intros Hcap msg Hv. subst s0. unfold makeCallToSip.
    destruct (N.leb_spec (maxConcurrentSessions cfg) (N.of_nat (size (sessions s)))); [lia|].
    rewrite Hv. unfold makeCall_failed, log. simpl. rewrite <- app_assoc. auto 10.
  - intros Hcap Hv e0 e1 e2 H0 H1 H2.
    set (k := KMakeCall (generateCallId (now e) (rand6 e mod 1000000) (advertiseIP cfg))
                (generateTag (bytes e) 0) (generateBranch (bytes e) 6)
                (rand4 e mod 10000 + 1) id target).
    assert (E0 : exists payload, s0 = await_relay op_offer payload k
                                       (upd_metric bump_totalCalls s)).
    { eexists. subst s0. unfold makeCallToSip.
      destruct (N.leb_spec (maxConcurrentSessions cfg) (N.of_nat (size (sessions s))));
        [lia|].
      rewrite Hv. reflexivity. }
    destruct E0 as (payload & E0).
    assert (E1 : s1 = makeCall_failed id e2 (upd_pending (delete (next s)) s0)).
    { subst s1. unfold resume.
      assert (P0 : pending s0 !! next s = Some k)
        by (rewrite E0; simpl; apply lookup_insert_eq).
      rewrite P0. subst k. cbv iota beta.
      rewrite (retry_all_rejected attempts e0 e1 e2 H0 H1 H2). reflexivity. }
    rewrite E1, E0. unfold makeCall_failed, await_relay, log. simpl.
    rewrite !sent_app, !events_app, !thrown_app. simpl. rewrite !app_nil_r. auto 10.
Qed.

End CallFacts.

(** ** Invariants of every run *)

Module InvariantFacts.
Import JsString SipText Nat_fixup Retry Generate SipGateway Scenario Observe GatewayFacts EngineFacts.

Lemma gauge_same (s s' : gw) : metric s' = metric s -> gauge_ok s -> gauge_ok s'.
Proof. unfold gauge_ok. intros ->. auto. Qed.

Lemma gauge_iff (s : gw) : gauge_ok s <-> (0 <= activeSessions (metric s))%Z.
Proof. unfold gauge_ok. apply Z.leb_le. Qed.

Lemma gauge_sendResponse cfg q st rs r b (s : gw) :
  gauge_ok s -> gauge_ok (sendResponse cfg q st rs r b s).
Proof. intros H. apply (gauge_same s); [apply sendResponse_metric|exact H]. Qed.

Lemma gauge_clearTimeout h (s : gw) : gauge_ok s -> gauge_ok (clearTimeout h s).
Proof. intros H. apply (gauge_same s); [destruct h; reflexivity|exact H]. Qed.

Lemma gauge_run_after a (s : gw) : gauge_ok s -> gauge_ok (run_after a s).
Proof. intros H. apply (gauge_same s); [destruct a; reflexivity|exact H]. Qed.

Lemma gauge_cleanupSession callId a (s : gw) :
  gauge_ok s -> gauge_ok (cleanupSession callId a s).
Proof.
  intros H. apply (gauge_same s); [|exact H]. unfold cleanupSession.
  destruct (get_session callId s) as [[loc x]|]; [|destruct a; reflexivity].
  destruct (truthy (transactionKey x)), (retransmit200Timer x), (ackTimeoutTimer x);
    reflexivity.
Qed.

Lemma gauge_cleanupSession_resume callId a (s : gw) :
  gauge_ok (cleanupSession_resume callId a s).
Proof.
  unfold cleanupSession_resume.
  apply (gauge_same
           (upd_metric (fun m =>
              {| activeSessions := Z.max 0 (activeSessions m - 1);
                 totalCalls := totalCalls m; failedCalls := failedCalls m;
                 reInvites := reInvites m; retriedInvites := retriedInvites m |})
              (upd_sessions (delete callId) s))); [destruct a; reflexivity|].
  apply gauge_iff. simpl. lia.
Qed.

Lemma gauge_bump f (s : gw) :
  (forall m, (activeSessions m <= activeSessions (f m))%Z) ->
  gauge_ok s -> gauge_ok (upd_metric f s).
Proof.
  intros H H0. apply gauge_iff. apply gauge_iff in H0. simpl.
  specialize (H (metric s)). lia.
Qed.

Lemma gauge_await op p k (s : gw) : gauge_ok s -> gauge_ok (await_relay op p k s).
Proof. intros H. exact H. Qed.

Lemma gauge_update loc f (s : gw) : gauge_ok s -> gauge_ok (update loc f s).
Proof. intros H. exact H. Qed.

Lemma gauge_log o (s : gw) : gauge_ok s -> gauge_ok (log o s).
Proof. intros H. exact H. Qed.

Lemma gauge_sessions_set callId x (s : gw) : gauge_ok s -> gauge_ok (sessions_set callId x s).
Proof. intros H. exact H. Qed.

Lemma gauge_upd_inviteTransactions f (s : gw) :
  gauge_ok s -> gauge_ok (upd_inviteTransactions f s).
Proof. intros H. exact H. Qed.

Lemma gauge_upd_transactions f (s : gw) : gauge_ok s -> gauge_ok (upd_transactions f s).
Proof. intros H. exact H. Qed.

Lemma gauge_upd_timers f (s : gw) : gauge_ok s -> gauge_ok (upd_timers f s).
Proof. intros H. exact H. Qed.

Lemma gauge_upd_next f (s : gw) : gauge_ok s -> gauge_ok (upd_next f s).
Proof. intros H. exact H. Qed.

Lemma gauge_upd_clock f (s : gw) : gauge_ok s -> gauge_ok (upd_clock f s).
Proof. intros H. exact H. Qed.

Lemma gauge_upd_pending f (s : gw) : gauge_ok s -> gauge_ok (upd_pending f s).
Proof. intros H. exact H. Qed.

Lemma gauge_upd_sessions f (s : gw) : gauge_ok s -> gauge_ok (upd_sessions f s).
Proof. intros H. exact H. Qed.

Lemma gauge_upd_heap f (s : gw) : gauge_ok s -> gauge_ok (upd_heap f s).
Proof. intros H. exact H. Qed.

(** Peels the engine's primitives off a goal [gauge_ok (f ... s)]. *)
Ltac keep_gauge :=
  repeat match goal with
  | H : gauge_ok ?s |- gauge_ok ?s' => constr_eq s s'; exact H
  | |- gauge_ok (sendResponse _ _ _ _ _ _ _) => apply gauge_sendResponse
  | |- gauge_ok (cleanupSession _ _ _) => apply gauge_cleanupSession
  | |- gauge_ok (cleanupSession_resume _ _ _) => apply gauge_cleanupSession_resume
  | |- gauge_ok (clearTimeout _ _) => apply gauge_clearTimeout
  | |- gauge_ok (run_after _ _) => apply gauge_run_after
  | |- gauge_ok (upd_metric _ _) =>
      apply gauge_bump; [intros m; simpl; lia|]
  | |- gauge_ok (await_relay _ _ _ _) => apply gauge_await
  | |- gauge_ok (update _ _ _) => apply gauge_update
  | |- gauge_ok (log _ _) => apply gauge_log
  | |- gauge_ok (sendSipMessage _ _ _ _) => apply gauge_log
  | |- gauge_ok (sessions_set _ _ _) => apply gauge_sessions_set
  | |- gauge_ok (upd_inviteTransactions _ _) => apply gauge_upd_inviteTransactions
  | |- gauge_ok (upd_transactions _ _) => apply gauge_upd_transactions
  | |- gauge_ok (upd_timers _ _) => apply gauge_upd_timers
  | |- gauge_ok (upd_next _ _) => apply gauge_upd_next
  | |- gauge_ok (upd_clock _ _) => apply gauge_upd_clock
  | |- gauge_ok (upd_pending _ _) => apply gauge_upd_pending
  | |- gauge_ok (upd_sessions _ _) => apply gauge_upd_sessions
  | |- gauge_ok (upd_heap _ _) => apply gauge_upd_heap
  | |- gauge_ok (match ?x with _ => _ end) => destruct x eqn:?
  | |- gauge_ok (if ?b then _ else _) => destruct b eqn:?
  end.

Lemma gauge_handleInviteResponse p callId fromTag targetUri e (s : gw) :
  gauge_ok s -> gauge_ok (handleInviteResponse p callId fromTag targetUri e s).
Proof. intros H. unfold handleInviteResponse, inviteResponse_failed. keep_gauge. Qed.

Lemma gauge_step cfg i (s : gw) : gauge_ok s -> gauge_ok (step cfg i s).
Proof.
  intros H. destruct i; simpl.
  - unfold handleIncomingMessage. destruct m.
    + unfold handleRequest, handleInvite, handleAck, handleBye, handleCancel, handleInfo,
        handleReInvite, handleIncomingInvite, reInvite_failed, incomingInvite_failed.
      keep_gauge.
    + unfold handleResponse. keep_gauge; apply gauge_handleInviteResponse; keep_gauge.
  - unfold resume. destruct (pending s !! k) as [kt|]; [|exact H].
    assert (H' : gauge_ok (upd_pending (delete k) s)) by keep_gauge.
    destruct kt; unfold handleReInvite_resume, makeCallToSip_resume,
      handleInviteResponse_resume, handleIncomingInvite_resume, answerSipCall_resume,
      reInvite_failed, makeCall_failed, inviteResponse_failed, incomingInvite_failed,
      answer_failed, setTimeout; keep_gauge.
  - unfold fire, run_closure, setTimeout.
    keep_gauge; try apply gauge_handleInviteResponse; keep_gauge.
  - unfold makeCallToSip, makeCall_failed. keep_gauge.
  - unfold answerSipCall, answer_failed. keep_gauge.
  - unfold rejectCall. keep_gauge.
  - unfold hangup. keep_gauge.
  - keep_gauge.
Qed.

(** X15: the gauge of active sessions.  Whatever the telephony leg,
    the relay, the timers and the hub do, in whatever order,
    [metrics.activeSessions] never goes below zero: [cleanupSession]
    decrements it with a floor of zero, and it does so once for each of its
    invocations, also for the second of two that race on one dialog. *)
Theorem active_sessions_gauge_never_negative cfg inputs (s : gw) :
  (0 <= activeSessions (metric s))%Z ->
  (0 <= activeSessions (metric (run cfg inputs s)))%Z.
Proof.
  unfold run. revert s.
  induction inputs as [|i l IH]; intros s H; simpl; [exact H|].
  apply IH. apply gauge_iff. apply (gauge_step cfg i s). apply gauge_iff. exact H.
Qed.

Lemma active_sessions_gauge_never_negative_witness :
  (0 <= activeSessions
          (metric (run cfg0 [datagram "BYE" "c1"; CallHangup "c1" no_random;
                             RelayDone 5 relay_ok no_random;
                             RelayDone 6 relay_ok no_random] s_established)))%Z.
Proof.
  apply (active_sessions_gauge_never_negative cfg0). vm_compute. discriminate.
Defined.

(** X16: the dialog store between two relay calls.  No sequence of
    datagrams, timer expiries and calls of the hub changes the set of
    dialogs in the store: dialogs are inserted and removed only when a
    relay call settles, by the continuations of [makeCallToSip],
    [handleIncomingInvite] and [cleanupSession]. *)
Theorem store_changes_only_when_a_relay_call_settles cfg inputs (s : gw) :
  forallb (fun i => negb (is_relay_done i)) inputs = true ->
  sessions (run cfg inputs s) = sessions s.
Proof.
  unfold run. revert s.
  induction inputs as [|i l IH]; intros s H; simpl; [reflexivity|].
  simpl in H. apply andb_true_iff in H as [Hi Hl].
  rewrite (IH _ Hl). apply step_sessions.
  intros k a e ->. discriminate.
Qed.

Lemma store_changes_only_when_a_relay_call_settles_witness :
  sessions (run cfg0 [datagram "BYE" "c1"; CallHangup "c1" no_random; TimerFire 3;
                      datagram "INVITE" "c2"; Elapse 100] s_established)
  = sessions s_established.
Proof.
  apply (store_changes_only_when_a_relay_call_settles cfg0). reflexivity.
Defined.

End InvariantFacts.

(** ** The retry wrapper, for any number of tries *)

Module BackoffFacts.
Import Retry Observe RetryFacts.

Lemma backoff_trace_attempts unit i k : attempts (backoff_trace unit i k) = S k.
Proof.
  revert i. induction k as [|k IH]; intros i; [reflexivity|].
  simpl. unfold attempts in *. simpl. rewrite IH. reflexivity.
Qed.

Lemma backoff_trace_sleep unit i k :
  2 * total_sleep (backoff_trace unit i k)
  = unit * (N.of_nat k * (2 * N.of_nat i + N.of_nat k + 1)).
Proof.
  revert i. induction k as [|k IH]; intros i; simpl; [lia|].
  specialize (IH (S i)). nia.
Qed.

(** X17: [rtpengineOperationWithRetry], for any number of tries.  The
    wrapper returns the result of the first invocation that succeeds and
    invokes the operation no further; before the [(k+1)]-th invocation it
    has waited [unit * (1 + 2 + ... + k)] milliseconds in all, where the
    unit is 100 in [sipGateway.js] and 1000 in the other revision. *)
Theorem retry_returns_the_first_success {A E} (operation : nat -> outcome A E)
    retries k a :
  (k < retries)%nat ->
  (forall j, (j < k)%nat -> exists e, operation j = Rejected e) ->
  operation k = Resolved a ->
  rtpengineOperationWithRetry operation retries = (backoff_trace 100 0 k, Return a)
  /\ Rev.rtpengineOperationWithRetry operation retries = (backoff_trace 1000 0 k, Return a)
  /\ attempts (backoff_trace 100 0 k) = S k
  /\ 2 * total_sleep (backoff_trace 100 0 k) = 100 * (N.of_nat k * (N.of_nat k + 1))
  /\ 2 * total_sleep (backoff_trace 1000 0 k) = 1000 * (N.of_nat k * (N.of_nat k + 1)).
Proof.
  intros Hk Hrej Hok.
  split; [|split; [|split; [|split]]].
  - unfold rtpengineOperationWithRetry.
    apply retry_loop_success; [lia|lia|exact Hrej|exact Hok].
  - unfold Rev.rtpengineOperationWithRetry.
    apply retry_loop_success; [lia|lia|exact Hrej|exact Hok].
  - apply backoff_trace_attempts.
  - rewrite backoff_trace_sleep. change (2 * N.of_nat 0) with 0. rewrite N.add_0_l. reflexivity.
  - rewrite backoff_trace_sleep. change (2 * N.of_nat 0) with 0. rewrite N.add_0_l. reflexivity.
Qed.

Lemma retry_returns_the_first_success_witness :
  rtpengineOperationWithRetry
    (fun i => match i with
              | 2%nat => Resolved "pong"%string
              | _ => @Rejected string string "ETIMEDOUT"%string
              end) 5
  = ([Attempt 0; Sleep 100; Attempt 1; Sleep 200; Attempt 2], Return "pong"%string).
Proof.
  refine (proj1 (retry_returns_the_first_success _ 5 2 "pong"%string _ _ _)).
  - lia.
  - intros [|[|j]] Hj; [eauto|eauto|lia].
  - reflexivity.
Defined.

(** X18: ... and when no invocation succeeds.  With [retries] tries,
    one at least, all rejected, the operation is invoked exactly [retries]
    times and the error of the last invocation is the one thrown, after a
    wait of [unit * (1 + ... + (retries - 1))] milliseconds in all.  With
    no try at all the wrapper returns [undefined] without invoking the
    operation. *)
Theorem retry_gives_up_with_the_last_error {A E} (operation : nat -> outcome A E)
    retries e :
  (forall j, (j < retries)%nat -> exists e', operation j = Rejected e') ->
  (0 < retries)%nat -> operation (retries - 1)%nat = Rejected e ->
  rtpengineOperationWithRetry operation retries
  = (backoff_trace 100 0 (retries - 1), Throw e)
  /\ Rev.rtpengineOperationWithRetry operation retries
     = (backoff_trace 1000 0 (retries - 1), Throw e)
  /\ attempts (backoff_trace 100 0 (retries - 1)) = retries
  /\ 2 * total_sleep (backoff_trace 100 0 (retries - 1))
     = 100 * (N.of_nat (retries - 1) * N.of_nat retries)
  /\ rtpengineOperationWithRetry operation 0 = ([], ReturnUndefined).
Proof.
  intros Hrej Hpos Hlast.
  split; [|split; [|split; [|split]]].
  - unfold rtpengineOperationWithRetry.
    apply retry_loop_exhausted; [lia|lia|lia| |exact Hlast].
    intros j Hj. apply Hrej. lia.
  - unfold Rev.rtpengineOperationWithRetry.
    apply retry_loop_exhausted; [lia|lia|lia| |exact Hlast].
    intros j Hj. apply Hrej. lia.
  - rewrite backoff_trace_attempts. lia.
  - rewrite backoff_trace_sleep. change (2 * N.of_nat 0) with 0. rewrite N.add_0_l.
    f_equal. f_equal. lia.
  - reflexivity.
Qed.

Lemma retry_gives_up_with_the_last_error_witness :
  rtpengineOperationWithRetry
    (fun i => @Rejected unit string
                (match i with 3%nat => "last" | _ => "early" end)%string) 4
  = ([Attempt 0; Sleep 100; Attempt 1; Sleep 200; Attempt 2; Sleep 300; Attempt 3],
     Throw "last"%string).
Proof.
  refine (proj1 (retry_gives_up_with_the_last_error _ 4 "last"%string _ _ _)).
  - intros j Hj. eauto.
  - lia.
  - reflexivity.
Defined.

End BackoffFacts.

(** ** Hexadecimal identifiers *)

Module HexFacts.
Import JsString Generate Observe GenerateFacts.

Lemma hex_pair_inj b b' :
  hex_digit (Byte.to_N b / 16) = hex_digit (Byte.to_N b' / 16) ->
  hex_digit (Byte.to_N b mod 16) = hex_digit (Byte.to_N b' mod 16) ->
  b = b'.
Proof.
  intros H1 H2.
  assert (D : forall n m, n < 16 -> m < 16 -> hex_digit n = hex_digit m -> n = m).
  { intros n m Hn Hm.
    assert (Hc : forall x, x < 16 ->
              x = 0 \/ x = 1 \/ x = 2 \/ x = 3 \/ x = 4 \/ x = 5 \/ x = 6 \/ x = 7 \/ x = 8
              \/ x = 9 \/ x = 10 \/ x = 11 \/ x = 12 \/ x = 13 \/ x = 14 \/ x = 15) by lia.
    destruct (Hc n Hn) as [->|[->|[->|[->|[->|[->|[->|[->|[->|[->|[->|[->|[->|[->|[->| ->]]]]]]]]]]]]]]];
      destruct (Hc m Hm) as [->|[->|[->|[->|[->|[->|[->|[->|[->|[->|[->|[->|[->|[->|[->| ->]]]]]]]]]]]]]]];
      vm_compute; congruence. }
  assert (B : forall b : Byte.byte, Byte.to_N b < 256) by (intros x; destruct x; vm_compute; reflexivity).
  pose proof (B b) as Hb. pose proof (B b') as Hb'.
  apply D in H1; [|apply N.Div0.div_lt_upper_bound; lia|apply N.Div0.div_lt_upper_bound; lia].
  apply D in H2; [|apply N.mod_lt; lia|apply N.mod_lt; lia].
  assert (Byte.to_N b = Byte.to_N b').
  { rewrite (N.div_mod (Byte.to_N b) 16), (N.div_mod (Byte.to_N b') 16) by lia.
    rewrite H1, H2. reflexivity. }
  apply (f_equal Byte.of_N) in H. rewrite !Byte.of_to_N in H. congruence.
Qed.

Lemma toHex_inj bs bs' : toHex bs = toHex bs' -> bs = bs'.
Proof.
  revert bs'. induction bs as [|b bs IH]; intros [|b' bs'] H; simpl in H;
    try discriminate; [reflexivity|].
  injection H as H1 H2 H3.
  rewrite (hex_pair_inj b b'), (IH bs' H3); [reflexivity| |].
  - apply (f_equal (fun c => String c EmptyString)) in H1. congruence.
  - apply (f_equal (fun c => String c EmptyString)) in H2. congruence.
Qed.

(** X19: [buf.toString('hex')] loses nothing: byte strings with the
    same hexadecimal text are equal.  So two tags, and two branches, are
    equal only if [crypto.randomBytes] gave the same bytes for both: the
    generators add no collision of their own to those of the random
    source. *)
Theorem identifiers_collide_only_with_their_bytes :
  (forall bs bs', toHex bs = toHex bs' <-> bs = bs')
  /\ (forall rnd rnd' off off',
        generateTag rnd off = generateTag rnd' off' <->
        randomBytes rnd off 6 = randomBytes rnd' off' 6)
  /\ (forall rnd rnd' off off',
        generateBranch rnd off = generateBranch rnd' off' <->
        randomBytes rnd off 16 = randomBytes rnd' off' 16).
Proof.
  split; [|split].
  - intros bs bs'. split; [apply toHex_inj|intros ->; reflexivity].
  - intros rnd rnd' off off'. unfold generateTag.
    split; [apply toHex_inj|intros ->; reflexivity].
  - intros rnd rnd' off off'. unfold generateBranch.
    split; [|intros ->; reflexivity].
    intros H. apply toHex_inj.
    change ("z9hG4bK" ++ toHex (randomBytes rnd off 16))
      with (String "z" (String "9" (String "h" (String "G" (String "4" (String "b"
              (String "K" (toHex (randomBytes rnd off 16))))))))) in H.
    change ("z9hG4bK" ++ toHex (randomBytes rnd' off' 16))
      with (String "z" (String "9" (String "h" (String "G" (String "4" (String "b"
              (String "K" (toHex (randomBytes rnd' off' 16))))))))) in H.
    congruence.
Qed.

End HexFacts.

(** ** The NAT fixup on well-formed Via headers *)

Module Rfc3581Facts.
Import JsString SipText Nat_fixup Observe NatFacts NumberFacts RegexFacts.

Section Port.
Variable D : string.
Let P := "rport=" ++ D.

Lemma includes_whole_replaceLitDigits s :
  includes s "rport=" = true -> includes (replaceLitDigits s "rport=" P) P = true.
Proof.
  induction s as [|c s IH]; intros H; [discriminate|].
  destruct (startsWith (String c s) "rport=") eqn:E.
  - rewrite (startsWith_drop _ _ E).
    change ("rport=" ++ drop (String.length "rport=") (String c s))
      with (String "r" (String "p" (String "o" (String "r" (String "t" (String "="
              (drop (String.length "rport=") (String c s)))))))).
    cbn [replaceLitDigits].
    assert (E' : startsWith (String "r" (String "p" (String "o" (String "r" (String "t"
                   (String "=" (drop (String.length "rport=") (String c s)))))))) "rport="
                 = true) by (destruct (drop (String.length "rport=") (String c s)); reflexivity).
    rewrite E'. apply includes_self.
  - cbn [replaceLitDigits]. rewrite E. cbn [includes] in *. rewrite E in H. simpl in H.
    rewrite IH by exact H. apply orb_true_r.
Qed.

Lemma includes_whole_replace s :
  includes s "rport" = true -> includes (replace s "rport" P) P = true.
Proof.
  induction s as [|c s IH]; intros H; [discriminate|].
  destruct (startsWith (String c s) "rport") eqn:E.
  - cbn [replace]. rewrite E. apply includes_self.
  - cbn [replace]. rewrite E. cbn [includes] in *. rewrite E in H. simpl in H.
    rewrite IH by exact H. apply orb_true_r.
Qed.
End Port.

(** [/SIP\/2\.0\/UDP\s+([^:;]+)(?::(\d+))?/] on a Via that starts with
    the transport, one space, a host and a port. *)
Lemma via_match_wellformed host n params :
  host <> "" -> all not_colon_semi host = true -> starts_with_space host = false ->
  starts_with_digit params = false ->
  via_match ("SIP/2.0/UDP " ++ host ++ ":" ++ ofN n ++ params)
  = Some (host, Some (ofN n)).
Proof.
  intros Hh Ha Hs Hp.
  assert (E : via_match_here ("SIP/2.0/UDP " ++ host ++ ":" ++ ofN n ++ params)
              = Some (host, Some (ofN n))).
  { unfold via_match_here.
    assert (S1 : startsWith ("SIP/2.0/UDP " ++ host ++ ":" ++ ofN n ++ params) "SIP/2.0/UDP"
                 = true).
    { change ("SIP/2.0/UDP " ++ host ++ ":" ++ ofN n ++ params)
        with ("SIP/2.0/UDP" ++ (" " ++ host ++ ":" ++ ofN n ++ params)).
      apply startsWith_self. }
    rewrite S1.
    change (drop 11 ("SIP/2.0/UDP " ++ host ++ ":" ++ ofN n ++ params))
      with (String " " (host ++ String ":" (ofN n ++ params))).
    destruct host as [|c host']; [congruence|].
    simpl in Hs. rewrite append_cons. cbn [span]. change (is_space " ") with true.
    cbv iota. cbn [span]. rewrite Hs.
    rewrite <- append_cons.
    rewrite (span_stop not_colon_semi (String c host') ":" _ Ha eq_refl).
    cbn [port_group].
    assert (S2 : fst (span is_digit (ofN n ++ params)) = ofN n).
    { destruct params as [|p params'].
      - replace (ofN n ++ "") with (ofN n).
        + rewrite (span_whole _ _ (ofN_digits n)). reflexivity.
        + clear. induction (ofN n) as [|a u IH]; [reflexivity|].
          rewrite append_cons, <- IH. reflexivity.
      - simpl in Hp. rewrite (span_stop is_digit (ofN n) p params' (ofN_digits n) Hp).
        reflexivity. }
    rewrite S2. pose proof (ofN_nonempty n) as Hn.
    destruct (ofN n); [congruence|reflexivity]. }
  destruct ("SIP/2.0/UDP " ++ host ++ ":" ++ ofN n ++ params) eqn:V;
    cbn [via_match]; rewrite E; reflexivity.
Qed.

(** A pattern without the character [c] cannot match across [c]. *)
Lemma startsWith_app_sep c q : forall a b,
  all (fun x => negb (Ascii.eqb x c)) q = true ->
  startsWith (a ++ String c b) q = startsWith a q.
Proof.
  induction q as [|d q IH]; intros a b Hq.
  - rewrite !startsWith_nil. reflexivity.
  - simpl in Hq. apply andb_true_iff in Hq as [Hd Hq']. apply negb_true_iff in Hd.
    destruct a as [|x a].
    + rewrite append_nil, startsWith_cons, startsWith_empty.
      rewrite Ascii.eqb_sym, Hd. reflexivity.
    + rewrite append_cons, !startsWith_cons, IH by exact Hq'. reflexivity.
Qed.

Lemma includes_app_sep c q a b :
  q <> "" -> all (fun x => negb (Ascii.eqb x c)) q = true ->
  includes (a ++ String c b) q = includes a q || includes b q.
Proof.
  intros Hne Hq. induction a as [|x a IH].
  - rewrite append_nil. cbn [includes].
    rewrite <- (append_nil (String c b)), startsWith_app_sep by exact Hq.
    rewrite startsWith_empty. destruct q; [congruence|reflexivity].
  - rewrite append_cons. cbn [includes].
    rewrite <- append_cons, startsWith_app_sep by exact Hq.
    rewrite IH. apply orb_assoc.
Qed.

Lemma replace_app_sep c pat rep a b :
  pat <> "" -> all (fun x => negb (Ascii.eqb x c)) pat = true ->
  includes a pat = false ->
  replace (a ++ String c b) pat rep = a ++ String c (replace b pat rep).
Proof.
  intros Hne Hq. induction a as [|x a IH]; intros Ha.
  - rewrite !append_nil. cbn [replace].
    assert (E : startsWith (String c b) pat = false).
    { rewrite <- (append_nil (String c b)), startsWith_app_sep by exact Hq.
      rewrite startsWith_empty. destruct pat; [congruence|reflexivity]. }
    rewrite E. reflexivity.
  - cbn [includes] in Ha. apply orb_false_iff in Ha as [Hx Ha].
    rewrite append_cons. cbn [replace].
    rewrite <- append_cons, startsWith_app_sep, Hx by exact Hq.
    rewrite IH by exact Ha. rewrite append_cons. reflexivity.
Qed.

Lemma includes_rport_eq s : includes s "rport=" = true -> includes s "rport" = true.
Proof.
  induction s as [|c s IH]; [discriminate|]. cbn [includes].
  intros H. apply orb_true_iff in H as [H|H].
  - rewrite (startsWith_rport_eq _ H). reflexivity.
  - rewrite (IH H). apply orb_true_r.
Qed.

Lemma digits_no_received D : all is_digit D = true -> includes D "received=" = false.
Proof.
  induction D as [|d D IH]; [reflexivity|]. cbn [includes all]. intros H.
  apply andb_true_iff in H as [Hd HD]. rewrite (IH HD), orb_false_r.
  change "received=" with (String "r" "eceived="). rewrite startsWith_cons.
  destruct (Ascii.eqb_spec d "r") as [->|]; [discriminate Hd|reflexivity].
Qed.

(** X20: [handleNATForRequest] on a top Via of the form
    [SIP/2.0/UDP host:port], parameters and a final [;rport] (the form
    the gateway's own INVITEs have).  When the datagram comes from the
    address and port the Via shows, the Via is left as it is.  When it
    comes from elsewhere, the port it came from becomes the value of
    [rport] and the address it came from is appended as [received]:
    exactly RFC 3581.  And whatever its form, a Via that does not contain
    [rport] is never changed. *)
Theorem nat_fixup_records_the_source host n params (r : rinfo) :
  host <> "" -> all not_colon_semi host = true -> starts_with_space host = false ->
  starts_with_digit params = false -> n < 65536 -> port r < 65536 ->
  let head := "SIP/2.0/UDP " ++ host ++ ":" ++ ofN n ++ params in
  let via := head ++ ";rport" in
  includes head "rport" = false -> includes head "received=" = false ->
  (host = address r -> n = port r -> fixVia via r = via)
  /\ (host <> address r \/ n <> port r ->
      fixVia via r = head ++ ";rport=" ++ ofN (port r) ++ ";received=" ++ address r)
  /\ (forall v, includes v "rport" = false -> fixVia v r = v).
Proof.
  intros Hh Ha Hs Hp _ _ head via Hr Hrec.
  assert (Hp' : starts_with_digit (params ++ ";rport") = false).
  { destruct params; [reflexivity|exact Hp]. }
  assert (Ev : via = "SIP/2.0/UDP " ++ host ++ ":" ++ ofN n ++ (params ++ ";rport")).
  { subst via head. rewrite !append_assoc. reflexivity. }
  pose proof (via_match_wellformed host n (params ++ ";rport") Hh Ha Hs Hp') as M.
  rewrite <- Ev in M.
  assert (Hne : via <> "") by (rewrite Ev; discriminate).
  assert (F : fixVia via r
              = if negb (host =? address r)%string || negb (n =? port r)
                then if includes via "rport"
                     then let updatedVia :=
                            if includes via "rport="
                            then replaceLitDigits via "rport=" ("rport=" ++ ofN (port r))
                            else replace via "rport" ("rport=" ++ ofN (port r)) in
                          if negb (includes updatedVia "received=")
                          then updatedVia ++ ";received=" ++ address r
                          else updatedVia
                     else via
                else via).
  { unfold fixVia. rewrite M, parseInt_ofN. destruct via; [congruence|reflexivity]. }
  split; [|split].
  - intros -> ->. rewrite F, String.eqb_refl, N.eqb_refl. reflexivity.
  - intros Hd.
    assert (E : negb (host =? address r)%string || negb (n =? port r) = true).
    { destruct Hd as [Hd|Hd].
      - apply String.eqb_neq in Hd. rewrite Hd. reflexivity.
      - apply N.eqb_neq in Hd. rewrite Hd. apply orb_true_r. }
    rewrite F, E.
    assert (I1 : includes via "rport" = true).
    { subst via. apply includes_app_r. reflexivity. }
    assert (I2 : includes via "rport=" = false).
    { subst via. change (";rport") with (String ";" "rport").
      rewrite includes_app_sep; [|discriminate|reflexivity].
      destruct (includes head "rport=") eqn:I; [|reflexivity].
      apply includes_rport_eq in I. congruence. }
    rewrite I1, I2. cbv zeta.
    assert (R : replace via "rport" ("rport=" ++ ofN (port r))
                = head ++ ";rport=" ++ ofN (port r)).
    { subst via. change (";rport") with (String ";" "rport").
      rewrite replace_app_sep; [|discriminate|reflexivity|exact Hr].
      change "rport" with ("rport" ++ "") at 1. rewrite replace_at_head.
      f_equal. change (";rport=" ++ ofN (port r)) with (String ";" ("rport=" ++ ofN (port r))).
      f_equal. clear. induction ("rport=" ++ ofN (port r)) as [|a u IH]; [reflexivity|].
      rewrite append_cons, IH. reflexivity. }
    rewrite R.
    assert (I3 : includes (head ++ ";rport=" ++ ofN (port r)) "received=" = false).
    { change (";rport=" ++ ofN (port r)) with (String ";" ("rport=" ++ ofN (port r))).
      rewrite includes_app_sep, Hrec; [|discriminate|reflexivity].
      change ("rport=" ++ ofN (port r)) with ("r" ++ String "p" ("ort=" ++ ofN (port r))).
      rewrite includes_app_sep; [|discriminate|reflexivity].
      change ("ort=" ++ ofN (port r)) with ("" ++ String "o" ("rt=" ++ ofN (port r))).
      rewrite includes_app_sep; [|discriminate|reflexivity].
      change ("rt=" ++ ofN (port r)) with ("r" ++ String "t" ("=" ++ ofN (port r))).
      rewrite includes_app_sep; [|discriminate|reflexivity].
      change ("=" ++ ofN (port r)) with (String "=" (ofN (port r))).
      cbn [includes]. rewrite (digits_no_received _ (ofN_digits (port r))).
      assert (S0 : startsWith (String "=" (ofN (port r))) "received=" = false).
      { change "received=" with (String "r" "eceived="). rewrite startsWith_cons.
        reflexivity. }
      rewrite S0. reflexivity. }
    rewrite I3. cbn [negb]. rewrite append_assoc. reflexivity.
  - intros v Hv. unfold fixVia. destruct v as [|c v]; [reflexivity|].
    destruct (via_match (String c v)) as [[h g]|]; [|reflexivity].
    rewrite Hv. destruct (negb (h =? address r)%string || negb (_ =? port r)); reflexivity.
Qed.

Lemma nat_fixup_records_the_source_witness :
  fixVia "SIP/2.0/UDP 192.168.1.127:5060;branch=z9hG4bK776;rport" nat_source
  = "SIP/2.0/UDP 192.168.1.127:5060;branch=z9hG4bK776;rport=40000;received=203.0.113.7".
Proof.
  destruct (nat_fixup_records_the_source "192.168.1.127" 5060 ";branch=z9hG4bK776"
              nat_source)
    as (_ & H & _);
    [discriminate|reflexivity|reflexivity|reflexivity|reflexivity|reflexivity
    |reflexivity|reflexivity|].
  apply H. left. discriminate.
Defined.

End Rfc3581Facts.

(** ** Incoming dialogs: the ACK timer and the rejection *)

Module IncomingFacts.
Import JsString SipText Nat_fixup Retry Generate SipGateway Scenario Observe GatewayFacts RetransmissionFacts EngineFacts.

(** X21: the ACK timer of [answerSipCall].  When it expires and the
    dialog has not been acknowledged, the hub is told that the call failed
    with [ACK timeout] and, if the dialog is still in the store, one relay
    [delete] is issued and the dialog removed when it settles; nothing is
    sent to the caller (no BYE).  When the ACK has come the expiry does
    nothing. *)
Theorem ack_timeout_fails_the_call cfg h d loc callId uid (s : gw) x attempts e :
  timers s !! h = Some {| due := d; callback := TAckTimeout loc callId uid |} ->
  heap s !! loc = Some x ->
  let s1 := fire cfg h s in
  timers s1 !! h = None
  /\ sent (out s1) = sent (out s)
  /\ sessions s1 = sessions s
  /\ if ackReceived x then out s1 = out s /\ pending s1 = pending s
     else
       events (out s1) = (events (out s) ++ [call_failed (Some uid) "ACK timeout"])%list
       /\ match get_session callId s with
          | Some (_, x') =>
              relay_calls (out s1)
              = (relay_calls (out s) ++ [(op_delete, delete_payload callId x')])%list
              /\ sessions (resume cfg (next s) attempts e s1) = delete callId (sessions s)
          | None => relay_calls (out s1) = relay_calls (out s) /\ pending s1 = pending s
          end.
Proof.
  intros Ht Hx s1.
  set (s0 := upd_clock (N.max d) (upd_timers (delete h) s)).
  assert (T0 : timers s0 !! h = None) by (simpl; apply lookup_delete_eq).
  set (sl := log (Emit (call_failed (Some uid) "ACK timeout")) s0).
  assert (E : s1 = if ackReceived x then s0 else cleanupSession callId AfterNothing sl).
  { subst s1. unfold fire. rewrite Ht. cbn [callback due run_closure].
    change (heap (upd_clock (N.max d) (upd_timers (delete h) s))) with (heap s).
    rewrite Hx. reflexivity. }
  rewrite E. clear E s1.
  destruct (ackReceived x); [simpl; auto 10|].
  pose proof (cleanupSession_timers_gone callId AfterNothing sl h T0) as C9.
  destruct (get_session callId s) as [[loc' x']|] eqn:G.
  - assert (Gl : get_session callId sl = Some (loc', x')) by exact G.
    destruct (cleanupSession_known callId AfterNothing sl loc' x' Gl)
      as (C1 & C2 & C3 & C4 & C5 & C6 & C7 & C8).
    cbv zeta in C1, C2, C3, C4, C5, C6, C7, C8.
    set (sc := cleanupSession callId AfterNothing sl) in *.
    split; [exact C9|].
    rewrite C1, C4, sent_app, events_app, relay_calls_app.
    change (out sl) with (out s ++ [(clock s0, Emit (call_failed (Some uid) "ACK timeout"))])%list.
    rewrite sent_app, events_app, relay_calls_app. simpl. rewrite !app_nil_r.
    repeat split.
    rewrite (resume_cleanup _ _ _ _ _ callId AfterNothing).
    + unfold cleanupSession_resume. simpl. rewrite C4. reflexivity.
    + rewrite C2. apply lookup_insert_eq.
  - assert (Gl : get_session callId sl = None) by exact G.
    assert (E : cleanupSession callId AfterNothing sl = sl).
    { unfold cleanupSession. rewrite Gl. reflexivity. }
    rewrite E in *. 
    change (out sl) with (out s ++ [(clock s0, Emit (call_failed (Some uid) "ACK timeout"))])%list.
    rewrite sent_app, events_app, relay_calls_app. simpl. rewrite !app_nil_r. auto 10.
Qed.

Lemma ack_timeout_fails_the_call_witness :
  let s1 := fire cfg0 3 s_answered in
  events (out s1)
  = (events (out s_answered) ++ [call_failed (Some "alice") "ACK timeout"])%list
  /\ sent (out s1) = sent (out s_answered)
  /\ sessions (resume cfg0 (next s_answered) relay_ok no_random s1)
     = delete "c1" (sessions s_answered).
Proof.
  assert (Hx : exists x, get_session "c1" s_answered = Some (1%nat, x)
                         /\ heap s_answered !! 1%nat = Some x /\ ackReceived x = false)
    by (eexists; split; [vm_compute; reflexivity|split; vm_compute; reflexivity]).
  destruct Hx as (x & G & Hx & Ha).
  assert (Ht : timers s_answered !! 3%nat
               = Some {| due := 32000; callback := TAckTimeout 1 "c1" "alice" |})
    by (vm_compute; reflexivity).
  pose proof (ack_timeout_fails_the_call cfg0 3 32000 1 "c1" "alice" s_answered x
              relay_ok no_random Ht Hx) as H.
  cbv zeta in H.
  destruct H as (_ & H2 & _ & H4).
  rewrite Ha in H4.
  rewrite G in H4.
  destruct H4 as (H5 & _ & H6).
  intros s1.
  split; [exact H5|].
  split; [exact H2|exact H6].
Defined.



End IncomingFacts.
